(** * T5 / VL-T5 attention machinery (src/models/model_t5.py)

    A shallow embedding of the relative-position bucketing, the T5 layer
    norm, head pruning, the attention cache protocol and the layer/stack
    drivers of [model_t5.py], together with the properties the design
    document states about them.

    Conventions used throughout:
    - [torch.long] tensors are read entry-wise as [Z]: positions and lengths
      never approach the 64-bit range, and where an entry can be any int64
      value (the argument of the bucket function) negation and absolute value
      wrap as they do in the source;
    - the float kernels of the attention and of the layers are parameters;
      the layer norm is stated over its float kernels as parameters, with the
      IEEE 754 arithmetic of the three widths as an instance; where a float
      tensor is read entry-wise as real numbers [R] (the logarithm of the
      bucket function, the position bias and its mask, the region
      embeddings) the model computes the exact value that the float32
      kernels approximate;
    - tensors are modelled for one batch item: every operation of the source
      treats batch items independently;
    - [assert] and [raise] become the [Err] result; a message built with
      [format] is kept as its format string. *)

From Stdlib Require Import ZArith Reals Lra Lia List Bool String SpecFloat.
From stdpp Require Import base strings gmap sets list.
Import ListNotations.

(** ** Exceptions *)

Module Py.

Inductive Error :=
| AssertionError (msg : string)
| ValueError (msg : string)
| IndexError
| TypeError
| AttributeError
| RuntimeError
| ZeroDivisionError.

(** Outcome of a call: a value, or the exception that ended it. *)
Inductive Result (A : Type) :=
| Ok (a : A)
| Err (e : Error).
Arguments Ok {A} a.
Arguments Err {A} e.

Definition bind {A B : Type} (m : Result A) (k : A -> Result B) : Result B :=
  match m with
  | Ok a => k a
  | Err e => Err e
  end.

(** [assert cond, msg] *)
Definition assert (cond : bool) (msg : string) : Result unit :=
  if cond then Ok tt else Err (AssertionError msg).

(** A library call that either returns or raises the given exception. *)
Definition lift {A : Type} (e : Error) (o : option A) : Result A :=
  match o with
  | Some a => Ok a
  | None => Err e
  end.

Fixpoint mapR {A B : Type} (f : A -> Result B) (l : list A) : Result (list B) :=
  match l with
  | [] => Ok []
  | x :: l => bind (f x) (fun y => bind (mapR f l) (fun ys => Ok (y :: ys)))
  end.

Definition is_ok {A : Type} (r : Result A) : bool :=
  match r with Ok _ => true | Err _ => false end.

End Py.

Declare Scope py_scope.
Delimit Scope py_scope with py.
Notation "x <- m ;; k" := (Py.bind m (fun x => k))
  (at level 63, m at next level, right associativity) : py_scope.

(** ** Relative position buckets: [T5Attention._relative_position_bucket] *)

Module Bucket.
Import Py.
Local Open Scope py_scope.
Local Open Scope Z_scope.

(** [x.to(torch.long)]: conversion of a float to an integer truncates
    towards zero. *)
Definition to_long (x : R) : Z :=
  if Rle_dec 0 x then Int_part x else - Int_part (- x).

(** The logarithmic part of the bucket:
    [torch.log(n.float() / max_exact) / math.log(max_distance / max_exact)
       * (num_buckets - max_exact)]. *)
Definition log_term (n max_exact max_distance num_buckets : Z) : R :=
  (ln (IZR n / IZR max_exact) / ln (IZR max_distance / IZR max_exact)
   * IZR (num_buckets - max_exact))%R.

(** The two statements of the [if bidirectional] test: they rebind
    [num_buckets], [ret] and [n]; [abs] is the absolute value taken. *)
Definition direction_split (abs : Z -> Z) (bidirectional : bool) (num_buckets n : Z)
  : Z * Z * Z :=
  if bidirectional then
    let num_buckets := num_buckets / 2 in
    (num_buckets, (if n <? 0 then 1 else 0) * num_buckets, abs n)
  else
    (num_buckets, 0, Z.max n 0).

(** The least [torch.long] value. *)
Definition int64_min : Z := - 2 ^ 63.

(** [-t] and [torch.abs(t)] on an entry of a [torch.long] tensor: the int64
    minimum has no opposite among the int64 values, both operations wrap
    there and return it unchanged. *)
Definition neg (t : Z) : Z := if t =? int64_min then int64_min else - t.

Definition abs (t : Z) : Z := if t =? int64_min then int64_min else Z.abs t.

(** [math.log(max_distance / max_exact)]: the division of two Python
    integers raises [ZeroDivisionError] on a zero divisor, and [math.log]
    raises [ValueError] on a float that is not positive. *)
Definition math_log_ratio (max_distance max_exact : Z) : Result R :=
  if max_exact =? 0 then Err ZeroDivisionError
  else if (max_distance =? 0) || xorb (max_distance <? 0) (max_exact <? 0)
       then Err (ValueError "math domain error")
       else Ok (ln (IZR max_distance / IZR max_exact)).

Definition _relative_position_bucket (relative_position : Z) (bidirectional : bool)
    (num_buckets max_distance : Z) : Result Z :=
  let n := neg relative_position in
  let '(num_buckets, ret, n) := direction_split abs bidirectional num_buckets n in
  let max_exact := num_buckets / 2 in
  let is_small := n <? max_exact in
  scale <- math_log_ratio max_distance max_exact ;;
  let val_if_large :=
    max_exact
    + to_long (ln (IZR n / IZR max_exact) / scale * IZR (num_buckets - max_exact)) in
  let val_if_large := Z.min val_if_large (num_buckets - 1) in
  Ok (ret + (if is_small then n else val_if_large)).

(** What the function returns on an offset other than the int64 minimum,
    where negation and absolute value are exact: the offsets of positions,
    which [compute_bias] passes, are of this kind. *)
Definition bucket_value (relative_position : Z) (bidirectional : bool)
    (num_buckets max_distance : Z) : Z :=
  let n := - relative_position in
  let '(num_buckets, ret, n) := direction_split Z.abs bidirectional num_buckets n in
  let max_exact := num_buckets / 2 in
  let is_small := n <? max_exact in
  let val_if_large :=
    max_exact + to_long (log_term n max_exact max_distance num_buckets) in
  let val_if_large := Z.min val_if_large (num_buckets - 1) in
  ret + (if is_small then n else val_if_large).

(** The clamped logarithmic bucket: the final value of [val_if_large]. *)
Definition large_bucket (max_exact max_distance num_buckets n : Z) : Z :=
  Z.min (max_exact + to_long (log_term n max_exact max_distance num_buckets))
        (num_buckets - 1).

(** Names for the quantities the function derives from its arguments. *)
Definition effective_buckets (bidirectional : bool) (num_buckets : Z) : Z :=
  if bidirectional then num_buckets / 2 else num_buckets.

Definition max_exact_of (bidirectional : bool) (num_buckets : Z) : Z :=
  effective_buckets bidirectional num_buckets / 2.

(** Distance that is bucketed: the magnitude of the offset when
    bidirectional, the distance into the past (0 for the future) otherwise. *)
Definition distance_of (bidirectional : bool) (relative_position : Z) : Z :=
  if bidirectional then Z.abs relative_position else Z.max (- relative_position) 0.

(** First bucket of the half the offset falls in. *)
Definition half_base (bidirectional : bool) (num_buckets relative_position : Z) : Z :=
  if bidirectional && (0 <? relative_position)
  then effective_buckets bidirectional num_buckets else 0.

(** The offsets a [torch.long] tensor can hold whose opposite it can hold as
    well: every int64 value but the least.  A relative position, the
    difference of two positions, is one of them. *)
Definition offset_in_range (relative_position : Z) : Prop :=
  - 2 ^ 63 < relative_position < 2 ^ 63.

(** Bucket parameters with which a call returns, as it does with the default
    32 and 128: at least one exact bucket ([max_exact >= 1], the divisor of
    the logarithm's argument), an exact region that ends before
    [max_distance] (a positive logarithm to divide by), and sizes (at most
    2^16 buckets, a distance below 2^63) with which no conversion between
    Python integers, floats and int64 overflows. *)
Definition parameters_ok (bidirectional : bool) (num_buckets max_distance : Z) : Prop :=
  1 <= max_exact_of bidirectional num_buckets
  /\ max_exact_of bidirectional num_buckets < max_distance
  /\ num_buckets <= 2 ^ 16
  /\ max_distance < 2 ^ 63.


End Bucket.

(** ** T5 layer normalisation: [T5LayerNorm] *)

(** The norm with its tensors read entry-wise as real numbers.  This is the
    record of parameters the layers hold and the reading in which the
    visual embedding is followed through its shapes; the values the float
    kernels return are the subject of [FloatLayerNorm] below. *)
Module LayerNorm.
Local Open Scope R_scope.

(** Floating-point element types, ordered by precision. *)
Inductive Dtype := float16 | float32 | float64.

Definition dtype_eqb (a b : Dtype) : bool :=
  match a, b with
  | float16, float16 | float32, float32 | float64, float64 => true
  | _, _ => false
  end.

(** Result type of a binary operation on two floating tensors. *)
Definition promote (a b : Dtype) : Dtype :=
  match a, b with
  | float64, _ | _, float64 => float64
  | float32, _ | _, float32 => float32
  | float16, float16 => float16
  end.

(** One vector along the last axis, tagged with its element type; the norm
    treats every such vector of its input independently. *)
Record Tensor := mkTensor { dtype : Dtype; data : list R }.

(** [t.to(d)] *)
Definition to (d : Dtype) (t : Tensor) : Tensor := mkTensor d (data t).

(** [t.pow(2)] *)
Definition pow2 (t : Tensor) : Tensor :=
  mkTensor (dtype t) (map (fun v => v * v) (data t)).

Definition sum_list (l : list R) : R := fold_right Rplus 0 l.

(** [t.mean(-1, keepdim=True)]: the last axis is reduced to length 1. *)
Definition mean_keepdim (t : Tensor) : Tensor :=
  mkTensor (dtype t) [sum_list (data t) / INR (length (data t))].

(** [t + c] for a Python scalar [c], and [torch.sqrt]. *)
Definition add_scalar (t : Tensor) (c : R) : Tensor :=
  mkTensor (dtype t) (map (fun v => v + c) (data t)).

Definition sqrt_t (t : Tensor) : Tensor :=
  mkTensor (dtype t) (map sqrt (data t)).

(** Element-wise binary operation with broadcasting of a length-1 axis. *)
Definition broadcast (op : R -> R -> R) (a b : Tensor) : Tensor :=
  mkTensor (promote (dtype a) (dtype b))
    match data a, data b with
    | xs, [d] => map (fun v => op v d) xs
    | [c], ys => map (fun v => op c v) ys
    | xs, ys => zip_with op xs ys
    end.

Record T5LayerNorm := mkT5LayerNorm { weight : Tensor; variance_epsilon : R }.

(** [variance = x.to(torch.float32).pow(2).mean(-1, keepdim=True)] *)
Definition variance (x : Tensor) : Tensor :=
  mean_keepdim (pow2 (to float32 x)).

Definition forward (self : T5LayerNorm) (x : Tensor) : Tensor :=
  let variance := variance x in
  let x := broadcast Rdiv x (sqrt_t (add_scalar variance (variance_epsilon self))) in
  let x := if dtype_eqb (dtype (weight self)) float16 then to float16 x else x in
  broadcast Rmult (weight self) x.

(** Mean of the squares along the last axis. *)
Definition mean_square (l : list R) : R :=
  sum_list (map (fun v => v * v) l) / INR (length l).

End LayerNorm.

(** ** [T5LayerNorm] on floating-point tensors *)

Module FloatLayerNorm.
Import Py.
Export LayerNorm(Dtype, float16, float32, float64, dtype_eqb, promote).
Local Open Scope py_scope.

(** The floating-point kernels of torch the norm is made of.  [Float] holds
    the values of every element type; each kernel takes the element type it
    computes in and returns a value of that type. *)
Class FloatKernels := {
  Float : Type;
  (** conversion of a value to an element type *)
  cast : Dtype -> Float -> Float;
  (** [v * v], what [pow(2)] computes *)
  f_pow2 : Dtype -> Float -> Float;
  (** the mean of the values along an axis *)
  f_mean : Dtype -> list Float -> Float;
  f_add : Dtype -> Float -> Float -> Float;
  f_sqrt : Dtype -> Float -> Float;
  f_div : Dtype -> Float -> Float -> Float;
  f_mul : Dtype -> Float -> Float -> Float
}.

Section WithKernels.
Context {kernels : FloatKernels}.

(** One vector along the last axis with its element type; the norm treats
    every such vector of its input independently. *)
Record Tensor := mkTensor { dtype : Dtype; data : list Float }.

(** [t.to(d)]: the tensor itself when it has that element type *)
Definition to (d : Dtype) (t : Tensor) : Tensor :=
  if dtype_eqb (dtype t) d then t else mkTensor d (cast d <$> data t).

(** A value of element type [from] as a tensor converted to [d] holds it. *)
Definition converted (from d : Dtype) (v : Float) : Float :=
  if dtype_eqb from d then v else cast d v.

(** [t.pow(2)] *)
Definition pow2 (t : Tensor) : Tensor :=
  mkTensor (dtype t) (f_pow2 (dtype t) <$> data t).

(** [t.mean(-1, keepdim=True)]: the last axis is reduced to length 1. *)
Definition mean_keepdim (t : Tensor) : Tensor :=
  mkTensor (dtype t) [f_mean (dtype t) (data t)].

(** [t + c] for a Python float [c]: the sum is computed in the element type
    of the tensor, to which the scalar is converted. *)
Definition add_scalar (t : Tensor) (c : Float) : Tensor :=
  mkTensor (dtype t) ((fun v => f_add (dtype t) v (cast (dtype t) c)) <$> data t).

(** [torch.sqrt(t)] *)
Definition sqrt_t (t : Tensor) : Tensor :=
  mkTensor (dtype t) (f_sqrt (dtype t) <$> data t).

(** An element-wise binary operation on two tensors: both are converted to
    the promoted element type, in which the operation is computed; an axis of
    length 1 is broadcast, other lengths must agree. *)
Definition broadcast (op : Dtype -> Float -> Float -> Float) (a b : Tensor)
  : Result Tensor :=
  let d := promote (dtype a) (dtype b) in
  let a := to d a in
  let b := to d b in
  match data a, data b with
  | xs, [y] => Ok (mkTensor d ((fun x => op d x y) <$> xs))
  | [x], ys => Ok (mkTensor d (op d x <$> ys))
  | xs, ys =>
      if length xs =? length ys then Ok (mkTensor d (zip_with (op d) xs ys))
      else Err RuntimeError
  end.

(** [variance_epsilon] is a Python float, a value of type float64. *)
Record T5LayerNorm := mkT5LayerNorm { weight : Tensor; variance_epsilon : Float }.

(** [variance = x.to(torch.float32).pow(2).mean(-1, keepdim=True)] *)
Definition variance (x : Tensor) : Tensor :=
  mean_keepdim (pow2 (to float32 x)).

Definition forward (self : T5LayerNorm) (x : Tensor) : Result Tensor :=
  (* layer norm should always be calculated in float32 *)
  let variance := variance x in
  x <- broadcast f_div x (sqrt_t (add_scalar variance (variance_epsilon self))) ;;
  let x := if dtype_eqb (dtype (weight self)) float16 then to float16 x else x in
  broadcast f_mul (weight self) x.

End WithKernels.

(** *** The kernels of IEEE 754 arithmetic *)

(** Precision and exponent bound of the binary formats. *)
Definition prec (d : Dtype) : Z :=
  match d with float16 => 11 | float32 => 24 | float64 => 53 end.

Definition emax (d : Dtype) : Z :=
  match d with float16 => 16 | float32 => 128 | float64 => 1024 end.

(** Rounding of a value to a format, to nearest, ties to even. *)
Definition round_to (d : Dtype) (v : spec_float) : spec_float :=
  match v with
  | S754_finite s m e => binary_normalize (prec d) (emax d) (cond_Zopp s (Zpos m)) e s
  | _ => v
  end.

Definition of_Z (d : Dtype) (n : Z) : spec_float :=
  binary_normalize (prec d) (emax d) n 0 false.

(** The mean as the sum taken from left to right, divided by the count.  The
    order in which torch adds is its own. *)
Definition ieee_mean (d : Dtype) (l : list spec_float) : spec_float :=
  SFdiv (prec d) (emax d)
    (fold_left (SFadd (prec d) (emax d)) l (S754_zero false))
    (of_Z d (Z.of_nat (length l))).

Definition ieee_kernels : FloatKernels :=
  {| Float := spec_float;
     cast := round_to;
     f_pow2 := fun d v => SFmul (prec d) (emax d) v v;
     f_mean := ieee_mean;
     f_add := fun d => SFadd (prec d) (emax d);
     f_sqrt := fun d => SFsqrt (prec d) (emax d);
     f_div := fun d => SFdiv (prec d) (emax d);
     f_mul := fun d => SFmul (prec d) (emax d) |}.

(** The Python float [1e-6]: the float64 nearest to [1 / 10^6]. *)
Definition python_1e_6 : spec_float :=
  SFdiv (prec float64) (emax float64) (of_Z float64 1) (of_Z float64 1000000).

(** A tensor of the element type [d] holding the given integers, and a norm
    with such a weight. *)
Definition ieee_tensor (d : Dtype) (values : list Z) : @Tensor ieee_kernels :=
  @mkTensor ieee_kernels d (of_Z d <$> values).

Definition ieee_norm (d : Dtype) (weight : list Z) (eps : spec_float)
  : @T5LayerNorm ieee_kernels :=
  @mkT5LayerNorm ieee_kernels (ieee_tensor d weight) eps.

End FloatLayerNorm.

(** ** The attention module and its parameters *)

Module Modules.

(** Weight of a bias-free [nn.Linear]: [out_features] rows of
    [in_features] entries. *)
Definition Linear := list (list R).

(** [nn.Embedding(num_embeddings, embedding_dim)] *)
Record Embedding := mkEmbedding {
  num_embeddings : nat;
  embedding_dim : nat;
  weight : list (list R)
}.

(** The attributes [T5Attention.__init__] sets.  [relative_attention_bias]
    exists only on a module built with [has_relative_attention_bias]. *)
Record T5Attention := mkT5Attention {
  is_decoder : bool;
  has_relative_attention_bias : bool;
  relative_attention_num_buckets : Z;
  d_model : nat;
  d_kv : nat;
  n_heads : nat;
  dropout : R;
  inner_dim : nat;
  q : Linear; k : Linear; v : Linear; o : Linear;
  relative_attention_bias : option Embedding;
  pruned_heads : gset nat
}.

End Modules.

(** ** Head pruning: [T5Attention.prune_heads] *)

Module Prune.
Import Py Modules.
Local Open Scope py_scope.

(** Modelled from the spec: the loop variable update
    [head - sum(1 if h < head else 0 for h in already_pruned_heads)] of
    [find_pruneable_heads_and_indices], a function of
    [transformers.modeling_utils] whose code is not among the sources. *)
Definition shifted_head (already_pruned_heads : gset nat) (head : nat) : nat :=
  head - size (filter (fun h => h < head) already_pruned_heads).

(** Modelled from the spec: [mask[head] = 0] in
    [find_pruneable_heads_and_indices] (not among the sources); an index past
    the last row raises. *)
Definition clear_row (head_size : nat) (mask : list (list bool)) (head : nat)
  : option (list (list bool)) :=
  if head <? length mask then Some (<[head := replicate head_size false]> mask)
  else None.

(** Modelled from the spec: the loop [for head in heads] of
    [find_pruneable_heads_and_indices] (not among the sources). *)
Fixpoint clear_rows (head_size : nat) (mask : list (list bool)) (heads : list nat)
  : option (list (list bool)) :=
  match heads with
  | [] => Some mask
  | head :: heads =>
      match clear_row head_size mask head with
      | Some mask => clear_rows head_size mask heads
      | None => None
      end
  end.

(** Modelled from the spec: [torch.arange(len(mask))[mask]] in
    [find_pruneable_heads_and_indices] (not among the sources): the positions
    that are still set. *)
Fixpoint positions_from (i : nat) (mask : list bool) : list nat :=
  match mask with
  | [] => []
  | b :: mask => if b then i :: positions_from (S i) mask
                 else positions_from (S i) mask
  end.

(** Modelled from the spec: [find_pruneable_heads_and_indices] is imported
    from [transformers.modeling_utils] and its code is not among the sources.
    The design document says that pruning "removes specified head indices
    from the projection matrices" and that "pruned heads are recorded so
    repeated pruning is idempotent per head index"; the model follows the
    library's published behaviour: heads already recorded are dropped from
    the request, every remaining head is shifted down by the number of
    recorded heads before it, its row is cleared in an all-ones
    [n_heads x head_size] mask, and the positions still set form the index.
    Head indices are natural numbers. *)
Definition find_pruneable_heads_and_indices (heads : list nat) (n_heads head_size : nat)
    (already_pruned_heads : gset nat) : Result (gset nat * list nat) :=
  let mask := replicate n_heads (replicate head_size true) in
  let heads : gset nat := list_to_set heads ∖ already_pruned_heads in
  mask <- lift IndexError
            (clear_rows head_size mask
               (shifted_head already_pruned_heads <$> elements heads)) ;;
  let mask := concat mask in
  Ok (heads, positions_from 0 mask).

(** Modelled from the spec: [layer.weight.index_select(dim, index)] of
    [prune_linear_layer] (not among the sources); an index outside the axis
    raises. *)
Definition index_select {A : Type} (l : list A) (index : list nat) : Result (list A) :=
  lift IndexError (mapM (fun i => l !! i) index).

(** Modelled from the spec: [prune_linear_layer] is imported from
    [transformers.modeling_utils] and its code is not among the sources; it
    returns a new layer that keeps the entries of the weight named by
    [index] along axis [dim] (rows for 0, columns for 1). *)
Definition prune_linear_layer (layer : Linear) (index : list nat) (dim : nat)
  : Result Linear :=
  match dim with
  | O => index_select layer index
  | _ => mapR (fun row => index_select row index) layer
  end.

Definition prune_heads (self : T5Attention) (heads : list nat) : Result T5Attention :=
  if length heads =? 0 then Ok self
  else
    found <- find_pruneable_heads_and_indices heads (n_heads self)
               (d_kv self) (pruned_heads self) ;;
    let '(heads, index) := found in
    q' <- prune_linear_layer (q self) index 0 ;;
    k' <- prune_linear_layer (k self) index 0 ;;
    v' <- prune_linear_layer (v self) index 0 ;;
    o' <- prune_linear_layer (o self) index 1 ;;
    let n_heads' := n_heads self - size heads in
    Ok {| is_decoder := is_decoder self;
          has_relative_attention_bias := has_relative_attention_bias self;
          relative_attention_num_buckets := relative_attention_num_buckets self;
          d_model := d_model self;
          d_kv := d_kv self;
          n_heads := n_heads';
          dropout := dropout self;
          inner_dim := d_kv self * n_heads';
          q := q'; k := k'; v := v'; o := o';
          relative_attention_bias := relative_attention_bias self;
          pruned_heads := pruned_heads self ∪ heads |}.

(** A sequence of pruning calls on one module. *)
Fixpoint prune_calls (self : T5Attention) (calls : list (list nat)) : Result T5Attention :=
  match calls with
  | [] => Ok self
  | heads :: calls => self <- prune_heads self heads ;; prune_calls self calls
  end.

(** The shape the constructor and every completed pruning establish: the
    projections have one block of [d_kv] rows (columns for [o]) per head. *)
Definition consistent (self : T5Attention) : Prop :=
  length (q self) = n_heads self * d_kv self
  /\ length (k self) = n_heads self * d_kv self
  /\ length (v self) = n_heads self * d_kv self
  /\ Forall (fun row => length row = n_heads self * d_kv self) (o self)
  /\ inner_dim self = d_kv self * n_heads self.

(** All the head indices named by a sequence of calls. *)
Definition requested (calls : list (list nat)) : gset nat :=
  ⋃ (list_to_set <$> calls).

End Prune.

(** ** Attention, layers and stacks: the [forward] methods *)

Module Forward.
Import Py Modules.
Local Open Scope py_scope.

(** A float tensor indexed [head][query][key] (attention weights, position
    bias), and an additive mask indexed [query][key] with one row when it is
    the same for every query; masks are shared by all heads. *)
Abbreviation Tensor4 := (list (list (list R))).
Abbreviation Mask := (list (list R)).

(** The tensor kernels of the torch library that the forward passes call.
    A hidden state is a list, along the sequence axis, of slices [Hid]; key,
    value and query states are lists, along the sequence axis, of slices
    [Proj]. *)
Class Torch := {
  Hid : Type;
  Proj : Type;
  HeadMask : Type;
  (** [shape(linear(x))], one position *)
  linear_in : Linear -> Hid -> Proj;
  (** [linear(unshape(x))], one position *)
  linear_out : Linear -> Proj -> Hid;
  (** [F.dropout(F.softmax(torch.einsum("bnqd,bnkd->bnqk", q, k) + position_bias))] *)
  attention_probs : R -> list Proj -> list Proj -> Tensor4 -> Tensor4;
  (** [weights * head_mask] *)
  mul_head_mask : Tensor4 -> HeadMask -> Tensor4;
  (** [torch.matmul(weights, v)] *)
  matmul : Tensor4 -> list Proj -> list Proj;
  (** [T5LayerNorm.forward], one position *)
  t5_layer_norm : LayerNorm.T5LayerNorm -> Hid -> Hid;
  (** [hidden_states + self.dropout(y)] *)
  residual : list Hid -> list Hid -> list Hid;
  (** [wo(dropout(relu(wi(x))))], one position *)
  dense_relu_dense : Linear -> Linear -> Hid -> Hid;
  (** [nn.Dropout] on a hidden state *)
  dropout_hidden : list Hid -> list Hid;
  (** [PreTrainedModel.get_extended_attention_mask(attention_mask, input_shape)],
      which reads [config.is_decoder] *)
  get_extended_attention_mask : bool -> list R -> nat -> Mask;
  (** [PreTrainedModel.invert_attention_mask] *)
  invert_attention_mask : list R -> Mask;
  (** [PreTrainedModel.get_head_mask(head_mask, num_layers)] *)
  get_head_mask : option HeadMask -> nat -> list (option HeadMask)
}.

Section WithTorch.
Context {torch : Torch}.

(** An entry of the tuples the forward methods return. *)
Inductive Value :=
| VNone
| VHidden (hidden_states : list Hid)
| VStates (states : list (list Proj))
| VScores (t : Tensor4).

(** [t[i]] on a tuple *)
Definition item {A : Type} (t : list A) (i : nat) : Result A :=
  lift IndexError (t !! i).

Definition as_hidden (x : Value) : Result (list Hid) :=
  match x with VHidden h => Ok h | _ => Err TypeError end.

(** A position-bias argument: [None] or a tensor. *)
Definition as_bias (x : Value) : Result (option Tensor4) :=
  match x with
  | VNone => Ok None
  | VScores t => Ok (Some t)
  | _ => Err TypeError
  end.

(** *** Broadcasting addition of a mask to a position bias *)

Definition broadcast2 {A : Type} (f : A -> A -> Result A) (xs ys : list A)
  : Result (list A) :=
  match xs, ys with
  | [x], _ => mapR (f x) ys
  | _, [y] => mapR (fun x => f x y) xs
  | _, _ => if length xs =? length ys
            then mapR (fun xy => f (fst xy) (snd xy)) (zip xs ys)
            else Err RuntimeError
  end.

Definition add_rows : list R -> list R -> Result (list R) :=
  broadcast2 (fun a b => Ok (a + b)%R).

Definition add_matrix : list (list R) -> list (list R) -> Result (list (list R)) :=
  broadcast2 add_rows.

(** [position_bias + mask] *)
Definition add_mask (position_bias : Tensor4) (mask : Mask) : Result Tensor4 :=
  mapR (fun head => add_matrix head mask) position_bias.

(** [position_bias[:, :, -1:, :]] *)
Definition last_query_row (position_bias : Tensor4) : Tensor4 :=
  (fun head => drop (length head - 1) head) <$> position_bias.

(** *** [T5Attention.compute_bias] *)

(** [self.relative_attention_bias(rp_bucket)], one index *)
Definition embedding_lookup (emb : Embedding) (index : Z) : Result (list R) :=
  if (0 <=? index)%Z && (index <? Z.of_nat (num_embeddings emb))%Z
  then lift IndexError (weight emb !! Z.to_nat index)
  else Err IndexError.

(** [memory_position - context_position], shape [(qlen, klen)] *)
Definition relative_positions (qlen klen : nat) : list (list Z) :=
  (fun context_position =>
     (fun memory_position => (Z.of_nat memory_position - Z.of_nat context_position)%Z)
       <$> seq 0 klen) <$> seq 0 qlen.

Definition compute_bias (self : T5Attention) (qlen klen : nat) : Result Tensor4 :=
  let relative_position := relative_positions qlen klen in
  (* self._relative_position_bucket(relative_position, ...): what it raises
     depends on the parameters alone, and on the offsets of positions, which
     are far from the int64 minimum, its integer arithmetic is exact *)
  _ <- Bucket.math_log_ratio 128
         (Bucket.max_exact_of (negb (is_decoder self))
            (relative_attention_num_buckets self)) ;;
  let rp_bucket :=
    fmap (M := list)
      (fmap (M := list)
         (fun r => Bucket.bucket_value r (negb (is_decoder self))
                     (relative_attention_num_buckets self) 128))
      relative_position in
  emb <- lift AttributeError (relative_attention_bias self) ;;
  values <- mapR (mapR (embedding_lookup emb)) rp_bucket ;;
  (* values.permute([2, 0, 1]).unsqueeze(0) *)
  mapR (fun head => mapR (mapR (fun at_pair => item at_pair head)) values)
       (seq 0 (embedding_dim emb)).

(** The entries of the bias tensor: for head [head], query [i] and key [j],
    the learned scalar of the bucket of [j - i]. *)
Definition bias_entry (self : T5Attention) (emb : Embedding) (head i j : nat) : R :=
  let bucket :=
    Bucket.bucket_value (Z.of_nat j - Z.of_nat i)
      (negb (is_decoder self)) (relative_attention_num_buckets self) 128 in
  nth head (nth (Z.to_nat bucket) (weight emb) []) 0%R.

Definition bias_tensor (self : T5Attention) (emb : Embedding) (qlen klen : nat)
  : Tensor4 :=
  (fun head => (fun i => (fun j => bias_entry self emb head i j) <$> seq 0 klen)
                 <$> seq 0 qlen) <$> seq 0 (embedding_dim emb).

(** The bias table as [__init__] builds it,
    [nn.Embedding(relative_attention_num_buckets, n_heads)], for a bucket
    configuration with an exact region that ends before [max_distance]. *)
Definition bias_table_ok (self : T5Attention) (emb : Embedding) : Prop :=
  relative_attention_bias self = Some emb
  /\ Z.of_nat (num_embeddings emb) = relative_attention_num_buckets self
  /\ length (weight emb) = num_embeddings emb
  /\ Forall (fun row => length row = embedding_dim emb) (weight emb)
  /\ (1 <= Bucket.max_exact_of (negb (is_decoder self))
             (relative_attention_num_buckets self) < 128)%Z.

(** The position bias a layer makes for itself when none is passed in:
    computed from the lengths, cut to the newest query row when a cache is in
    use, the mask added. *)
Definition fresh_position_bias (self : T5Attention) (real_qlen klen : nat)
    (cached : bool) (mask : option Mask) : Result Tensor4 :=
  position_bias <- compute_bias self real_qlen klen ;;
  let position_bias :=
    if cached then last_query_row position_bias else position_bias in
  match mask with
  | Some mask => add_mask position_bias mask
  | None => Ok position_bias
  end.

(** [used] is the bias a call of the module works with: the one passed in,
    or the one the module makes for itself. *)
Definition bias_used (self : T5Attention) (position_bias : option Tensor4)
    (real_qlen klen : nat) (cached : bool) (mask : option Mask) (used : Tensor4)
  : Prop :=
  match position_bias with
  | Some given => used = given
  | None =>
      has_relative_attention_bias self = true
      /\ fresh_position_bias self real_qlen klen cached mask = Ok used
  end.

(** The module with other key and value projections. *)
Definition with_kv_weights (self : T5Attention) (k' v' : Linear) : T5Attention :=
  {| is_decoder := is_decoder self;
     has_relative_attention_bias := has_relative_attention_bias self;
     relative_attention_num_buckets := relative_attention_num_buckets self;
     d_model := d_model self;
     d_kv := d_kv self;
     n_heads := n_heads self;
     dropout := dropout self;
     inner_dim := inner_dim self;
     q := q self; k := k'; v := v'; o := o self;
     relative_attention_bias := relative_attention_bias self;
     pruned_heads := pruned_heads self |}.

(** *** [T5Attention.forward] *)

Definition T5Attention_forward (self : T5Attention) (input : list Hid)
    (mask : option Mask) (kv : option (list Hid)) (position_bias : option Tensor4)
    (past_key_value_state : option (list (list Proj))) (head_mask : option HeadMask)
    (query_length : option nat) (use_cache output_attentions : bool)
  : Result (list Value) :=
  let qlen := length input in
  real_qlen <-
    match past_key_value_state with
    | Some past =>
        _ <- assert (is_decoder self) "Encoder cannot cache past key value states" ;;
        _ <- assert (length past =? 2)
               "past_key_value_state should have 2 past states: keys and values. Got {} past states" ;;
        match query_length with
        | None => past_0 <- item past 0 ;; Ok (qlen + length past_0)
        | Some query_length => Ok query_length
        end
    | None => Ok qlen
    end ;;
  let klen := match kv with None => real_qlen | Some kv => length kv end in
  let q_states := linear_in (q self) <$> input in
  (* if kv is None: ... elif past_key_value_state is None: ... *)
  let projected :=
    match kv, past_key_value_state with
    | None, _ => Some (linear_in (k self) <$> input, linear_in (v self) <$> input)
    | Some kv, None => Some (linear_in (k self) <$> kv, linear_in (v self) <$> kv)
    | Some _, Some _ => None
    end in
  states <-
    match past_key_value_state with
    | Some past =>
        match kv, past, projected with
        | None, [k_; v_], Some (k_new, v_new) => Ok (k_ ++ k_new, v_ ++ v_new)
        | Some _, [k_past; v_past], _ => Ok (k_past, v_past)
        | _, _, _ => Err (ValueError "not enough values to unpack")
        end
    | None => lift TypeError projected
    end ;;
  let k_states := fst states in
  let v_states := snd states in
  let present_key_value_state :=
    if is_decoder self && use_cache then VStates [k_states; v_states] else VNone in
  position_bias <-
    match position_bias with
    | None =>
        if negb (has_relative_attention_bias self)
        then Err (ValueError
                    "No position_bias provided and no weights to compute position_bias")
        else
          (* compute_bias, [:, :, -1:, :] when caching, + mask *)
          fresh_position_bias self real_qlen klen
            (match past_key_value_state with Some _ => true | None => false end) mask
    | Some position_bias => Ok position_bias
    end ;;
  let weights := attention_probs (dropout self) q_states k_states position_bias in
  let weights :=
    match head_mask with
    | Some head_mask => mul_head_mask weights head_mask
    | None => weights
    end in
  let context := linear_out (o self) <$> matmul weights v_states in
  Ok ([VHidden context; present_key_value_state]
        ++ (if output_attentions then [VScores weights] else [])
        ++ (if has_relative_attention_bias self then [VScores position_bias] else [])).

(** The query length a self-attention layer works with: the input's, plus
    the cached positions. *)
Definition total_length (hidden_states : list Hid) (past : option (list (list Proj)))
  : nat :=
  match past with
  | None => length hidden_states
  | Some past => length hidden_states + length (nth 0 past [])
  end.

Definition is_cached (past : option (list (list Proj))) : bool :=
  match past with Some _ => true | None => false end.

(** *** [T5LayerSelfAttention], [T5LayerCrossAttention], [T5LayerFF] *)

Record T5LayerSelfAttention := mkT5LayerSelfAttention {
  SelfAttention : T5Attention;
  SelfAttention_layer_norm : LayerNorm.T5LayerNorm
}.

Record T5LayerCrossAttention := mkT5LayerCrossAttention {
  EncDecAttention : T5Attention;
  EncDecAttention_layer_norm : LayerNorm.T5LayerNorm
}.

Record T5LayerFF := mkT5LayerFF {
  DenseReluDense_wi : Linear;
  DenseReluDense_wo : Linear;
  FF_layer_norm : LayerNorm.T5LayerNorm
}.

Definition T5LayerSelfAttention_forward (self : T5LayerSelfAttention)
    (hidden_states : list Hid) (attention_mask : option Mask)
    (position_bias : option Tensor4) (head_mask : option HeadMask)
    (past_key_value_state : option (list (list Proj)))
    (use_cache output_attentions : bool) : Result (list Value) :=
  let norm_x := t5_layer_norm (SelfAttention_layer_norm self) <$> hidden_states in
  attention_output <-
    T5Attention_forward (SelfAttention self) norm_x attention_mask None position_bias
      past_key_value_state head_mask None use_cache output_attentions ;;
  y <- item attention_output 0 ;;
  y <- as_hidden y ;;
  let layer_output := residual hidden_states y in
  Ok (VHidden layer_output :: drop 1 attention_output).

Definition T5LayerCrossAttention_forward (self : T5LayerCrossAttention)
    (hidden_states : list Hid) (kv : list Hid) (attention_mask : option Mask)
    (position_bias : option Tensor4) (head_mask : option HeadMask)
    (past_key_value_state : option (list (list Proj)))
    (use_cache : bool) (query_length : option nat) (output_attentions : bool)
  : Result (list Value) :=
  let norm_x := t5_layer_norm (EncDecAttention_layer_norm self) <$> hidden_states in
  attention_output <-
    T5Attention_forward (EncDecAttention self) norm_x attention_mask (Some kv)
      position_bias past_key_value_state head_mask query_length use_cache
      output_attentions ;;
  y <- item attention_output 0 ;;
  y <- as_hidden y ;;
  let layer_output := residual hidden_states y in
  Ok (VHidden layer_output :: drop 1 attention_output).

Definition T5LayerFF_forward (self : T5LayerFF) (hidden_states : list Hid) : list Hid :=
  let norm_x := t5_layer_norm (FF_layer_norm self) <$> hidden_states in
  let y := dense_relu_dense (DenseReluDense_wi self) (DenseReluDense_wo self) <$> norm_x in
  residual hidden_states y.

(** *** [T5Block] *)

(** [self.layer]: the self-attention layer, the cross-attention layer of a
    decoder block, the feed-forward layer.

    [wrapped] says how the block sits in the [block] list of a stack: bare,
    as [T5Stack.__init__] and [JointEncoder.__init__] put it there, or inside
    a wrapper that exposes it as the attribute [module] and whose call is the
    call of the block (what [nn.DataParallel] makes of a module).  A bare
    [T5Block] has no attribute [module]. *)
Record T5Block := mkT5Block {
  block_is_decoder : bool;
  layer_0 : T5LayerSelfAttention;
  layer_1 : option T5LayerCrossAttention;
  layer_last : T5LayerFF;
  wrapped : bool
}.

(** [layer_module.module] on an entry of [self.block] *)
Definition module (layer_module : T5Block) : Result T5Block :=
  if wrapped layer_module then Ok layer_module else Err AttributeError.

(** [2 if encoder_hidden_states is None else 4] *)
Definition expected_past (encoder_hidden_states : option (list Hid)) : nat :=
  match encoder_hidden_states with None => 2 | Some _ => 4 end.

Definition T5Block_forward (self : T5Block) (hidden_states : list Hid)
    (attention_mask : option Mask) (position_bias : option Tensor4)
    (encoder_hidden_states : option (list Hid)) (encoder_attention_mask : option Mask)
    (encoder_decoder_position_bias : option Tensor4) (head_mask : option HeadMask)
    (past_key_value_state : option (list (list Proj)))
    (use_cache output_attentions : bool) : Result (list Value) :=
  pasts <-
    match past_key_value_state with
    | Some past =>
        _ <- assert (block_is_decoder self)
               "Only decoder can use `past_key_value_states`" ;;
        let expected_num_past_key_value_states :=
          expected_past encoder_hidden_states in
        _ <- assert (length past =? expected_num_past_key_value_states)
               "There should be {} past states. 2 (past / key) for self attention.{} Got {} past key / value states" ;;
        Ok (Some (take 2 past), Some (drop 2 past))
    | None => Ok (None, None)
    end ;;
  let self_attn_past_key_value_state := fst pasts in
  let cross_attn_past_key_value_state := snd pasts in
  self_attention_outputs <-
    T5LayerSelfAttention_forward (layer_0 self) hidden_states attention_mask
      position_bias head_mask self_attn_past_key_value_state use_cache
      output_attentions ;;
  hidden_states <- item self_attention_outputs 0 ;;
  hidden_states <- as_hidden hidden_states ;;
  present_key_value_state <- item self_attention_outputs 1 ;;
  let attention_outputs := drop 2 self_attention_outputs in
  after_cross <-
    match encoder_hidden_states with
    | Some encoder_hidden_states =>
        if block_is_decoder self then
          query_length <-
            match present_key_value_state with
            | VNone => Ok None
            | VStates states => key <- item states 0 ;; Ok (Some (length key))
            | _ => Err TypeError
            end ;;
          cross <- lift IndexError (layer_1 self) ;;
          cross_attention_outputs <-
            T5LayerCrossAttention_forward cross hidden_states encoder_hidden_states
              encoder_attention_mask encoder_decoder_position_bias head_mask
              cross_attn_past_key_value_state use_cache query_length
              output_attentions ;;
          hidden_states <- item cross_attention_outputs 0 ;;
          hidden_states <- as_hidden hidden_states ;;
          present_key_value_state <-
            match present_key_value_state with
            | VNone => Ok VNone
            | VStates states =>
                cross_present <- item cross_attention_outputs 1 ;;
                match cross_present with
                | VStates cross_states => Ok (VStates (states ++ cross_states))
                | _ => Err TypeError
                end
            | _ => Err TypeError
            end ;;
          Ok (hidden_states, present_key_value_state,
              attention_outputs ++ drop 2 cross_attention_outputs)
        else Ok (hidden_states, present_key_value_state, attention_outputs)
    | None => Ok (hidden_states, present_key_value_state, attention_outputs)
    end ;;
  let hidden_states := fst (fst after_cross) in
  let present_key_value_state := snd (fst after_cross) in
  let attention_outputs := snd after_cross in
  let hidden_states := T5LayerFF_forward (layer_last self) hidden_states in
  Ok ([VHidden hidden_states] ++ [present_key_value_state] ++ attention_outputs).

(** *** [T5Stack] *)

(** The fields of the configuration that the stacks read. *)
Record T5Config := mkT5Config {
  config_use_cache : bool;
  config_output_attentions : bool;
  config_output_hidden_states : bool;
  num_layers : nat;
  pad_token_id : Z
}.

(** [embed_tokens] maps a token id to its embedding and raises on an id
    outside the vocabulary. *)
Record T5Stack := mkT5Stack {
  config : T5Config;
  embed_tokens : option (Z -> option Hid);
  stack_is_decoder : bool;
  block : list T5Block;
  final_layer_norm : LayerNorm.T5LayerNorm
}.

(** The variables the layer loop carries from one iteration to the next. *)
Record LoopState := mkLoopState {
  loop_hidden_states : list Hid;
  loop_position_bias : Value;
  loop_encoder_decoder_position_bias : Value;
  loop_present_key_value_states : list Value;
  loop_all_hidden_states : list (list Hid);
  loop_all_attentions : list Value
}.

(** One iteration of [for i, (layer_module, past_key_value_state) in
    enumerate(zip(self.block, past_key_value_states))]. *)
Definition stack_layer (is_decoder : bool) (extended_attention_mask : option Mask)
    (encoder_hidden_states : option (list Hid))
    (encoder_extended_attention_mask : option Mask)
    (head_mask : list (option HeadMask))
    (use_cache output_attentions output_hidden_states : bool)
    (i : nat) (layer_module : T5Block)
    (past_key_value_state : option (list (list Proj))) (st : LoopState)
  : Result LoopState :=
  let hidden_states := loop_hidden_states st in
  let all_hidden_states :=
    if output_hidden_states then loop_all_hidden_states st ++ [hidden_states]
    else loop_all_hidden_states st in
  position_bias <- as_bias (loop_position_bias st) ;;
  encoder_decoder_position_bias <- as_bias (loop_encoder_decoder_position_bias st) ;;
  head_mask_i <- item head_mask i ;;
  layer_outputs <-
    T5Block_forward layer_module hidden_states extended_attention_mask position_bias
      encoder_hidden_states encoder_extended_attention_mask
      encoder_decoder_position_bias head_mask_i past_key_value_state use_cache
      output_attentions ;;
  hidden_states <- item layer_outputs 0 ;;
  hidden_states <- as_hidden hidden_states ;;
  present_key_value_state <- item layer_outputs 1 ;;
  biases <-
    (if i =? 0 then
       position_bias <- item layer_outputs (if output_attentions then 3 else 2) ;;
       match encoder_hidden_states with
       | Some _ =>
           if is_decoder then
             encoder_decoder_position_bias <-
               item layer_outputs (if output_attentions then 5 else 3) ;;
             Ok (position_bias, encoder_decoder_position_bias)
           else Ok (position_bias, loop_encoder_decoder_position_bias st)
       | None => Ok (position_bias, loop_encoder_decoder_position_bias st)
       end
     else Ok (loop_position_bias st, loop_encoder_decoder_position_bias st)) ;;
  all_attentions <-
    (if output_attentions then
       attention <- item layer_outputs 2 ;; Ok (loop_all_attentions st ++ [attention])
     else Ok (loop_all_attentions st)) ;;
  Ok {| loop_hidden_states := hidden_states;
        loop_position_bias := fst biases;
        loop_encoder_decoder_position_bias := snd biases;
        loop_present_key_value_states :=
          loop_present_key_value_states st ++ [present_key_value_state];
        loop_all_hidden_states := all_hidden_states;
        loop_all_attentions := all_attentions |}.

Fixpoint stack_layers (is_decoder : bool) (extended_attention_mask : option Mask)
    (encoder_hidden_states : option (list Hid))
    (encoder_extended_attention_mask : option Mask)
    (head_mask : list (option HeadMask))
    (use_cache output_attentions output_hidden_states : bool)
    (i : nat) (layers : list (T5Block * option (list (list Proj)))) (st : LoopState)
  : Result LoopState :=
  match layers with
  | [] => Ok st
  | (layer_module, past_key_value_state) :: layers =>
      st <- stack_layer is_decoder extended_attention_mask encoder_hidden_states
              encoder_extended_attention_mask head_mask use_cache output_attentions
              output_hidden_states i layer_module past_key_value_state st ;;
      stack_layers is_decoder extended_attention_mask encoder_hidden_states
        encoder_extended_attention_mask head_mask use_cache output_attentions
        output_hidden_states (S i) layers st
  end.

(** An entry of the tuple a stack returns. *)
Inductive StackValue :=
| SHidden (hidden_states : list Hid)
| SPresents (present_key_value_states : list Value)
| SAllHidden (all_hidden_states : list (list Hid))
| SAllAttentions (all_attentions : list Value).

(** The tail of the stacks' [forward]: final norm and the output tuple. *)
Definition stack_outputs (self : T5Stack) (use_cache output_attentions
    output_hidden_states : bool) (st : LoopState) : Result (list StackValue) :=
  let hidden_states := t5_layer_norm (final_layer_norm self) <$> loop_hidden_states st in
  let hidden_states := dropout_hidden hidden_states in
  let all_hidden_states :=
    if output_hidden_states then loop_all_hidden_states st ++ [hidden_states]
    else loop_all_hidden_states st in
  presents <-
    (if use_cache then
       _ <- assert (stack_is_decoder self)
              "`use_cache` can only be set to `True` if {} is used as a decoder" ;;
       Ok [SPresents (loop_present_key_value_states st)]
     else Ok []) ;;
  Ok ([SHidden hidden_states] ++ presents
        ++ (if output_hidden_states then [SAllHidden all_hidden_states] else [])
        ++ (if output_attentions then [SAllAttentions (loop_all_attentions st)] else [])).

Definition initial_state (hidden_states : list Hid) : LoopState :=
  {| loop_hidden_states := hidden_states;
     loop_position_bias := VNone;
     loop_encoder_decoder_position_bias := VNone;
     loop_present_key_value_states := [];
     loop_all_hidden_states := [];
     loop_all_attentions := [] |}.

Definition T5Stack_forward (self : T5Stack) (input_ids : option (list Z))
    (attention_mask : option (list R)) (encoder_hidden_states : option (list Hid))
    (encoder_attention_mask : option (list R)) (inputs_embeds : option (list Hid))
    (head_mask : option HeadMask)
    (past_key_value_states : option (list (list (list Proj))))
    (use_cache output_attentions output_hidden_states : option bool)
  : Result (list StackValue) :=
  let use_cache := default (config_use_cache (config self)) use_cache in
  let output_attentions :=
    default (config_output_attentions (config self)) output_attentions in
  let output_hidden_states :=
    default (config_output_hidden_states (config self)) output_hidden_states in
  seq_length <-
    match input_ids, inputs_embeds with
    | Some _, Some _ =>
        Err (ValueError
               "You cannot specify both input_ids and inputs_embeds at the same time")
    | Some input_ids, None => Ok (length input_ids)
    | None, Some inputs_embeds => Ok (length inputs_embeds)
    | None, None =>
        Err (ValueError
               (if stack_is_decoder self
                then "You have to specify either decoder_input_ids or decoder_inputs_embeds"
                else "You have to specify either input_ids or inputs_embeds"))
    end ;;
  inputs_embeds <-
    match inputs_embeds with
    | Some inputs_embeds => Ok inputs_embeds
    | None =>
        match embed_tokens self, input_ids with
        | Some embed, Some input_ids => lift IndexError (mapM embed input_ids)
        | _, _ =>
            Err (AssertionError
                   "You have to intialize the model with valid token embeddings")
        end
    end ;;
  mask_seq_length <-
    match past_key_value_states with
    | Some past =>
        _ <- assert (seq_length =? 1)
               "Input shape is {}, but should be {} when using past_key_value_sates" ;;
        past_0 <- item past 0 ;;
        past_0_0 <- item past_0 0 ;;
        Ok (length past_0_0 + seq_length)
    | None => Ok seq_length
    end ;;
  let attention_mask := default (replicate mask_seq_length 1%R) attention_mask in
  let encoder_attention_mask :=
    match encoder_attention_mask, encoder_hidden_states with
    | None, Some encoder_hidden_states =>
        if stack_is_decoder self
        then Some (replicate (length encoder_hidden_states) 1%R)
        else None
    | _, _ => encoder_attention_mask
    end in
  let past_key_value_states :=
    match past_key_value_states with
    | Some past => Some <$> past
    | None => replicate (length (block self)) None
    end in
  let extended_attention_mask :=
    get_extended_attention_mask (stack_is_decoder self) attention_mask seq_length in
  let encoder_extended_attention_mask :=
    match encoder_attention_mask with
    | Some encoder_attention_mask =>
        if stack_is_decoder self
        then Some (invert_attention_mask encoder_attention_mask)
        else None
    | None => None
    end in
  let head_mask := get_head_mask head_mask (num_layers (config self)) in
  let hidden_states := dropout_hidden inputs_embeds in
  st <- stack_layers (stack_is_decoder self) (Some extended_attention_mask)
          encoder_hidden_states encoder_extended_attention_mask head_mask use_cache
          output_attentions output_hidden_states 0
          (zip (block self) past_key_value_states) (initial_state hidden_states) ;;
  stack_outputs self use_cache output_attentions output_hidden_states st.

(** *** [JointEncoder] *)

(** [t.new_zeros(1, num_heads, rows, cols)] *)
Definition new_zeros (num_heads rows cols : nat) : Tensor4 :=
  replicate num_heads (replicate rows (replicate cols 0%R)).

(** [dst[:n] = src] along one axis, [f] assigning the entries. *)
Definition assign_prefix {A : Type} (n : nat) (f : A -> A -> Result A)
    (dst src : list A) : Result (list A) :=
  if length src =? Nat.min n (length dst) then
    assigned <- mapR (fun ds => f (fst ds) (snd ds)) (zip (take n dst) src) ;;
    Ok (assigned ++ drop n dst)
  else Err RuntimeError.

(** [dst[:, :, :n, :n] = src] *)
Definition assign_block (n : nat) (dst src : Tensor4) : Result Tensor4 :=
  if length src =? length dst then
    mapR (fun ds =>
            assign_prefix n (assign_prefix n (fun _ x => Ok x)) (fst ds) (snd ds))
         (zip dst src)
  else Err RuntimeError.

(** Visual inputs: region features [N x feat_dim] and boxes [N x 4]. *)
Definition VisInputs : Type := list (list R) * list (list R).

(** The position bias built before the layer loop, up to (and without) the
    addition of the mask; [L] is [inputs_embeds.size(1)].  The source reaches
    the first self-attention module as
    [self.block[0].module.layer[0].SelfAttention], in the assertion and again
    in the call of [compute_bias]: through the [module] attribute of a
    wrapper around the block, which a bare block does not have. *)
Definition JointEncoder_padded_bias (self : T5Stack) (L : nat) : Result Tensor4 :=
  block_0 <- item (block self) 0 ;;
  block_0_module <- module block_0 ;;
  let attention := SelfAttention (layer_0 block_0_module) in
  _ <- assert (has_relative_attention_bias attention) "" ;;
  let seq_length := L in
  block_0 <- item (block self) 0 ;;
  block_0_module <- module block_0 ;;
  let attention := SelfAttention (layer_0 block_0_module) in
  text_position_bias <- compute_bias attention L L ;;
  let num_heads := length text_position_bias in
  let position_bias := new_zeros num_heads seq_length seq_length in
  assign_block L position_bias text_position_bias.

(** The first half of [JointEncoder.forward]: everything before the layer
    loop.  Returns the hidden states entering the first layer, the raw
    attention mask handed to the layers, the head masks and, when there are
    layers, the position bias with the mask added. *)
Definition JointEncoder_prepare (self : T5Stack) (input_ids : option (list Z))
    (attention_mask : option (list R)) (vis_inputs : option VisInputs)
    (vis_attention_mask : option (list R)) (inputs_embeds : option (list Hid))
    (head_mask : option HeadMask)
  : Result (list Hid * list R * list (option HeadMask) * option Tensor4) :=
  inputs_embeds <-
    match inputs_embeds with
    | Some inputs_embeds => Ok inputs_embeds
    | None =>
        match embed_tokens self with
        | Some embed =>
            input_ids <- lift TypeError input_ids ;;
            lift IndexError (mapM embed input_ids)
        | None =>
            Err (AssertionError
                   "You have to initialize the model with valid token embeddings")
        end
    end ;;
  let L := length inputs_embeds in
  attention_mask <-
    match attention_mask with
    | Some attention_mask => Ok attention_mask
    | None =>
        input_ids <- lift AttributeError input_ids ;;
        Ok ((fun id => if (id =? pad_token_id (config self))%Z then 0%R else 1%R)
              <$> input_ids)
    end ;;
  let extended_attention_mask :=
    get_extended_attention_mask (stack_is_decoder self) attention_mask L in
  let head_mask := get_head_mask head_mask (num_layers (config self)) in
  let hidden_states := dropout_hidden inputs_embeds in
  if 0 <? num_layers (config self) then
    position_bias <- JointEncoder_padded_bias self L ;;
    position_bias <- add_mask position_bias extended_attention_mask ;;
    Ok (hidden_states, attention_mask, head_mask, Some position_bias)
  else Ok (hidden_states, attention_mask, head_mask, None).

Definition JointEncoder_forward (self : T5Stack) (input_ids : option (list Z))
    (attention_mask : option (list R)) (vis_inputs : option VisInputs)
    (vis_attention_mask : option (list R)) (inputs_embeds : option (list Hid))
    (head_mask : option HeadMask)
    (past_key_value_states : option (list (list (list Proj))))
    (use_cache output_attentions output_hidden_states : option bool)
  : Result (list StackValue) :=
  prepared <- JointEncoder_prepare self input_ids attention_mask vis_inputs
                vis_attention_mask inputs_embeds head_mask ;;
  let hidden_states := fst (fst (fst prepared)) in
  let attention_mask := snd (fst (fst prepared)) in
  let head_mask := snd (fst prepared) in
  let use_cache := default false use_cache in
  let output_attentions := default false output_attentions in
  let output_hidden_states := default false output_hidden_states in
  let past_key_value_states :=
    match past_key_value_states with
    | Some past => Some <$> past
    | None => replicate (length (block self)) None
    end in
  st <-
    match snd prepared with
    | Some position_bias =>
        stack_layers (stack_is_decoder self) (Some [attention_mask]) None None
          head_mask use_cache output_attentions false 0
          (zip (block self) past_key_value_states)
          {| loop_hidden_states := hidden_states;
             loop_position_bias := VScores position_bias;
             loop_encoder_decoder_position_bias := VNone;
             loop_present_key_value_states := [];
             loop_all_hidden_states := [];
             loop_all_attentions := [] |}
    | None => Ok (initial_state hidden_states)
    end ;;
  stack_outputs self use_cache output_attentions output_hidden_states st.

End WithTorch.

(** A small instance of the kernels, on which the forward passes can be
    run: slices are numbers, the linear maps and norms are identities, the
    attention weights are the bias itself. *)
Definition demo_torch : Torch :=
  {| Hid := nat;
     Proj := nat;
     HeadMask := unit;
     linear_in := fun _ x => x;
     linear_out := fun _ x => x;
     attention_probs := fun _ _ _ position_bias => position_bias;
     mul_head_mask := fun weights _ => weights;
     matmul := fun _ v => v;
     t5_layer_norm := fun _ x => x;
     residual := fun hidden_states y => zip_with Nat.add hidden_states y;
     dense_relu_dense := fun _ _ x => x;
     dropout_hidden := fun x => x;
     get_extended_attention_mask :=
       fun _ attention_mask _ => [(fun m => (1 - m) * -10000)%R <$> attention_mask];
     invert_attention_mask :=
       fun attention_mask => [(fun m => (1 - m) * -10000)%R <$> attention_mask];
     get_head_mask := fun _ num_layers => replicate num_layers None |}.

(** An attention module with one head of width one, for [demo_torch]. *)
Definition demo_attention (is_decoder has_bias : bool) (table : option Embedding)
  : T5Attention :=
  {| is_decoder := is_decoder;
     has_relative_attention_bias := has_bias;
     relative_attention_num_buckets := 32;
     d_model := 1; d_kv := 1; n_heads := 1; dropout := 0%R; inner_dim := 1;
     q := [[1%R]]; k := [[1%R]]; v := [[1%R]]; o := [[1%R]];
     relative_attention_bias := table;
     pruned_heads := ∅ |}.

(** A tensor with [heads] matrices of [rows] rows and [cols] columns. *)
Definition has_shape (heads rows cols : nat) (t : Tensor4) : Prop :=
  length t = heads
  /\ Forall (fun head => length head = rows
                         /\ Forall (fun row => length row = cols) head) t.

(** A bias table with 32 buckets for one head. *)
Definition demo_table : Embedding := mkEmbedding 32 1 (replicate 32 [1%R]).


(** A block around [demo_attention] modules, bare or wrapped. *)
Definition demo_block_in (wrapped : bool) (is_decoder has_bias : bool)
    (table : option Embedding) : T5Block :=
  {| wrapped := wrapped;
     block_is_decoder := is_decoder;
     layer_0 :=
       {| SelfAttention := demo_attention is_decoder has_bias table;
          SelfAttention_layer_norm :=
            LayerNorm.mkT5LayerNorm (LayerNorm.mkTensor LayerNorm.float32 [1%R]) 0%R |};
     layer_1 :=
       if is_decoder
       then Some {| EncDecAttention := demo_attention is_decoder has_bias table;
                    EncDecAttention_layer_norm :=
                      LayerNorm.mkT5LayerNorm
                        (LayerNorm.mkTensor LayerNorm.float32 [1%R]) 0%R |}
       else None;
     layer_last :=
       {| DenseReluDense_wi := [[1%R]];
          DenseReluDense_wo := [[1%R]];
          FF_layer_norm :=
            LayerNorm.mkT5LayerNorm (LayerNorm.mkTensor LayerNorm.float32 [1%R]) 0%R |} |}.

(** The block as [__init__] puts it in the list: bare. *)
Definition demo_block : bool -> bool -> option Embedding -> T5Block :=
  demo_block_in false.

(** A one-layer encoder stack whose layer owns [demo_table], as
    [JointEncoder.__init__] builds it. *)
Definition demo_encoder : @T5Stack demo_torch :=
  @mkT5Stack demo_torch
    (mkT5Config false false false 1 0)
    (Some (fun id => Some (Z.to_nat id)))
    false
    [demo_block false true (Some demo_table)]
    (LayerNorm.mkT5LayerNorm (LayerNorm.mkTensor LayerNorm.float32 [1%R]) 0%R).

(** The same encoder with its block inside a wrapper. *)
Definition demo_wrapped_encoder : @T5Stack demo_torch :=
  @mkT5Stack demo_torch
    (mkT5Config false false false 1 0)
    (Some (fun id => Some (Z.to_nat id)))
    false
    [demo_block_in true false true (Some demo_table)]
    (LayerNorm.mkT5LayerNorm (LayerNorm.mkTensor LayerNorm.float32 [1%R]) 0%R).

(** An encoder of a configuration with no layer, as [__init__] builds it. *)
Definition demo_encoder_without_layers : @T5Stack demo_torch :=
  @mkT5Stack demo_torch
    (mkT5Config false false false 0 0)
    (Some (fun id => Some (Z.to_nat id)))
    false
    []
    (LayerNorm.mkT5LayerNorm (LayerNorm.mkTensor LayerNorm.float32 [1%R]) 0%R).

End Forward.

(** ** Decoder inputs from labels: [T5PreTrainedModel._shift_right] *)

Module ShiftRight.
Import Py.
Local Open Scope py_scope.
Local Open Scope Z_scope.

(** A [torch.long] tensor of shape [(..., L)], read as [Z] entries: the size
    [L] of the last axis and the rows along it (the leading axes flattened;
    there may be no row at all). *)
Record LongTensor := mkLongTensor { last_dim : nat; rows : list (list Z) }.

Definition well_formed (t : LongTensor) : Prop :=
  Forall (fun row => length row = last_dim t) (rows t).

(** The two token ids of the configuration that [_shift_right] reads; either
    may be [None]. *)
Record TokenConfig := mkTokenConfig {
  decoder_start_token_id : option Z;
  pad_token_id : option Z
}.

(** [input_ids.new_zeros(input_ids.shape)] *)
Definition new_zeros (input_ids : LongTensor) : LongTensor :=
  mkLongTensor (last_dim input_ids)
    ((fun _ => replicate (last_dim input_ids) 0) <$> rows input_ids).

(** [dst[..., 1:] = src[..., :-1].clone()], for [dst] of the shape of [src] *)
Definition assign_shifted (dst src : LongTensor) : LongTensor :=
  mkLongTensor (last_dim dst)
    (zip_with (fun d s => take 1 d ++ removelast s) (rows dst) (rows src)).

(** [t[..., 0] = value]: position 0 must exist on the last axis. *)
Definition assign_first (t : LongTensor) (value : Z) : Result LongTensor :=
  if (last_dim t =? 0)%nat then Err IndexError
  else Ok (mkLongTensor (last_dim t) ((fun row => <[0%nat := value]> row) <$> rows t)).

(** [t.masked_fill_(t == value, fill)] *)
Definition masked_fill_eq (t : LongTensor) (value fill : Z) : LongTensor :=
  mkLongTensor (last_dim t)
    (fmap (M := list) (fun x => if x =? value then fill else x) <$> rows t).

(** [torch.all(t >= 0).item()] *)
Definition all_nonneg (t : LongTensor) : bool :=
  forallb (forallb (fun x => 0 <=? x)) (rows t).

Definition _shift_right (config : TokenConfig) (input_ids : LongTensor)
  : Result LongTensor :=
  let decoder_start_token_id := decoder_start_token_id config in
  let pad_token_id := pad_token_id config in
  match decoder_start_token_id with
  | None =>
      Err (AssertionError
             "self.model.config.decoder_start_token_id has to be defined. In T5 it is usually set to the pad_token_id. See T5 docs for more information")
  | Some decoder_start_token_id =>
      let shifted_input_ids := new_zeros input_ids in
      let shifted_input_ids := assign_shifted shifted_input_ids input_ids in
      shifted_input_ids <- assign_first shifted_input_ids decoder_start_token_id ;;
      match pad_token_id with
      | None => Err (AssertionError "self.model.config.pad_token_id has to be defined.")
      | Some pad_token_id =>
          let shifted_input_ids := masked_fill_eq shifted_input_ids (-100) pad_token_id in
          _ <- assert (all_nonneg shifted_input_ids)
                 "Verify that `labels` has only positive values and -100" ;;
          Ok shifted_input_ids
      end
  end.

(** What the mask fill makes of one entry. *)
Definition filled (pad_token_id x : Z) : Z :=
  if x =? -100 then pad_token_id else x.

(** The decoder input made from one row of labels: the start token, then the
    labels without the last one, every -100 replaced by the pad token. *)
Definition shifted_row (start pad : Z) (row : list Z) : list Z :=
  filled pad <$> (start :: removelast row).

End ShiftRight.

(** ** Beam reordering of the cache: [VLT5._reorder_cache] *)

Module ReorderCache.
Import Py.
Local Open Scope py_scope.

Section WithStates.
(** [Enc]: the encoder outputs kept in [past[0]]; [State]: one batch item of
    a cached key or value tensor, so that a tensor is the list of its items
    along the batch axis. *)
Context {Enc State : Type}.

(** [t.index_select(0, index)] *)
Definition index_select (t : list State) (index : list Z) : Result (list State) :=
  mapR (fun i => if (0 <=? i)%Z then lift IndexError (t !! Z.to_nat i)
                 else Err IndexError) index.

(** The body of the loop over the layers: the states of one layer. *)
Definition reorder_layer (beam_idx : list Z) (layer_past_states : list (list State))
  : Result (list (list State)) :=
  reordered_layer_past_states <-
    mapR (fun layer_past_state => index_select layer_past_state beam_idx)
         layer_past_states ;;
  reordered_0 <- lift IndexError (reordered_layer_past_states !! 0) ;;
  layer_past_states_0 <- lift IndexError (layer_past_states !! 0) ;;
  (* the shapes differ at most in the batch axis *)
  _ <- assert (length reordered_0 =? length layer_past_states_0) "" ;;
  _ <- assert (length reordered_layer_past_states =? length layer_past_states) "" ;;
  Ok reordered_layer_past_states.

Definition _reorder_cache (past : Enc * option (list (list (list State))))
    (beam_idx : list Z) : Result (Enc * option (list (list (list State)))) :=
  match snd past with
  | None => Ok past
  | Some decoder_past =>
      let past_0 := fst past in
      reordered_decoder_past <- mapR (reorder_layer beam_idx) decoder_past ;;
      Ok (past_0, Some reordered_decoder_past)
  end.

(** One item of a reordered state: the old state's item at the beam index. *)
Definition picks (state : list State) (i : Z) (x : State) : Prop :=
  (0 <= i)%Z /\ state !! Z.to_nat i = Some x.

(** The relation between the cache of one layer and its reordering. *)
Definition layer_reordered (beam_idx : list Z) (layer layer' : list (list State)) : Prop :=
  Forall2 (fun state state' => Forall2 (picks state) beam_idx state') layer layer'
  /\ exists state_0, layer !! 0 = Some state_0 /\ length state_0 = length beam_idx.

End WithStates.

(** Beam [j] of two successive reorderings: [first[second[j]]]. *)
Definition compose_beams (first second : list Z) : list Z :=
  (fun j => nth (Z.to_nat j) first 0%Z) <$> second.

(** [torch.arange(n)] *)
Definition arange (n : nat) : list Z := Z.of_nat <$> seq 0 n.

End ReorderCache.

(** ** Region embeddings: [VisualEmbedding] *)

Module Visual.
Import Py.
Local Open Scope py_scope.

(** A float tensor of shape [(N, d)] (one batch item of a [(B, N, d)]
    tensor): the size [d] of the last axis and the [N] rows. *)
Record Matrix := mkMatrix { last_dim : nat; rows : list (list R) }.

Definition well_formed (t : Matrix) : Prop :=
  Forall (fun row => length row = last_dim t) (rows t).

(** [nn.Linear(in_features, out_features)], with its bias. *)
Record nn_Linear := mk_nn_Linear {
  in_features : nat;
  out_features : nat;
  weight : list (list R);
  bias : list R
}.

(** [nn.Linear(in_features, out_features)]: [w] and [b] stand for the
    values the initialiser draws. *)
Definition nn_Linear_init (in_features out_features : nat)
    (w : nat -> nat -> R) (b : nat -> R) : nn_Linear :=
  mk_nn_Linear in_features out_features
    ((fun j => (fun k => w j k) <$> seq 0 in_features) <$> seq 0 out_features)
    (b <$> seq 0 out_features).

(** [T5LayerNorm.__init__(hidden_size, eps)] *)
Definition T5LayerNorm_init (hidden_size : nat) (eps : R) : LayerNorm.T5LayerNorm :=
  LayerNorm.mkT5LayerNorm
    (LayerNorm.mkTensor LayerNorm.float32 (replicate hidden_size 1%R)) eps.

(** One output feature of a linear layer. *)
Definition dot (w x : list R) : R := LayerNorm.sum_list (zip_with Rmult w x).

(** [nn.Linear.forward]: the last axis must have [in_features] entries. *)
Definition nn_Linear_forward (self : nn_Linear) (x : Matrix) : Result Matrix :=
  if last_dim x =? in_features self then
    Ok (mkMatrix (out_features self)
          ((fun row => zip_with Rplus ((fun w => dot w row) <$> weight self) (bias self))
             <$> rows x))
  else Err RuntimeError.

(** [T5LayerNorm.forward] on every row; the weight must broadcast against
    the last axis. *)
Definition T5LayerNorm_forward (self : LayerNorm.T5LayerNorm) (x : Matrix)
  : Result Matrix :=
  let n := length (LayerNorm.data (LayerNorm.weight self)) in
  if (n =? last_dim x) || (n =? 1) || (last_dim x =? 1) then
    Ok (mkMatrix (if last_dim x =? 1 then n else last_dim x)
          ((fun row =>
              LayerNorm.data
                (LayerNorm.forward self (LayerNorm.mkTensor LayerNorm.float32 row)))
             <$> rows x))
  else Err RuntimeError.

(** A member of an [nn.Sequential]. *)
Inductive Layer :=
| LinearLayer (layer : nn_Linear)
| NormLayer (layer : LayerNorm.T5LayerNorm).

Definition Layer_forward (layer : Layer) (x : Matrix) : Result Matrix :=
  match layer with
  | LinearLayer layer => nn_Linear_forward layer x
  | NormLayer layer => T5LayerNorm_forward layer x
  end.

(** [nn.Sequential.forward] *)
Fixpoint Sequential_forward (layers : list Layer) (x : Matrix) : Result Matrix :=
  match layers with
  | [] => Ok x
  | layer :: layers => x <- Layer_forward layer x ;; Sequential_forward layers x
  end.

(** The fields of the configuration that [VisualEmbedding.__init__] reads. *)
Record VisConfig := mkVisConfig {
  feat_dim : nat;
  pos_dim : nat;
  d_model : nat;
  layer_norm_epsilon : R
}.

(** The attributes [__init__] sets; [absolute_vis_pos_embedding] and
    [layer_norm] exist only on some of the branches. *)
Record VisualEmbedding := mkVisualEmbedding {
  use_vis_pos : bool;
  use_vis_layer_norm : bool;
  individual_vis_layer_norm : bool;
  feat_embedding : list Layer;
  absolute_vis_pos_embedding : option (list Layer);
  layer_norm : option LayerNorm.T5LayerNorm
}.

(** The values drawn for the two linear layers. *)
Record Draw := mkDraw {
  feat_w : nat -> nat -> R; feat_b : nat -> R;
  pos_w : nat -> nat -> R; pos_b : nat -> R
}.

Definition VisualEmbedding_init (config : VisConfig)
    (use_vis_pos use_vis_layer_norm individual_vis_layer_norm : bool) (draw : Draw)
  : VisualEmbedding :=
  let feat_dim := feat_dim config in
  let pos_dim := pos_dim config in
  if individual_vis_layer_norm then
    let feat_embedding :=
      [LinearLayer (nn_Linear_init feat_dim (d_model config) (feat_w draw) (feat_b draw))] in
    let feat_embedding :=
      if use_vis_layer_norm
      then feat_embedding
             ++ [NormLayer (T5LayerNorm_init (d_model config) (layer_norm_epsilon config))]
      else feat_embedding in
    let absolute_vis_pos_embedding :=
      if use_vis_pos then
        let absolute_vis_pos_embedding :=
          [LinearLayer (nn_Linear_init (pos_dim + 1) (d_model config)
                          (pos_w draw) (pos_b draw))] in
        Some (if use_vis_layer_norm
              then absolute_vis_pos_embedding
                     ++ [NormLayer (T5LayerNorm_init (d_model config)
                                      (layer_norm_epsilon config))]
              else absolute_vis_pos_embedding)
      else None in
    {| use_vis_pos := use_vis_pos;
       use_vis_layer_norm := use_vis_layer_norm;
       individual_vis_layer_norm := individual_vis_layer_norm;
       feat_embedding := feat_embedding;
       absolute_vis_pos_embedding := absolute_vis_pos_embedding;
       layer_norm := None |}
  else
    {| use_vis_pos := use_vis_pos;
       use_vis_layer_norm := use_vis_layer_norm;
       individual_vis_layer_norm := individual_vis_layer_norm;
       feat_embedding :=
         [LinearLayer (nn_Linear_init 256 (d_model config) (feat_w draw) (feat_b draw))];
       absolute_vis_pos_embedding :=
         Some [LinearLayer (nn_Linear_init (pos_dim + 1) (d_model config)
                              (pos_w draw) (pos_b draw))];
       layer_norm :=
         if use_vis_layer_norm
         then Some (T5LayerNorm_init (d_model config) (layer_norm_epsilon config))
         else None |}.

(** The area of one box [(x1, x2, y1, y2)]. *)
Definition box_area (box : list R) : R :=
  let height := (nth 3 box 0 - nth 2 box 0)%R in
  let width := (nth 1 box 0 - nth 0 box 0)%R in
  (height * width)%R.

(** [get_area]: [pos[:, :, 3]] must exist. *)
Definition get_area (pos : Matrix) : Result (list R) :=
  if 4 <=? last_dim pos then Ok (box_area <$> rows pos) else Err IndexError.

(** [torch.cat([pos, area.unsqueeze(2)], dim=2)] *)
Definition append_area (pos : Matrix) (area : list R) : Matrix :=
  mkMatrix (last_dim pos + 1) (zip_with (fun box a => box ++ [a]) (rows pos) area).

(** [torch.cat((a, b), 1)]: the last axes must agree. *)
Definition cat_rows (a b : Matrix) : Result Matrix :=
  if last_dim a =? last_dim b then Ok (mkMatrix (last_dim a) (rows a ++ rows b))
  else Err RuntimeError.

Definition VisualEmbedding_forward (self : VisualEmbedding) (feats pos : Matrix)
    (img_order_ids obj_order_ids : option (list Z)) : Result Matrix :=
  feat_embedding <- Sequential_forward (feat_embedding self) feats ;;
  area <- get_area pos ;;
  let pos := append_area pos area in
  layers <- lift AttributeError (absolute_vis_pos_embedding self) ;;
  absolute_vis_pos_embedding <- Sequential_forward layers pos ;;
  vis_embedding <- cat_rows feat_embedding absolute_vis_pos_embedding ;;
  if negb (individual_vis_layer_norm self) then
    if use_vis_layer_norm self then
      layer_norm <- lift AttributeError (layer_norm self) ;;
      T5LayerNorm_forward layer_norm vis_embedding
    else Ok vis_embedding
  else Ok vis_embedding.

(** A configuration and a draw to run the module on. *)
Definition demo_config : VisConfig := mkVisConfig 2 4 3 1.

Definition demo_draw : Draw :=
  mkDraw (fun _ _ => 1%R) (fun _ => 0%R) (fun _ _ => 1%R) (fun _ => 0%R).

End Visual.

(** ** Reading tensors and counting layers *)

Module ForwardViews.
Import Py Modules Forward.

(** [t[head][i][j]], where it exists. *)
Definition entry (t : Tensor4) (head i j : nat) : option R :=
  matrix ← t !! head; row ← matrix !! i; row !! j.

Section WithTorch.
Context {torch : Torch}.

(** The number of iterations of the layer loop: [zip] stops at the shorter
    of the blocks and the cache entries. *)
Definition layers_run (self : T5Stack)
    (past_key_value_states : option (list (list (list Proj)))) : nat :=
  match past_key_value_states with
  | Some past => Nat.min (length (block self)) (length past)
  | None => length (block self)
  end.

End WithTorch.

(** A one-layer decoder stack whose layer owns [demo_table]. *)
Definition demo_decoder : @T5Stack demo_torch :=
  @mkT5Stack demo_torch
    (mkT5Config true false false 1 0)
    (Some (fun id => Some (Z.to_nat id)))
    true
    [demo_block true true (Some demo_table)]
    (LayerNorm.mkT5LayerNorm (LayerNorm.mkTensor LayerNorm.float32 [1%R]) 0%R).

(** An encoder stack that was given no token embeddings. *)
Definition demo_encoder_without_embeddings : @T5Stack demo_torch :=
  @mkT5Stack demo_torch
    (mkT5Config false false false 1 0)
    None
    false
    [demo_block false true (Some demo_table)]
    (LayerNorm.mkT5LayerNorm (LayerNorm.mkTensor LayerNorm.float32 [1%R]) 0%R).

(** Whether an optional argument was given. *)
Definition is_Some_bool {A : Type} (o : option A) : bool :=
  match o with Some _ => true | None => false end.

End ForwardViews.

(** ** The full model: [VLT5.forward] *)

Module Model.
Import Py Modules Forward ForwardViews ShiftRight.
Local Open Scope py_scope.

(** [_shift_right] on the labels of one batch item: a batch of one row. *)
Definition shift_right_row (config : TokenConfig) (labels : list Z) : Result (list Z) :=
  shifted_input_ids <- _shift_right config (mkLongTensor (length labels) [labels]) ;;
  lift IndexError (rows shifted_input_ids !! 0).

(** [t[:, -1:]] *)
Definition last_token {A : Type} (t : list A) : list A := drop (length t - 1) t.

(** The kernels of the language-model head. *)
Class TorchLM {torch : Torch} := {
  Logits : Type;
  (** [self.lm_head(sequence_output * (self.model_dim ** -0.5))], one position *)
  lm_head_scaled : Linear -> positive -> Hid -> Logits;
  (** [CrossEntropyLoss(ignore_index=-100)(lm_logits.view(-1, lm_logits.size(-1)),
      labels.view(-1))] *)
  cross_entropy : list Logits -> list Z -> Result R
}.

(** The keyword arguments [**kwargs]: a label tensor or [None] under each
    name. *)
Abbreviation Kwargs := (gmap string (option (list Z))).

Section WithTorch.
Context {torch : Torch} {torch_lm : TorchLM}.

(** The attributes of a [VLT5] that [forward] reads; [model_dim] is
    [config.d_model], a positive integer. *)
Record VLT5 := mkVLT5 {
  model_dim : positive;
  vlt5_use_cache : bool;
  vlt5_tokens : TokenConfig;
  encoder : T5Stack;
  decoder : T5Stack;
  lm_head : Linear
}.

(** An entry of the tuple [VLT5.forward] returns. *)
Inductive ModelValue :=
| MLoss (loss : R)
| MLogits (lm_logits : list Logits)
| MPast (encoder_outputs : list StackValue) (decoder_past : StackValue)
| MStack (v : StackValue).

(** The tuple of encoder outputs: the last hidden state, then whatever else
    the encoder returned. *)
Definition encoder_tuple (encoder_outputs : list Hid * list StackValue)
  : list StackValue :=
  SHidden (fst encoder_outputs) :: snd encoder_outputs.

Definition VLT5_forward (self : VLT5) (input_ids : option (list Z))
    (vis_inputs : option VisInputs) (attention_mask : option (list R))
    (encoder_outputs : option (list Hid * list StackValue))
    (vis_attention_mask : option (list R)) (decoder_input_ids : option (list Z))
    (decoder_attention_mask : option (list R))
    (decoder_past_key_value_states : option (list (list (list Proj))))
    (use_cache : option bool) (labels : option (list Z))
    (inputs_embeds decoder_inputs_embeds : option (list Hid))
    (head_mask : option HeadMask) (output_attentions output_hidden_states : option bool)
    (kwargs : Kwargs) : Result (list ModelValue) :=
  let labels :=
    match kwargs !! "lm_labels" with
    | Some lm_labels => lm_labels
    | None => labels
    end in
  let kwargs := delete "lm_labels" kwargs in
  _ <- assert (bool_decide (kwargs = ∅))
         "Unexpected keyword arguments: {list(kwargs.keys())}." ;;
  let use_cache := default (vlt5_use_cache self) use_cache in
  encoder_outputs <-
    match encoder_outputs with
    | None =>
        outputs <- JointEncoder_forward (encoder self) input_ids attention_mask
                     vis_inputs None inputs_embeds head_mask None None
                     output_attentions output_hidden_states ;;
        match outputs with
        | SHidden hidden_states :: others => Ok (hidden_states, others)
        | _ => Err TypeError
        end
    | Some encoder_outputs => Ok encoder_outputs
    end ;;
  let hidden_states := fst encoder_outputs in
  decoder_input_ids <-
    match labels, decoder_input_ids, decoder_inputs_embeds with
    | Some labels, None, None =>
        shifted <- shift_right_row (vlt5_tokens self) labels ;; Ok (Some shifted)
    | _, _, _ => Ok decoder_input_ids
    end ;;
  decoder_inputs <-
    match decoder_past_key_value_states with
    | Some _ =>
        _ <- assert (negb (is_Some_bool labels))
               "Decoder should not use cached key value states when training." ;;
        Ok (last_token <$> decoder_input_ids, last_token <$> decoder_inputs_embeds)
    | None => Ok (decoder_input_ids, decoder_inputs_embeds)
    end ;;
  attention_mask <-
    match attention_mask with
    | Some attention_mask => Ok attention_mask
    | None =>
        input_ids <- lift AttributeError input_ids ;;
        pad_token_id <- lift TypeError (pad_token_id (vlt5_tokens self)) ;;
        Ok ((fun id => if (id =? pad_token_id)%Z then 0%R else 1%R) <$> input_ids)
    end ;;
  vis_attention_mask <-
    match vis_attention_mask with
    | Some vis_attention_mask => Ok vis_attention_mask
    | None =>
        let L := length attention_mask in
        (* V_L = encoder_outputs[0].size(1) - L; attention_mask.new_ones(B, V_L) *)
        if length hidden_states <? L then Err RuntimeError
        else Ok (replicate (length hidden_states - L) 1%R)
    end ;;
  let encoder_attention_mask := vis_attention_mask ++ attention_mask in
  decoder_outputs <-
    T5Stack_forward (decoder self) (fst decoder_inputs) decoder_attention_mask
      (Some hidden_states) (Some encoder_attention_mask) (snd decoder_inputs)
      head_mask decoder_past_key_value_states (Some use_cache) output_attentions
      output_hidden_states ;;
  decoder_outputs <-
    (if use_cache then
       decoder_past <- item decoder_outputs 1 ;;
       Ok ((MStack <$> take 1 decoder_outputs)
             ++ [MPast (encoder_tuple encoder_outputs) decoder_past]
             ++ (MStack <$> drop 2 decoder_outputs))
     else Ok (MStack <$> decoder_outputs)) ;;
  sequence_output <- item decoder_outputs 0 ;;
  sequence_output <-
    match sequence_output with
    | MStack (SHidden sequence_output) => Ok sequence_output
    | _ => Err TypeError
    end ;;
  let lm_logits := lm_head_scaled (lm_head self) (model_dim self) <$> sequence_output in
  let decoder_outputs := MLogits lm_logits :: drop 1 decoder_outputs in
  decoder_outputs <-
    match labels with
    | Some labels =>
        loss <- cross_entropy lm_logits labels ;; Ok (MLoss loss :: decoder_outputs)
    | None => Ok decoder_outputs
    end ;;
  Ok (decoder_outputs ++ (MStack <$> encoder_tuple encoder_outputs)).

(** The model with another encoder. *)
Definition with_encoder (self : VLT5) (encoder' : T5Stack) : VLT5 :=
  {| model_dim := model_dim self;
     vlt5_use_cache := vlt5_use_cache self;
     vlt5_tokens := vlt5_tokens self;
     encoder := encoder';
     decoder := decoder self;
     lm_head := lm_head self |}.

(** The keyword arguments [prepare_inputs_for_generation] returns. *)
Record GenerationInputs := mkGenerationInputs {
  gen_decoder_input_ids : list Z;
  gen_decoder_past_key_value_states : option (list (list (list Proj)));
  gen_encoder_outputs : list Hid * list StackValue;
  gen_attention_mask : option (list R);
  gen_use_cache : option bool
}.

Definition prepare_inputs_for_generation (input_ids : list Z)
    (past : option ((list Hid * list StackValue)
                    * option (list (list (list Proj)))))
    (attention_mask : option (list R)) (use_cache : option bool)
  : Result GenerationInputs :=
  match past with
  | None => Err (AssertionError "past has to be defined for encoder_outputs")
  | Some (encoder_outputs, decoder_past_key_value_states) =>
      Ok {| gen_decoder_input_ids := input_ids;
            gen_decoder_past_key_value_states := decoder_past_key_value_states;
            gen_encoder_outputs := encoder_outputs;
            gen_attention_mask := attention_mask;
            gen_use_cache := use_cache |}
  end.

(** The call of the model on these keyword arguments, as the generation loop
    makes it. *)
Definition VLT5_call (self : VLT5) (model_inputs : GenerationInputs)
  : Result (list ModelValue) :=
  VLT5_forward self None None (gen_attention_mask model_inputs)
    (Some (gen_encoder_outputs model_inputs)) None
    (Some (gen_decoder_input_ids model_inputs)) None
    (gen_decoder_past_key_value_states model_inputs) (gen_use_cache model_inputs)
    None None None None None None ∅.

End WithTorch.

(** The head on [demo_torch]: logits are the hidden states, the loss is 0. *)
Definition demo_torch_lm : @TorchLM demo_torch :=
  {| Logits := nat;
     lm_head_scaled := fun _ _ (x : @Hid demo_torch) => (x : nat);
     cross_entropy := fun _ _ => Ok 0%R |}.

(** A model of one encoder layer and one decoder layer, as [__init__] builds
    it. *)
Definition demo_vlt5 : @VLT5 demo_torch :=
  @mkVLT5 demo_torch 1 true (mkTokenConfig (Some 0%Z) (Some 0%Z))
    demo_encoder demo_decoder [[1%R]].

(** The same model with the block of its encoder inside a wrapper. *)
Definition demo_wrapped_vlt5 : @VLT5 demo_torch :=
  @mkVLT5 demo_torch 1 true (mkTokenConfig (Some 0%Z) (Some 0%Z))
    demo_wrapped_encoder demo_decoder [[1%R]].

(** Encoder outputs computed beforehand, as a caller passes them: the hidden
    states of two positions and nothing else. *)
Definition demo_encoder_outputs : list (@Hid demo_torch) * list (@StackValue demo_torch) :=
  ([7; 8], []).

End Model.

(** ** Preparing a generation run: [VLT5.generate] *)

Module Generate.
Import Py Modules Forward ForwardViews ShiftRight Model.
Local Open Scope py_scope.
Local Open Scope Z_scope.

(** The generation defaults that [generate] reads from [self.config]. *)
Record GenerationConfig := mkGenerationConfig {
  config_max_length : Z;
  config_min_length : Z;
  config_do_sample : bool;
  config_early_stopping : bool;
  config_use_cache : bool;
  config_num_beams : Z;
  config_temperature : R;
  config_top_k : Z;
  config_top_p : R;
  config_repetition_penalty : R;
  config_bos_token_id : option Z;
  config_pad_token_id : option Z;
  config_eos_token_id : option Z;
  config_length_penalty : R;
  config_no_repeat_ngram_size : Z;
  config_bad_words_ids : option (list (list Z));
  config_num_return_sequences : Z;
  config_decoder_start_token_id : option Z;
  config_vocab_size : Z;
  config_is_encoder_decoder : bool
}.

(** The keyword arguments of [generate] that have a default in the
    configuration; each may be left [None]. *)
Record GenerateArgs := mkGenerateArgs {
  arg_max_length : option Z;
  arg_min_length : option Z;
  arg_do_sample : option bool;
  arg_early_stopping : option bool;
  arg_num_beams : option Z;
  arg_temperature : option R;
  arg_top_k : option Z;
  arg_top_p : option R;
  arg_repetition_penalty : option R;
  arg_bad_words_ids : option (list (list Z));
  arg_bos_token_id : option Z;
  arg_pad_token_id : option Z;
  arg_eos_token_id : option Z;
  arg_length_penalty : option R;
  arg_no_repeat_ngram_size : option Z;
  arg_num_return_sequences : option Z;
  arg_decoder_start_token_id : option Z;
  arg_use_cache : option bool
}.

(** The values of the same names after
    [x = x if x is not None else self.config.x]. *)
Record Resolved := mkResolved {
  max_length : Z;
  min_length : Z;
  do_sample : bool;
  early_stopping : bool;
  use_cache : bool;
  num_beams : Z;
  temperature : R;
  top_k : Z;
  top_p : R;
  repetition_penalty : R;
  bos_token_id : option Z;
  pad_token_id : option Z;
  eos_token_id : option Z;
  length_penalty : R;
  no_repeat_ngram_size : Z;
  bad_words_ids : option (list (list Z));
  num_return_sequences : Z;
  decoder_start_token_id : option Z
}.

(** [x if x is not None else y] where [y] may be [None] as well. *)
Definition or_else {A : Type} (x y : option A) : option A :=
  match x with Some _ => x | None => y end.

Definition resolve (config : GenerationConfig) (args : GenerateArgs) : Resolved :=
  {| max_length := default (config_max_length config) (arg_max_length args);
     min_length := default (config_min_length config) (arg_min_length args);
     do_sample := default (config_do_sample config) (arg_do_sample args);
     early_stopping := default (config_early_stopping config) (arg_early_stopping args);
     use_cache := default (config_use_cache config) (arg_use_cache args);
     num_beams := default (config_num_beams config) (arg_num_beams args);
     temperature := default (config_temperature config) (arg_temperature args);
     top_k := default (config_top_k config) (arg_top_k args);
     top_p := default (config_top_p config) (arg_top_p args);
     repetition_penalty :=
       default (config_repetition_penalty config) (arg_repetition_penalty args);
     bos_token_id := or_else (arg_bos_token_id args) (config_bos_token_id config);
     pad_token_id := or_else (arg_pad_token_id args) (config_pad_token_id config);
     eos_token_id := or_else (arg_eos_token_id args) (config_eos_token_id config);
     length_penalty := default (config_length_penalty config) (arg_length_penalty args);
     no_repeat_ngram_size :=
       default (config_no_repeat_ngram_size config) (arg_no_repeat_ngram_size args);
     bad_words_ids := or_else (arg_bad_words_ids args) (config_bad_words_ids config);
     num_return_sequences :=
       default (config_num_return_sequences config) (arg_num_return_sequences args);
     decoder_start_token_id :=
       or_else (arg_decoder_start_token_id args) (config_decoder_start_token_id config) |}.

(** Comparisons of Python floats. *)
Definition Rltb (x y : R) : bool := if Rlt_dec x y then true else false.
Definition Rleb (x y : R) : bool := if Rle_dec x y then true else false.

(** [t is None or t >= 0] *)
Definition none_or_nonneg (t : option Z) : bool :=
  match t with None => true | Some t => 0 <=? t end.

(** [isinstance(t, int) and t >= 0] for a value that may be [None] *)
Definition int_nonneg (t : option Z) : bool :=
  match t with None => false | Some t => 0 <=? t end.

(** The assertions on the resolved arguments, in the order of the source. *)
Definition check_arguments (r : Resolved) (input_ids : option LongTensor)
  : Result unit :=
  _ <- assert (0 <? max_length r) "`max_length` should be a strictly positive integer." ;;
  _ <- assert (0 <=? min_length r) "`min_length` should be a positive integer." ;;
  (* isinstance(do_sample, bool), isinstance(early_stopping, bool) and
     isinstance(use_cache, bool) hold by typing *)
  _ <- assert (0 <? num_beams r) "`num_beams` should be a strictly positive integer." ;;
  _ <- assert (Rltb 0 (temperature r)) "`temperature` should be strictly positive." ;;
  _ <- assert (0 <=? top_k r) "`top_k` should be a positive integer." ;;
  _ <- assert (Rleb 0 (top_p r) && Rleb (top_p r) 1) "`top_p` should be between 0 and 1." ;;
  _ <- assert (Rleb 1 (repetition_penalty r)) "`repetition_penalty` should be >= 1." ;;
  _ <- assert (is_Some_bool input_ids || int_nonneg (bos_token_id r))
         "If input_ids is not defined, `bos_token_id` should be a positive integer." ;;
  _ <- assert (none_or_nonneg (pad_token_id r))
         "`pad_token_id` should be a positive integer." ;;
  _ <- assert (none_or_nonneg (eos_token_id r))
         "`eos_token_id` should be a positive integer." ;;
  _ <- assert (Rltb 0 (length_penalty r)) "`length_penalty` should be strictly positive." ;;
  _ <- assert (0 <=? no_repeat_ngram_size r)
         "`no_repeat_ngram_size` should be a positive integer." ;;
  _ <- assert (0 <? num_return_sequences r)
         "`num_return_sequences` should be a strictly positive integer." ;;
  (* bad_words_ids is None or isinstance(bad_words_ids, list)
     and isinstance(bad_words_ids[0], list) *)
  _ <- match bad_words_ids r with
       | None => Ok tt
       | Some bad_words_ids => _ <- lift IndexError (bad_words_ids !! 0%nat) ;; Ok tt
       end ;;
  Ok tt.

(** The two assertions on greedy decoding. *)
Definition check_greedy (r : Resolved) : Result unit :=
  if negb (do_sample r) then
    if num_beams r =? 1 then
      assert (num_return_sequences r =? 1)
        "Greedy decoding will always produce the same output for num_beams == 1 and num_return_sequences > 1. Please set num_return_sequences = 1"
    else
      assert (num_return_sequences r <=? num_beams r)
        "Greedy beam search decoding cannot return more sequences than it has beams. Please set num_beams >= num_return_sequences"
  else Ok tt.

(** [t.index_select(0, torch.arange(batch_size).view(-1, 1).repeat(1, k).view(-1))]:
    every batch item [k] times in a row. *)
Definition expand_batch {A : Type} (k : Z) (t : list A) : list A :=
  flat_map (fun item => replicate (Z.to_nat k) item) t.

(** [t.unsqueeze(1).expand(batch_size, k, len).contiguous().view(batch_size * k, len)] *)
Definition expand_rows (k : Z) (t : LongTensor) : LongTensor :=
  mkLongTensor (last_dim t) (expand_batch k (rows t)).

(** [torch.full((n, len), value)] *)
Definition full (n : Z) (len : nat) (value : Z) : LongTensor :=
  mkLongTensor len (replicate (Z.to_nat n) (replicate len value)).

(** The mask [generate] makes when it is given none:
    [input_ids.ne(pad_token_id).long()] when a pad token is configured and
    occurs in [input_ids], [input_ids.new_ones(input_ids.shape)] otherwise. *)
Definition default_attention_mask (pad_token_id : option Z) (input_ids : LongTensor)
  : LongTensor :=
  match pad_token_id with
  | Some pad_token_id =>
      if existsb (existsb (Z.eqb pad_token_id)) (rows input_ids)
      then mkLongTensor (last_dim input_ids)
             (fmap (M := list) (fun id => if id =? pad_token_id then 0 else 1)
                <$> rows input_ids)
      else mkLongTensor (last_dim input_ids)
             (fmap (M := list) (fun _ => 1) <$> rows input_ids)
  | None =>
      mkLongTensor (last_dim input_ids)
        (fmap (M := list) (fun _ => 1) <$> rows input_ids)
  end.

Section WithTorch.
Context {torch : Torch}.

(** The arguments handed to [_generate_no_beam_search]. *)
Record SearchArgs := mkSearchArgs {
  search_input_ids : LongTensor;
  search_cur_len : nat;
  search_max_length : Z;
  search_min_length : Z;
  search_do_sample : bool;
  search_temperature : R;
  search_top_k : Z;
  search_top_p : R;
  search_repetition_penalty : R;
  search_no_repeat_ngram_size : Z;
  search_bad_words_ids : option (list (list Z));
  search_pad_token_id : option Z;
  search_eos_token_id : option Z;
  search_batch_size : Z;
  search_encoder_outputs : option (list (list Hid));
  search_attention_mask : LongTensor;
  search_use_cache : bool
}.

(** What [_generate_beam_search] is handed besides. *)
Record BeamArgs := mkBeamArgs {
  beam_early_stopping : bool;
  beam_num_return_sequences : Z;
  beam_length_penalty : R;
  beam_num_beams : Z;
  beam_vocab_size : Z
}.

(** The two search procedures of [GenerationMixin], in which [generate]
    ends; [Sequences] is what they return. *)
Context {Sequences ModelKwargs : Type}.
Context (_generate_no_beam_search : VLT5 -> SearchArgs -> ModelKwargs -> Result Sequences).
Context (_generate_beam_search :
           VLT5 -> SearchArgs -> BeamArgs -> ModelKwargs -> Result Sequences).

(** [self.encoder(input_ids=input_ids, attention_mask=attention_mask,
    vis_inputs=vis_inputs)] on a batch, item by item; with these arguments the
    tuple the encoder returns holds the last hidden states only. *)
Definition encode_batch (self : VLT5) (input_ids attention_mask : LongTensor)
    (vis_inputs : option VisInputs) : Result (list (list Hid)) :=
  mapR (fun item =>
          outputs <- JointEncoder_forward (encoder self) (Some (fst item))
                       (Some (IZR <$> snd item)) vis_inputs None None None None None
                       None None ;;
          match outputs with
          | [SHidden hidden_states] => Ok hidden_states
          | _ => Err TypeError
          end)
       (zip (rows input_ids) (rows attention_mask)).

(** [generate], for the calls that leave [attention_mask] to it.  The model
    has a head, so the test [self.get_output_embeddings() is None] that opens
    the function never fires. *)
Definition generate (self : VLT5) (config : GenerationConfig)
    (input_ids : option LongTensor) (vis_inputs : option VisInputs)
    (args : GenerateArgs) (model_specific_kwargs : ModelKwargs) : Result Sequences :=
  let r := resolve config args in
  let batch_size :=
    match input_ids with
    | Some input_ids => Z.of_nat (length (rows input_ids))
    | None => 1
    end in
  _ <- check_arguments r input_ids ;;
  input_ids <-
    match input_ids with
    | None =>
        _ <- assert (int_nonneg (bos_token_id r))
               "you should either supply a context to complete as `input_ids` input or a `bos_token_id` (integer >= 0) as a first token to start the generation." ;;
        bos_token_id <- lift TypeError (bos_token_id r) ;;
        Ok (full batch_size 1 bos_token_id)
    | Some input_ids => Ok input_ids
    end ;;
  _ <- check_greedy r ;;
  let attention_mask := default_attention_mask (pad_token_id r) input_ids in
  let pad_token_id := or_else (pad_token_id r) (eos_token_id r) in
  let vocab_size := config_vocab_size config in
  let effective_batch_size :=
    if do_sample r then batch_size * num_return_sequences r else batch_size in
  let effective_batch_mult := if do_sample r then num_return_sequences r else 1 in
  encoded <-
    (if config_is_encoder_decoder config then
       let decoder_start_token_id := or_else (decoder_start_token_id r) (bos_token_id r) in
       match decoder_start_token_id with
       | None =>
           Err (AssertionError
                  "decoder_start_token_id or bos_token_id has to be defined for encoder-decoder generation")
       | Some decoder_start_token_id =>
           encoder_outputs <- encode_batch self input_ids attention_mask vis_inputs ;;
           Ok (Some (decoder_start_token_id, encoder_outputs))
       end
     else Ok None) ;;
  let expand := (1 <? num_return_sequences r) || (1 <? num_beams r) in
  let input_ids :=
    if expand then expand_rows (effective_batch_mult * num_beams r) input_ids
    else input_ids in
  let attention_mask :=
    if expand then expand_rows (effective_batch_mult * num_beams r) attention_mask
    else attention_mask in
  prompt <-
    match encoded with
    | Some (decoder_start_token_id, encoder_outputs) =>
        let input_ids := full (effective_batch_size * num_beams r) 1 decoder_start_token_id in
        _ <- assert (batch_size =? Z.of_nat (length encoder_outputs))
               "expected encoder_outputs[0] to have 1st dimension bs={batch_size}, got {encoder_outputs[0].shape[0]} " ;;
        let encoder_outputs :=
          expand_batch (num_beams r * effective_batch_mult) encoder_outputs in
        Ok (input_ids, 1%nat, Some encoder_outputs)
    | None => Ok (input_ids, last_dim input_ids, None)
    end ;;
  let search_args :=
    {| search_input_ids := fst (fst prompt);
       search_cur_len := snd (fst prompt);
       search_max_length := max_length r;
       search_min_length := min_length r;
       search_do_sample := do_sample r;
       search_temperature := temperature r;
       search_top_k := top_k r;
       search_top_p := top_p r;
       search_repetition_penalty := repetition_penalty r;
       search_no_repeat_ngram_size := no_repeat_ngram_size r;
       search_bad_words_ids := bad_words_ids r;
       search_pad_token_id := pad_token_id;
       search_eos_token_id := eos_token_id r;
       search_batch_size := effective_batch_size;
       search_encoder_outputs := snd prompt;
       search_attention_mask := attention_mask;
       search_use_cache := use_cache r |} in
  if 1 <? num_beams r then
    _generate_beam_search self search_args
      {| beam_early_stopping := early_stopping r;
         beam_num_return_sequences := num_return_sequences r;
         beam_length_penalty := length_penalty r;
         beam_num_beams := num_beams r;
         beam_vocab_size := vocab_size |}
      model_specific_kwargs
  else _generate_no_beam_search self search_args model_specific_kwargs.

End WithTorch.

(** The generation defaults of a T5 configuration, and a call that passes
    no keyword argument. *)
Definition demo_generation_config : GenerationConfig :=
  {| config_max_length := 20; config_min_length := 0; config_do_sample := false;
     config_early_stopping := false; config_use_cache := true; config_num_beams := 1;
     config_temperature := 1; config_top_k := 50; config_top_p := 1;
     config_repetition_penalty := 1; config_bos_token_id := None;
     config_pad_token_id := Some 0; config_eos_token_id := Some 1;
     config_length_penalty := 1; config_no_repeat_ngram_size := 0;
     config_bad_words_ids := None; config_num_return_sequences := 1;
     config_decoder_start_token_id := Some 0; config_vocab_size := 32;
     config_is_encoder_decoder := true |}.

Definition no_args : GenerateArgs :=
  {| arg_max_length := None; arg_min_length := None; arg_do_sample := None;
     arg_early_stopping := None; arg_num_beams := None; arg_temperature := None;
     arg_top_k := None; arg_top_p := None; arg_repetition_penalty := None;
     arg_bad_words_ids := None; arg_bos_token_id := None; arg_pad_token_id := None;
     arg_eos_token_id := None; arg_length_penalty := None;
     arg_no_repeat_ngram_size := None; arg_num_return_sequences := None;
     arg_decoder_start_token_id := None; arg_use_cache := None |}.

(** [no_args] with [num_beams] and [num_return_sequences] given. *)
Definition beam_args (num_beams num_return_sequences : Z) : GenerateArgs :=
  {| arg_max_length := None; arg_min_length := None; arg_do_sample := None;
     arg_early_stopping := None; arg_num_beams := Some num_beams;
     arg_temperature := None; arg_top_k := None; arg_top_p := None;
     arg_repetition_penalty := None; arg_bad_words_ids := None;
     arg_bos_token_id := None; arg_pad_token_id := None; arg_eos_token_id := None;
     arg_length_penalty := None; arg_no_repeat_ngram_size := None;
     arg_num_return_sequences := Some num_return_sequences;
     arg_decoder_start_token_id := None; arg_use_cache := None |}.

(** Search procedures that return the arguments they are handed. *)
Definition demo_no_beam_search (self : @VLT5 demo_torch)
    (search_args : @SearchArgs demo_torch) (kwargs : unit)
  : Result (@SearchArgs demo_torch) := Ok search_args.

Definition demo_beam_search (self : @VLT5 demo_torch)
    (search_args : @SearchArgs demo_torch) (beam_args : BeamArgs) (kwargs : unit)
  : Result (@SearchArgs demo_torch) := Ok search_args.

End Generate.

(** * Properties *)

(** ** Facts about the bucket function *)

Module BucketFacts.
Import Py Bucket.
Local Open Scope py_scope.
Local Open Scope Z_scope.

Lemma Int_part_le (x y : R) : (x <= y)%R -> Int_part x <= Int_part y.
Proof.
  intros Hxy.
  destruct (base_Int_part x) as [Hx _].
  destruct (base_Int_part y) as [_ Hy].
  assert (H : (IZR (Int_part x) < IZR (Int_part y + 1))%R)
    by (rewrite plus_IZR; lra).
  apply lt_IZR in H. lia.
Qed.

Lemma Int_part_IZR (z : Z) : Int_part (IZR z) = z.
Proof. symmetry. apply Int_part_spec. lra. Qed.

Lemma to_long_nonneg (x : R) : (0 <= x)%R -> to_long x = Int_part x /\ 0 <= to_long x.
Proof.
  intros Hx. unfold to_long. destruct (Rle_dec 0 x) as [_|Hn]; [|contradiction].
  split; [reflexivity|].
  rewrite <- (Int_part_IZR 0). now apply Int_part_le.
Qed.

Lemma to_long_mono (x y : R) : (0 <= x)%R -> (x <= y)%R -> to_long x <= to_long y.
Proof.
  intros Hx Hxy.
  destruct (to_long_nonneg x Hx) as [-> _].
  destruct (to_long_nonneg y) as [-> _]; [lra|].
  now apply Int_part_le.
Qed.


Lemma div_ge_1 (a b : R) : (0 < b)%R -> (b <= a)%R -> (1 <= a / b)%R.
Proof.
  intros Hb Hab. replace 1%R with (b * / b)%R by (field; lra).
  unfold Rdiv. apply Rmult_le_compat_r; [|exact Hab].
  left. now apply Rinv_0_lt_compat.
Qed.

Lemma div_gt_1 (a b : R) : (0 < b)%R -> (b < a)%R -> (1 < a / b)%R.
Proof.
  intros Hb Hab. replace 1%R with (b * / b)%R by (field; lra).
  unfold Rdiv. apply Rmult_lt_compat_r; [|exact Hab].
  now apply Rinv_0_lt_compat.
Qed.

Section LogTerm.
Variables max_exact max_distance num_buckets : Z.
Hypothesis Hexact : 1 <= max_exact.
Hypothesis Hdist : max_exact < max_distance.
Hypothesis Hwidth : max_exact <= num_buckets.

Lemma me_pos : (0 < IZR max_exact)%R.
Proof using Hexact. apply IZR_lt. lia. Qed.

Lemma ratio_ge_1 (n : Z) : max_exact <= n -> (1 <= IZR n / IZR max_exact)%R.
Proof.
  intros Hn. apply IZR_le in Hn. apply div_ge_1; [exact me_pos|exact Hn].
Qed.

Lemma ratio_mono (n m : Z) : n <= m -> (IZR n / IZR max_exact <= IZR m / IZR max_exact)%R.
Proof.
  intros Hn. apply IZR_le in Hn. unfold Rdiv.
  apply Rmult_le_compat_r; [|exact Hn].
  left. apply Rinv_0_lt_compat, me_pos.
Qed.

Lemma ln_le (x y : R) : (0 < x)%R -> (x <= y)%R -> (ln x <= ln y)%R.
Proof.
  intros Hx [Hlt | ->]; [|lra]. left. now apply ln_increasing.
Qed.

Lemma ln_scale_pos : (0 < ln (IZR max_distance / IZR max_exact))%R.
Proof.
  rewrite <- ln_1. apply ln_increasing; [lra|].
  apply div_gt_1; [exact me_pos|]. now apply IZR_lt.
Qed.

Lemma width_nonneg : (0 <= IZR (num_buckets - max_exact))%R.
Proof. apply IZR_le. lia. Qed.

Lemma log_term_nonneg (n : Z) :
  max_exact <= n -> (0 <= log_term n max_exact max_distance num_buckets)%R.
Proof.
  intros Hn. unfold log_term.
  apply Rmult_le_pos; [|exact width_nonneg].
  apply Rmult_le_pos.
  - rewrite <- ln_1. apply ln_le; [lra|]. now apply ratio_ge_1.
  - left. apply Rinv_0_lt_compat, ln_scale_pos.
Qed.

Lemma log_term_mono (n m : Z) :
  max_exact <= n -> n <= m ->
  (log_term n max_exact max_distance num_buckets
   <= log_term m max_exact max_distance num_buckets)%R.
Proof.
  intros Hn Hnm. unfold log_term.
  apply Rmult_le_compat_r; [exact width_nonneg|].
  apply Rmult_le_compat_r.
  - left. apply Rinv_0_lt_compat, ln_scale_pos.
  - apply ln_le.
    + pose proof (ratio_ge_1 n Hn). lra.
    + now apply ratio_mono.
Qed.



Local Abbreviation lb := (large_bucket max_exact max_distance num_buckets).

Lemma large_bucket_range (n : Z) :
  max_exact <= n -> max_exact < num_buckets ->
  max_exact <= lb n <= num_buckets - 1.
Proof.
  intros Hn Hlt. unfold large_bucket.
  destruct (to_long_nonneg _ (log_term_nonneg n Hn)) as [_ H0]. lia.
Qed.

Lemma large_bucket_mono (n m : Z) :
  max_exact <= n -> n <= m -> lb n <= lb m.
Proof.
  intros Hn Hnm. unfold large_bucket.
  pose proof (to_long_mono _ _ (log_term_nonneg n Hn) (log_term_mono n m Hn Hnm)).
  lia.
Qed.


End LogTerm.

(** The value, read as "base of the half + bucket of the distance". *)
Lemma bucket_unfold (rel : Z) (bidirectional : bool) (num_buckets max_distance : Z) :
  bucket_value rel bidirectional num_buckets max_distance
  = half_base bidirectional num_buckets rel
    + (if distance_of bidirectional rel <? max_exact_of bidirectional num_buckets
       then distance_of bidirectional rel
       else large_bucket (max_exact_of bidirectional num_buckets) max_distance
              (effective_buckets bidirectional num_buckets)
              (distance_of bidirectional rel)).
Proof.
  unfold bucket_value, direction_split, half_base, distance_of,
    max_exact_of, effective_buckets, large_bucket.
  destruct bidirectional; cbn [andb].
  - rewrite Z.abs_opp.
    destruct (Z.ltb_spec (- rel) 0), (Z.ltb_spec 0 rel); try lia; reflexivity.
  - reflexivity.
Qed.

Lemma offset_not_min (rel : Z) : offset_in_range rel -> rel <> int64_min.
Proof. unfold offset_in_range, int64_min. lia. Qed.

Lemma neg_exact (rel : Z) : rel <> int64_min -> neg rel = - rel.
Proof. intros H. unfold neg. now destruct (Z.eqb_spec rel int64_min). Qed.

Lemma abs_exact (n : Z) : n <> int64_min -> abs n = Z.abs n.
Proof. intros H. unfold abs. now destruct (Z.eqb_spec n int64_min). Qed.

(** The call on a relative position: the exceptions of the logarithm, then
    the value. *)
Lemma bucket_call (rel : Z) (bidirectional : bool) (num_buckets max_distance : Z) :
  offset_in_range rel ->
  _relative_position_bucket rel bidirectional num_buckets max_distance
  = (_ <- math_log_ratio max_distance (max_exact_of bidirectional num_buckets) ;;
     Ok (bucket_value rel bidirectional num_buckets max_distance)).
Proof.
  intros Hrel. unfold _relative_position_bucket, bucket_value.
  rewrite (neg_exact rel (offset_not_min rel Hrel)).
  assert (Hsplit : direction_split abs bidirectional num_buckets (- rel)
                   = direction_split Z.abs bidirectional num_buckets (- rel)).
  { unfold direction_split. destruct bidirectional; [|reflexivity].
    rewrite abs_exact; [reflexivity|]. unfold offset_in_range, int64_min in *. lia. }
  rewrite Hsplit. unfold direction_split, max_exact_of, effective_buckets, log_term.
  destruct bidirectional.
  - destruct (math_log_ratio max_distance (num_buckets / 2 / 2)) as [scale|e] eqn:E;
      [|reflexivity].
    cbn [bind]. unfold math_log_ratio in E.
    destruct (num_buckets / 2 / 2 =? 0); [discriminate|].
    destruct (_ || _); [discriminate|]. now injection E as <-.
  - destruct (math_log_ratio max_distance (num_buckets / 2)) as [scale|e] eqn:E;
      [|reflexivity].
    cbn [bind]. unfold math_log_ratio in E.
    destruct (num_buckets / 2 =? 0); [discriminate|].
    destruct (_ || _); [discriminate|]. now injection E as <-.
Qed.

Lemma math_log_ratio_ok (max_distance max_exact : Z) :
  1 <= max_exact -> 0 < max_distance ->
  math_log_ratio max_distance max_exact
  = Ok (ln (IZR max_distance / IZR max_exact)).
Proof.
  intros Hme Hmd. unfold math_log_ratio.
  destruct (Z.eqb_spec max_exact 0); [lia|].
  destruct (Z.eqb_spec max_distance 0); [lia|].
  destruct (Z.ltb_spec max_distance 0); [lia|].
  destruct (Z.ltb_spec max_exact 0); [lia|]. reflexivity.
Qed.

(** With at least one exact bucket and a positive [max_distance] the call
    returns, on every relative position, the value. *)
Lemma bucket_returns (rel : Z) (bidirectional : bool) (num_buckets max_distance : Z) :
  offset_in_range rel ->
  1 <= max_exact_of bidirectional num_buckets -> 0 < max_distance ->
  _relative_position_bucket rel bidirectional num_buckets max_distance
  = Ok (bucket_value rel bidirectional num_buckets max_distance).
Proof.
  intros Hrel Hme Hmd. rewrite (bucket_call rel _ _ _ Hrel).
  now rewrite (math_log_ratio_ok _ _ Hme Hmd).
Qed.

Lemma parameters_return (rel : Z) (bidirectional : bool) (num_buckets max_distance : Z) :
  parameters_ok bidirectional num_buckets max_distance -> offset_in_range rel ->
  _relative_position_bucket rel bidirectional num_buckets max_distance
  = Ok (bucket_value rel bidirectional num_buckets max_distance).
Proof.
  intros (Hme & Hmd & _) Hrel.
  apply bucket_returns; [exact Hrel | exact Hme | lia].
Qed.

Lemma distance_nonneg (bidirectional : bool) (rel : Z) :
  0 <= distance_of bidirectional rel.
Proof. unfold distance_of. destruct bidirectional; lia. Qed.

Lemma half_width (bidirectional : bool) (num_buckets : Z) :
  1 <= max_exact_of bidirectional num_buckets ->
  max_exact_of bidirectional num_buckets <= effective_buckets bidirectional num_buckets
  /\ max_exact_of bidirectional num_buckets < effective_buckets bidirectional num_buckets.
Proof.
  unfold max_exact_of.
  set (nb := effective_buckets bidirectional num_buckets). intros Hme.
  pose proof (Z.mul_div_le nb 2 ltac:(lia)). lia.
Qed.

(** The bucket of a distance, within its half. *)
Lemma half_bucket_range (bidirectional : bool) (num_buckets max_distance n : Z) :
  1 <= max_exact_of bidirectional num_buckets ->
  max_exact_of bidirectional num_buckets < max_distance ->
  0 <= n ->
  0 <= (if n <? max_exact_of bidirectional num_buckets then n
        else large_bucket (max_exact_of bidirectional num_buckets) max_distance
               (effective_buckets bidirectional num_buckets) n)
    <= effective_buckets bidirectional num_buckets - 1.
Proof.
  intros Hme Hmd Hn.
  destruct (half_width bidirectional num_buckets Hme) as [Hle Hlt].
  destruct (Z.ltb_spec n (max_exact_of bidirectional num_buckets)) as [Hs|Hl].
  - lia.
  - pose proof (large_bucket_range _ max_distance _ Hme Hmd Hle n Hl Hlt). lia.
Qed.

Lemma half_bucket_mono (bidirectional : bool) (num_buckets max_distance n m : Z) :
  1 <= max_exact_of bidirectional num_buckets ->
  max_exact_of bidirectional num_buckets < max_distance ->
  0 <= n -> n <= m ->
  (if n <? max_exact_of bidirectional num_buckets then n
   else large_bucket (max_exact_of bidirectional num_buckets) max_distance
          (effective_buckets bidirectional num_buckets) n)
  <= (if m <? max_exact_of bidirectional num_buckets then m
      else large_bucket (max_exact_of bidirectional num_buckets) max_distance
             (effective_buckets bidirectional num_buckets) m).
Proof.
  intros Hme Hmd Hn Hnm.
  destruct (half_width bidirectional num_buckets Hme) as [Hle Hlt].
  destruct (Z.ltb_spec n (max_exact_of bidirectional num_buckets)) as [Hs|Hl],
           (Z.ltb_spec m (max_exact_of bidirectional num_buckets)) as [Hs'|Hl'];
    try lia.
  - pose proof (large_bucket_range _ max_distance _ Hme Hmd Hle m Hl' Hlt). lia.
  - now apply large_bucket_mono.
Qed.

Lemma bucket_in_range (rel : Z) (bidirectional : bool) (num_buckets max_distance : Z) :
  1 <= max_exact_of bidirectional num_buckets ->
  max_exact_of bidirectional num_buckets < max_distance ->
  0 <= bucket_value rel bidirectional num_buckets max_distance < num_buckets.
Proof.
  intros Hme Hmd. rewrite bucket_unfold.
  pose proof (half_bucket_range bidirectional num_buckets max_distance
                _ Hme Hmd (distance_nonneg bidirectional rel)) as Hr.
  destruct (half_width bidirectional num_buckets Hme) as [_ Hlt].
  unfold half_base, max_exact_of, effective_buckets in *.
  destruct bidirectional; cbn [andb] in *.
  - pose proof (Z.mul_div_le num_buckets 2 ltac:(lia)).
    destruct (0 <? rel); lia.
  - lia.
Qed.

Lemma bucket_monotone (r1 r2 : Z) (bidirectional : bool) (num_buckets max_distance : Z) :
  1 <= max_exact_of bidirectional num_buckets ->
  max_exact_of bidirectional num_buckets < max_distance ->
  (r1 <= 0 /\ r2 <= 0) \/ (0 <= r1 /\ 0 <= r2) ->
  Z.abs r1 <= Z.abs r2 ->
  bucket_value r1 bidirectional num_buckets max_distance
  <= bucket_value r2 bidirectional num_buckets max_distance.
Proof.
  intros Hme Hmd Hside Habs. rewrite !bucket_unfold.
  assert (Hd : distance_of bidirectional r1 <= distance_of bidirectional r2)
    by (unfold distance_of; destruct bidirectional; lia).
  pose proof (half_bucket_mono bidirectional num_buckets max_distance _ _
                Hme Hmd (distance_nonneg bidirectional r1) Hd) as Hm.
  pose proof (half_bucket_range bidirectional num_buckets max_distance
                _ Hme Hmd (distance_nonneg bidirectional r2)) as Hr2.
  destruct (half_width bidirectional num_buckets Hme) as [_ Hlt].
  unfold half_base in *. destruct bidirectional; cbn [andb] in *; [|lia].
  destruct (Z.ltb_spec 0 r1), (Z.ltb_spec 0 r2); lia.
Qed.

Lemma default_parameters_ok (bidirectional : bool) : parameters_ok bidirectional 32 128.
Proof.
  unfold parameters_ok. destruct bidirectional; vm_compute; repeat split; congruence.
Qed.

(** C3. With bucket parameters with which the call returns, in both modes:
    on every relative position (the difference of two positions: an int64
    value other than the least, whose negation wraps) the function returns a
    bucket in [[0, num_buckets)], and among positions on the same side of the
    query the bucket is non-decreasing in the absolute distance. *)
Theorem bucket_bounded_monotone (bidirectional : bool) (num_buckets max_distance : Z) :
  parameters_ok bidirectional num_buckets max_distance ->
  (forall rel,
      offset_in_range rel ->
      exists bucket,
        _relative_position_bucket rel bidirectional num_buckets max_distance
        = Ok bucket
        /\ 0 <= bucket < num_buckets)
  /\ (forall r1 r2,
        offset_in_range r1 -> offset_in_range r2 ->
        (r1 <= 0 /\ r2 <= 0) \/ (0 <= r1 /\ 0 <= r2) ->
        Z.abs r1 <= Z.abs r2 ->
        exists bucket1 bucket2,
          _relative_position_bucket r1 bidirectional num_buckets max_distance
          = Ok bucket1
          /\ _relative_position_bucket r2 bidirectional num_buckets max_distance
             = Ok bucket2
          /\ bucket1 <= bucket2).
Proof.
  intros Hok. pose proof Hok as (Hme & Hmd & _). split.
  - intros rel Hrel. eexists. split; [now apply parameters_return|].
    now apply bucket_in_range.
  - intros r1 r2 H1 H2 Hside Habs. do 2 eexists.
    split; [now apply parameters_return|]. split; [now apply parameters_return|].
    now apply bucket_monotone.
Qed.

Lemma bucket_bounded_monotone_witness :
  (exists bucket, _relative_position_bucket (-40) false 32 128 = Ok bucket
                  /\ 0 <= bucket < 32)
  /\ (exists bucket1 bucket2,
        _relative_position_bucket (-3) true 32 128 = Ok bucket1
        /\ _relative_position_bucket (-40) true 32 128 = Ok bucket2
        /\ bucket1 <= bucket2).
Proof.
  split.
  - apply (proj1 (bucket_bounded_monotone false 32 128 (default_parameters_ok false))).
    unfold offset_in_range. lia.
  - apply (proj2 (bucket_bounded_monotone true 32 128 (default_parameters_ok true)));
      unfold offset_in_range; lia.
Defined.

(** The function runs on concrete offsets: past and future positions with 32
    buckets, in both modes. *)
Example bucket_past_3 : _relative_position_bucket (-3) true 32 128 = Ok 3.
Proof. rewrite bucket_returns
    by first [unfold offset_in_range; lia | vm_compute; congruence]. reflexivity. Qed.

Example bucket_future_3 : _relative_position_bucket 3 true 32 128 = Ok (16 + 3).
Proof. rewrite bucket_returns
    by first [unfold offset_in_range; lia | vm_compute; congruence]. reflexivity. Qed.

Example bucket_future_3_decoder : _relative_position_bucket 3 false 32 128 = Ok 0.
Proof. rewrite bucket_returns
    by first [unfold offset_in_range; lia | vm_compute; congruence]. reflexivity. Qed.

Example bucket_past_15_decoder : _relative_position_bucket (-15) false 32 128 = Ok 15.
Proof. rewrite bucket_returns
    by first [unfold offset_in_range; lia | vm_compute; congruence]. reflexivity. Qed.

(** At the int64 minimum negation and absolute value wrap: in bidirectional
    mode the distance stays negative, counts as small, and the function
    returns it shifted by the half; in unidirectional mode it is cut to 0. *)
Example bucket_at_int64_min :
  _relative_position_bucket (- 2 ^ 63) true 32 128 = Ok (-9223372036854775792)
  /\ _relative_position_bucket (- 2 ^ 63) false 32 128 = Ok 0.
Proof.
  unfold _relative_position_bucket.
  change (neg (- 2 ^ 63)) with (- 2 ^ 63). unfold direction_split.
  change (abs (- 2 ^ 63)) with (- 2 ^ 63).
  change (32 / 2) with 16. change (16 / 2) with 8.
  rewrite !math_log_ratio_ok by lia. cbn [bind].
  split; reflexivity.
Qed.

(** The exceptions of the call: no exact bucket, or a [max_distance] that is
    not positive. *)
Example bucket_raises :
  _relative_position_bucket (-3) true 3 128 = Err ZeroDivisionError
  /\ _relative_position_bucket (-3) false 1 128 = Err ZeroDivisionError
  /\ _relative_position_bucket (-3) true 32 0 = Err (ValueError "math domain error")
  /\ _relative_position_bucket (-3) true 32 (-128) = Err (ValueError "math domain error").
Proof. repeat split. Qed.






(** A distance in the logarithmic region, computed exactly: 16 is two
    buckets beyond the 8 exact ones, in the half of the future positions. *)
Example bucket_at_16 : _relative_position_bucket 16 true 32 128 = Ok (16 + 10).
Proof.
  rewrite bucket_returns
    by first [unfold offset_in_range; lia | vm_compute; congruence]. f_equal.
  rewrite bucket_unfold.
  change (half_base true 32 16) with 16. f_equal.
  change (distance_of true 16) with 16.
  change (max_exact_of true 32) with 8. change (effective_buckets true 32) with 16.
  change (16 <? 8) with false. cbv iota.
  unfold large_bucket, log_term. change (16 - 8) with 8.
  replace (IZR 16 / IZR 8)%R with 2%R by lra.
  replace (IZR 128 / IZR 8)%R with (2 ^ 4)%R by lra.
  rewrite ln_pow by lra.
  assert (H2 : (0 < ln 2)%R) by (rewrite <- ln_1; apply ln_increasing; lra).
  replace (ln 2 / (INR 4 * ln 2) * IZR 8)%R with (IZR 2)
    by (change (INR 4) with (1 + 1 + 1 + 1)%R; field; lra).
  destruct (to_long_nonneg (IZR 2) ltac:(lra)) as [-> _].
  rewrite Int_part_IZR. reflexivity.
Qed.

End BucketFacts.

(** ** Facts about the layer norm *)

Module LayerNormFacts.
Import LayerNorm.
Local Open Scope R_scope.

Lemma variance_data (x : Tensor) :
  data (variance x) = [mean_square (data x)].
Proof. unfold variance, mean_keepdim, pow2, to, mean_square. cbn. now rewrite length_map. Qed.

Lemma scaled_input (self : T5LayerNorm) (x : Tensor) :
  data (broadcast Rdiv x (sqrt_t (add_scalar (variance x) (variance_epsilon self))))
  = map (fun v => v / sqrt (mean_square (data x) + variance_epsilon self)) (data x).
Proof.
  unfold broadcast, sqrt_t, add_scalar. cbn [data]. rewrite variance_data. cbn [map].
  destruct (data x) as [|? [|? ?]]; reflexivity.
Qed.

Lemma forward_data (self : T5LayerNorm) (x : Tensor) :
  length (data (weight self)) = length (data x) ->
  data (forward self x)
  = zip_with Rmult (data (weight self))
      (map (fun v => v / sqrt (mean_square (data x) + variance_epsilon self)) (data x)).
Proof.
  intros Hlen. unfold forward.
  set (scaled := broadcast Rdiv x _).
  assert (Hs : data (if dtype_eqb (dtype (weight self)) float16
                     then to float16 scaled else scaled)
               = map (fun v => v / sqrt (mean_square (data x) + variance_epsilon self))
                   (data x)).
  { destruct (dtype_eqb _ _); cbn [to data]; apply scaled_input. }
  unfold broadcast at 1. cbn [data]. rewrite Hs.
  destruct (data (weight self)) as [|w [|w' ws]], (data x) as [|v [|v' vs]];
    try discriminate; reflexivity.
Qed.

End LayerNormFacts.

(** ** The layer norm on floating-point tensors *)

Module FloatLayerNormFacts.
Import Py FloatLayerNorm.
Local Open Scope py_scope.

Section WithKernels.
Context {kernels : FloatKernels}.

Lemma dtype_eqb_eq (a b : Dtype) : dtype_eqb a b = true -> a = b.
Proof. destruct a, b; (reflexivity || discriminate). Qed.

Lemma to_dtype (d : Dtype) (t : Tensor) : dtype (to d t) = d.
Proof.
  unfold to. destruct (dtype_eqb (dtype t) d) eqn:E; [|reflexivity].
  now apply dtype_eqb_eq.
Qed.

Lemma to_data (d : Dtype) (t : Tensor) :
  data (to d t) = (fun v => if dtype_eqb (dtype t) d then v else cast d v) <$> data t.
Proof.
  unfold to. destruct (dtype_eqb (dtype t) d); [|reflexivity].
  now rewrite list_fmap_id.
Qed.

(** Two tensors of the same length along the last axis: the operation is
    applied position by position. *)
Lemma broadcast_same_length (op : Dtype -> Float -> Float -> Float) (a b : Tensor) :
  length (data a) = length (data b) ->
  broadcast op a b
  = Ok (mkTensor (promote (dtype a) (dtype b))
          (zip_with (op (promote (dtype a) (dtype b)))
             (data (to (promote (dtype a) (dtype b)) a))
             (data (to (promote (dtype a) (dtype b)) b)))).
Proof.
  intros Hlen. unfold broadcast.
  assert (Hlen' : length (data (to (promote (dtype a) (dtype b)) a))
                  = length (data (to (promote (dtype a) (dtype b)) b))).
  { now rewrite !to_data, !length_fmap. }
  destruct (data (to _ a)) as [|x [|x' xs]], (data (to _ b)) as [|y [|y' ys]];
    try discriminate Hlen'; try reflexivity.
  cbn [length] in *. injection Hlen' as Hlen'. rewrite Hlen', Nat.eqb_refl. reflexivity.
Qed.

(** A tensor against one of length 1 on the right. *)
Lemma broadcast_right_one (op : Dtype -> Float -> Float -> Float) (a b : Tensor)
    (y : Float) :
  data b = [y] ->
  broadcast op a b
  = Ok (mkTensor (promote (dtype a) (dtype b))
          ((fun x => op (promote (dtype a) (dtype b)) x
                       (if dtype_eqb (dtype b) (promote (dtype a) (dtype b))
                        then y else cast (promote (dtype a) (dtype b)) y))
             <$> data (to (promote (dtype a) (dtype b)) a))).
Proof.
  intros Hb. unfold broadcast. rewrite (to_data _ b), Hb. cbn [fmap list_fmap].
  now destruct (data (to _ a)) as [|x [|x' xs]].
Qed.

Lemma broadcast_mismatch (op : Dtype -> Float -> Float -> Float) (a b : Tensor) :
  length (data a) <> length (data b) ->
  length (data a) <> 1 -> length (data b) <> 1 ->
  broadcast op a b = Err RuntimeError.
Proof.
  intros Hlen Ha Hb. unfold broadcast.
  assert (Hla : length (data (to (promote (dtype a) (dtype b)) a)) = length (data a))
    by now rewrite to_data, length_fmap.
  assert (Hlb : length (data (to (promote (dtype a) (dtype b)) b)) = length (data b))
    by now rewrite to_data, length_fmap.
  destruct (data (to _ a)) as [|x [|x' xs]], (data (to _ b)) as [|y [|y' ys]];
    cbn [length] in *; try congruence;
    match goal with
    | |- context [?n =? ?m] => destruct (Nat.eqb_spec n m); [congruence | reflexivity]
    end.
Qed.

Lemma zip_with_constant {A B C : Type} (f : A -> B -> C) (l : list A) (k : list B)
    (c : B) :
  k = replicate (length l) c -> zip_with f l k = (fun a => f a c) <$> l.
Proof.
  intros ->. induction l as [|a l IH]; [reflexivity|].
  cbn [length replicate zip_with fmap list_fmap]. f_equal. exact IH.
Qed.

Lemma float_variance_value (x : Tensor) :
  variance x
  = mkTensor float32
      [f_mean float32 (f_pow2 float32 <$> (converted (dtype x) float32 <$> data x))].
Proof.
  unfold variance, mean_keepdim, pow2. rewrite to_dtype, to_data. reflexivity.
Qed.

(** [x / torch.sqrt(variance + self.variance_epsilon)] *)
Lemma float_scaled_input (self : T5LayerNorm) (x : Tensor) :
  let d1 := promote (dtype x) float32 in
  let root :=
    f_sqrt float32
      (f_add float32
         (f_mean float32 (f_pow2 float32 <$> (converted (dtype x) float32 <$> data x)))
         (cast float32 (variance_epsilon self))) in
  broadcast f_div x (sqrt_t (add_scalar (variance x) (variance_epsilon self)))
  = Ok (mkTensor d1
          ((fun xi => f_div d1 (converted (dtype x) d1 xi) (converted float32 d1 root))
             <$> data x)).
Proof.
  intros d1 root. rewrite float_variance_value.
  rewrite (broadcast_right_one f_div x _ root) by reflexivity.
  cbn [dtype sqrt_t add_scalar]. fold d1. rewrite to_data, <- list_fmap_compose.
  reflexivity.
Qed.

Lemma float_forward_value (self : T5LayerNorm) (x : Tensor) :
  let dx := dtype x in
  let dw := dtype (weight self) in
  let d1 := promote dx float32 in
  let d2 := if dtype_eqb dw float16 then float16 else d1 in
  let dout := promote dw d2 in
  let root :=
    f_sqrt float32
      (f_add float32
         (f_mean float32 (f_pow2 float32 <$> (converted dx float32 <$> data x)))
         (cast float32 (variance_epsilon self))) in
  let scaled xi :=
    converted d1 d2 (f_div d1 (converted dx d1 xi) (converted float32 d1 root)) in
  length (data (weight self)) = length (data x) ->
  forward self x
  = Ok (mkTensor dout
          (zip_with (fun wi xi => f_mul dout (converted dw dout wi)
                                    (converted d2 dout (scaled xi)))
             (data (weight self)) (data x))).
Proof.
  intros dx dw d1 d2 dout root scaled Hlen. unfold forward.
  rewrite float_scaled_input. cbn [bind]. fold dx d1 root.
  set (divided := mkTensor d1 _).
  assert (Hcast : (if dtype_eqb (dtype (weight self)) float16
                   then to float16 divided else divided)
                  = mkTensor d2 (scaled <$> data x)).
  { fold dw. subst d2 scaled divided. unfold converted.
    destruct (dtype_eqb dw float16) eqn:Hw.
    - unfold to. cbn [dtype data].
      destruct (dtype_eqb d1 float16) eqn:H1.
      + subst d1. destruct dx; discriminate.
      + now rewrite <- list_fmap_compose.
    - assert (dtype_eqb d1 d1 = true) as -> by now destruct d1.
      reflexivity. }
  rewrite Hcast.
  rewrite broadcast_same_length by (cbn [data]; now rewrite length_fmap).
  cbn [dtype data]. fold dw dout. f_equal. f_equal.
  rewrite !to_data. cbn [dtype data].
  rewrite <- list_fmap_compose.
  rewrite zip_with_fmap_l, zip_with_fmap_r. reflexivity.
Qed.

(** C10. [T5LayerNorm.forward] on floating-point tensors, for whatever
    kernels compute the operations.  The mean of squares is computed in
    float32 from the input converted to float32, whatever the element type
    of the input is.  For a weight as long as the input the call returns,
    and at every position the result is the weight times the input divided
    by the root of (mean of squares + epsilon), each operation in the
    element type torch promotes to and the quotient converted to float16
    when the weight is float16: the input enters through its component and
    through the mean of squares only, nothing is subtracted and nothing is
    added.  A vector whose components all equal [c] comes out as the weight
    times one common factor.  A weight that does not broadcast against the
    input ends the call. *)
Theorem layer_norm_scales_only (self : T5LayerNorm) (x : Tensor) :
  let dx := dtype x in
  let dw := dtype (weight self) in
  let as_type (from d : Dtype) (v : Float) : Float :=
    if dtype_eqb from d then v else cast d v in
  let mean_square :=
    f_mean float32 (f_pow2 float32 <$> (as_type dx float32 <$> data x)) in
  let root :=
    f_sqrt float32 (f_add float32 mean_square (cast float32 (variance_epsilon self))) in
  let d1 := promote dx float32 in
  let d2 := if dtype_eqb dw float16 then float16 else d1 in
  let dout := promote dw d2 in
  let scaled (xi : Float) : Float :=
    as_type d1 d2 (f_div d1 (as_type dx d1 xi) (as_type float32 d1 root)) in
  variance x = mkTensor float32 [mean_square]
  /\ (length (data (weight self)) = length (data x) ->
      exists out,
        forward self x = Ok out
        /\ dtype out = dout
        /\ length (data out) = length (data x)
        /\ forall (i : nat) (xi wi : Float),
             data x !! i = Some xi -> data (weight self) !! i = Some wi ->
             data out !! i
             = Some (f_mul dout (as_type dw dout wi) (as_type d2 dout (scaled xi))))
  /\ (forall (c : Float) (n : nat),
        data x = replicate n c -> length (data (weight self)) = n ->
        forward self x
        = Ok (mkTensor dout
                ((fun wi => f_mul dout (as_type dw dout wi) (as_type d2 dout (scaled c)))
                   <$> data (weight self))))
  /\ (length (data (weight self)) <> length (data x) ->
      length (data (weight self)) <> 1 -> length (data x) <> 1 ->
      forward self x = Err RuntimeError).
Proof.
  intros dx dw as_type mean_square root d1 d2 dout scaled.
  split; [apply float_variance_value|]. split; [|split].
  - intros Hlen. eexists. split; [apply (float_forward_value self x Hlen)|].
    cbn [dtype data]. split; [reflexivity|].
    split; [rewrite length_zip_with; lia|].
    intros i xi wi Hx Hw. rewrite lookup_zip_with, Hw. cbn. rewrite Hx. reflexivity.
  - intros c n Hx Hw.
    rewrite (float_forward_value self x) by (now rewrite Hx, length_replicate).
    fold dx dw d1 d2 dout. f_equal. f_equal.
    rewrite (zip_with_constant _ _ _ c) by (now rewrite Hx, Hw). reflexivity.
  - intros Hlen Hw Hx. unfold forward. rewrite float_scaled_input. cbn [bind].
    apply broadcast_mismatch; [| exact Hw |];
      destruct (dtype_eqb (dtype (weight self)) float16);
      rewrite ?to_data; cbn [data]; rewrite ?length_fmap; assumption.
Qed.

End WithKernels.

Lemma layer_norm_scales_only_witness :
  forward (ieee_norm float32 [1; 1]%Z python_1e_6) (ieee_tensor float16 [3; 3]%Z)
  = Ok (@mkTensor ieee_kernels float32
          [S754_finite false 16777215 (-24); S754_finite false 16777215 (-24)]).
Proof.
  destruct (layer_norm_scales_only (kernels := ieee_kernels)
              (ieee_norm float32 [1; 1]%Z python_1e_6) (ieee_tensor float16 [3; 3]%Z))
    as (_ & _ & Hconstant & _).
  rewrite (Hconstant (of_Z float16 3) 2 eq_refl eq_refl). reflexivity.
Defined.

(** The mean of squares is taken in float32 also when the input is float64:
    the square of [1e20] is beyond float32, the root is infinite and the
    result is zero. *)
Example layer_norm_float32_overflow :
  forward (ieee_norm float32 [1; 1]%Z python_1e_6)
    (ieee_tensor float64 [10 ^ 20; 10 ^ 20]%Z)
  = Ok (@mkTensor ieee_kernels float64 [S754_zero false; S754_zero false]).
Proof. reflexivity. Qed.

(** Values in float32: [12, 0] gives [11863284 * 2^-23, 0]; one component
    alone, here 8, gives exactly 1. *)
Example layer_norm_float32_values :
  forward (ieee_norm float32 [1; 1]%Z python_1e_6) (ieee_tensor float32 [12; 0]%Z)
  = Ok (@mkTensor ieee_kernels float32
          [S754_finite false 11863284 (-23); S754_zero false])
  /\ forward (ieee_norm float32 [1]%Z python_1e_6) (ieee_tensor float32 [8]%Z)
     = Ok (@mkTensor ieee_kernels float32 [S754_finite false 8388608 (-23)]).
Proof. split; reflexivity. Qed.

(** A float16 weight: the quotient is converted to float16 and so is the
    result. *)
Example layer_norm_half_weight :
  forward (ieee_norm float16 [1; 1]%Z python_1e_6) (ieee_tensor float32 [3; 4]%Z)
  = Ok (@mkTensor ieee_kernels float16
          [S754_finite false 1738 (-11); S754_finite false 1159 (-10)]).
Proof. reflexivity. Qed.

Example layer_norm_shape_mismatch :
  forward (ieee_norm float32 [2; 2; 2]%Z python_1e_6) (ieee_tensor float32 [3; 4]%Z)
  = Err RuntimeError.
Proof. reflexivity. Qed.

End FloatLayerNormFacts.


(** ** Facts about head pruning *)

Module PruneFacts.
Import Py Modules Prune.
Local Open Scope nat_scope.

(** *** The index built from the mask *)

Lemma positions_length (mask : list bool) (i j : nat) :
  length (positions_from i mask) = length (positions_from j mask).
Proof.
  revert i j. induction mask as [|b mask IH]; intros i j; [reflexivity|].
  destruct b; cbn; [f_equal|]; apply IH.
Qed.

Lemma positions_app (l1 l2 : list bool) (i : nat) :
  positions_from i (l1 ++ l2)
  = positions_from i l1 ++ positions_from (i + length l1) l2.
Proof.
  revert i. induction l1 as [|b l1 IH]; intros i; cbn.
  - now rewrite Nat.add_0_r.
  - rewrite IH, Nat.add_succ_r. now destruct b.
Qed.

Lemma positions_all_set (i len : nat) :
  positions_from i (replicate len true) = seq i len.
Proof. revert i. induction len as [|len IH]; intros i; cbn; [|rewrite IH]; reflexivity. Qed.

Lemma positions_all_clear (i len : nat) :
  positions_from i (replicate len false) = [].
Proof. revert i. induction len as [|len IH]; intros i; cbn; [|rewrite IH]; reflexivity. Qed.

Lemma concat_replicate_rows {A : Type} (n d : nat) (x : A) :
  concat (replicate n (replicate d x)) = replicate (n * d) x.
Proof.
  induction n as [|n IH]; [reflexivity|].
  cbn [replicate concat Nat.mul]. now rewrite IH, replicate_add.
Qed.

(** Number of positions still set in a flattened mask. *)
Lemma count_app (l1 l2 : list bool) :
  length (positions_from 0 (l1 ++ l2))
  = length (positions_from 0 l1) + length (positions_from 0 l2).
Proof.
  rewrite positions_app, length_app. f_equal. apply positions_length.
Qed.

Lemma count_clear_row (d : nat) (mask : list (list bool)) (r : nat) :
  mask !! r = Some (replicate d true) ->
  length (positions_from 0 (concat (<[r := replicate d false]> mask))) + d
  = length (positions_from 0 (concat mask)).
Proof.
  intros Hr. pose proof (lookup_lt_Some _ _ _ Hr) as Hlt.
  rewrite insert_take_drop by exact Hlt.
  rewrite <- (take_drop_middle mask r _ Hr) at 3.
  rewrite !concat_app, !concat_cons, !count_app.
  rewrite positions_all_clear, positions_all_set, length_seq. cbn. lia.
Qed.

Lemma clear_rows_length (d : nat) (rows : list nat) (mask mask' : list (list bool)) :
  clear_rows d mask rows = Some mask' ->
  length mask' = length mask /\ Forall (fun r => r < length mask) rows.
Proof.
  revert mask. induction rows as [|r rows IH]; intros mask H; cbn in H.
  - injection H as <-. split; [reflexivity|constructor].
  - unfold clear_row in H. destruct (Nat.ltb_spec r (length mask)) as [Hr|]; [|discriminate].
    destruct (IH _ H) as [Hlen Hall]. rewrite length_insert in Hlen, Hall.
    split; [exact Hlen|]. now constructor.
Qed.

Lemma clear_rows_count (d : nat) (rows : list nat) (mask mask' : list (list bool)) :
  NoDup rows ->
  (forall r, r ∈ rows -> mask !! r = Some (replicate d true)) ->
  clear_rows d mask rows = Some mask' ->
  length (positions_from 0 (concat mask')) + d * length rows
  = length (positions_from 0 (concat mask)).
Proof.
  revert mask. induction rows as [|r rows IH]; intros mask Hnd Hset H; cbn in H.
  - injection H as <-. cbn. lia.
  - apply NoDup_cons in Hnd as [Hr Hnd].
    assert (Hm : mask !! r = Some (replicate d true)) by (apply Hset; left).
    unfold clear_row in H.
    destruct (Nat.ltb_spec r (length mask)) as [Hlt|]; [|discriminate].
    rewrite <- (count_clear_row d mask r Hm). cbn [length].
    rewrite <- (IH (<[r := replicate d false]> mask) Hnd); [lia| |exact H].
    intros r' Hr'. rewrite list_lookup_insert_ne; [apply Hset; now right|].
    intros ->. contradiction.
Qed.

(** *** Shifting a head past the heads already pruned *)

Lemma pruned_before_le (already : gset nat) (h : nat) :
  size (filter (fun p => p < h) already) <= h.
Proof.
  transitivity (size (set_seq 0 h : gset nat)); [|now rewrite size_set_seq].
  apply subseteq_size. intros p Hp. apply elem_of_filter in Hp as [Hp _].
  cbn beta in Hp. apply elem_of_set_seq. lia.
Qed.

Lemma shifted_head_lt (already : gset nat) (h1 h2 : nat) :
  h1 ∉ already -> h1 < h2 ->
  shifted_head already h1 < shifted_head already h2.
Proof.
  intros Hnot Hlt. unfold shifted_head.
  pose proof (pruned_before_le already h1) as H1.
  set (before1 := filter (fun p => p < h1) already) in *.
  set (between := set_seq (S h1) (h2 - h1 - 1) : gset nat).
  assert (H2 : size (filter (fun p => p < h2) already)
               <= size before1 + (h2 - h1 - 1)).
  { transitivity (size (before1 ∪ between)).
    - apply subseteq_size. intros p Hp. apply elem_of_filter in Hp as [Hp Hin].
      cbn beta in Hp. apply elem_of_union. destruct (decide (p < h1)) as [Hs|Hs].
      + left. now apply elem_of_filter.
      + right. apply elem_of_set_seq.
        assert (p <> h1) by (intros ->; contradiction). lia.
    - rewrite size_union_alt.
      assert (Hsub : between ∖ before1 ⊆ between)
        by (intros x Hx; now apply elem_of_difference in Hx as [Hx _]).
      pose proof (subseteq_size _ _ Hsub) as Hd.
      unfold between in Hd at 2. rewrite size_set_seq in Hd. lia. }
  lia.
Qed.

Lemma shifted_heads_NoDup (already heads : gset nat) :
  heads ## already ->
  NoDup (shifted_head already <$> elements heads).
Proof.
  intros Hdisj. apply NoDup_fmap_2_strong; [|apply NoDup_elements].
  intros h1 h2 Hh1 Hh2 Heq.
  apply elem_of_elements in Hh1, Hh2.
  assert (h1 ∉ already) by (intros ?; now apply (Hdisj h1)).
  assert (h2 ∉ already) by (intros ?; now apply (Hdisj h2)).
  destruct (Nat.lt_trichotomy h1 h2) as [Hlt|[->|Hlt]]; [|reflexivity|].
  - pose proof (shifted_head_lt already h1 h2 ltac:(assumption) Hlt). lia.
  - pose proof (shifted_head_lt already h2 h1 ltac:(assumption) Hlt). lia.
Qed.

Lemma bounded_NoDup_length (n : nat) (l : list nat) :
  NoDup l -> Forall (fun r => r < n) l -> length l <= n.
Proof.
  intros Hnd Hall.
  transitivity (length (seq 0 n)); [|now rewrite length_seq].
  apply submseteq_length, NoDup_submseteq; [exact Hnd|].
  intros r Hr. rewrite Forall_forall in Hall. apply elem_of_seq.
  specialize (Hall r Hr). cbn beta in Hall. lia.
Qed.

(** *** The library helpers *)

Lemma find_pruneable_ok (heads : list nat) (n d : nat) (already : gset nat)
    (heads' : gset nat) (index : list nat) :
  find_pruneable_heads_and_indices heads n d already = Ok (heads', index) ->
  heads' = list_to_set heads ∖ already
  /\ size heads' <= n
  /\ length index = (n - size heads') * d.
Proof.
  unfold find_pruneable_heads_and_indices.
  set (hs := list_to_set heads ∖ already).
  set (rows := shifted_head already <$> elements hs).
  destruct (clear_rows d (replicate n (replicate d true)) rows) as [mask|] eqn:Hclear;
    cbn; [|discriminate].
  intros [= <- <-].
  assert (Hnd : NoDup rows)
    by (apply shifted_heads_NoDup; intros x Hx; apply elem_of_difference in Hx; tauto).
  destruct (clear_rows_length _ _ _ _ Hclear) as [_ Hall].
  rewrite length_replicate in Hall.
  assert (Hrows : length rows = size hs)
    by (unfold rows; now rewrite length_fmap).
  pose proof (bounded_NoDup_length n rows Hnd Hall) as Hle.
  assert (Hset : forall r, r ∈ rows ->
            replicate n (replicate d true) !! r = Some (replicate d true)).
  { intros r Hr. rewrite Forall_forall in Hall. apply lookup_replicate_2.
    exact (Hall r Hr). }
  pose proof (clear_rows_count d rows _ _ Hnd Hset Hclear) as Hcount.
  rewrite concat_replicate_rows, positions_all_set, length_seq in Hcount.
  split; [reflexivity|]. split; [lia|].
  rewrite Nat.mul_sub_distr_r. rewrite <- Hrows. lia.
Qed.

Lemma find_pruneable_noop (heads : list nat) (n d : nat) (already : gset nat) :
  list_to_set heads ⊆ already ->
  find_pruneable_heads_and_indices heads n d already = Ok (∅, seq 0 (n * d)).
Proof.
  intros Hsub. unfold find_pruneable_heads_and_indices.
  assert (E : list_to_set heads ∖ already = (∅ : gset nat)).
  { apply set_eq. intros x. rewrite elem_of_difference.
    split; [intros [Hx Hn]; exfalso; apply Hn, Hsub, Hx|].
    intros Hx. now apply not_elem_of_empty in Hx. }
  rewrite E, elements_empty. cbn.
  now rewrite concat_replicate_rows, positions_all_set.
Qed.

Lemma index_select_all {A : Type} (l : list A) :
  index_select l (seq 0 (length l)) = Ok l.
Proof.
  unfold index_select.
  replace (mapM (fun i => l !! i) (seq 0 (length l))) with (Some l); [reflexivity|].
  symmetry. apply mapM_Some_2.
  assert (H : forall pre : list A,
             Forall2 (fun i y => (pre ++ l) !! i = Some y) (seq (length pre) (length l)) l).
  { induction l as [|x l IH]; intros pre; [constructor|].
    cbn [length seq]. constructor.
    - now rewrite list_lookup_middle.
    - specialize (IH (pre ++ [x])). rewrite length_app, <- app_assoc in IH.
      cbn in IH. now rewrite Nat.add_1_r in IH. }
  exact (H []).
Qed.

Lemma index_select_length {A : Type} (l l' : list A) (index : list nat) :
  index_select l index = Ok l' -> length l' = length index.
Proof.
  unfold index_select. destruct (mapM _ index) as [r|] eqn:E; cbn; [|discriminate].
  intros [= <-]. apply mapM_Some_1, Forall2_length in E. now symmetry.
Qed.

Lemma columns_select_all (layer : Linear) (width : nat) :
  Forall (fun row => length row = width) layer ->
  mapR (fun row => index_select row (seq 0 width)) layer = Ok layer.
Proof.
  induction 1 as [|row layer Hrow _ IH]; [reflexivity|].
  cbn. rewrite <- Hrow, index_select_all. cbn. rewrite Hrow, IH. reflexivity.
Qed.

Lemma columns_select_length (layer layer' : Linear) (index : list nat) :
  mapR (fun row => index_select row index) layer = Ok layer' ->
  Forall (fun row => length row = length index) layer'.
Proof.
  revert layer'. induction layer as [|row layer IH]; intros layer'; cbn.
  - intros [= <-]. constructor.
  - destruct (index_select row index) as [row'|] eqn:Hrow; cbn; [|discriminate].
    destruct (mapR _ layer) as [rest|]; cbn; [|discriminate].
    intros [= <-]. constructor; [now apply index_select_length in Hrow|now apply IH].
Qed.

(** *** One call *)

Lemma prune_heads_empty (self : T5Attention) : prune_heads self [] = Ok self.
Proof. reflexivity. Qed.

(** A call that goes through the helpers leaves a consistent module. *)
Lemma prune_heads_full (self pruned : T5Attention) (heads : list nat) :
  heads <> [] ->
  prune_heads self heads = Ok pruned ->
  consistent pruned
  /\ n_heads pruned + size (list_to_set heads ∖ pruned_heads self : gset nat)
     = n_heads self
  /\ pruned_heads pruned = pruned_heads self ∪ list_to_set heads.
Proof.
  intros Hne. unfold prune_heads.
  destruct heads as [|h heads]; [contradiction|]. cbn [length Nat.eqb].
  remember (h :: heads) as hs eqn:Ehs. clear Ehs Hne.
  destruct (find_pruneable_heads_and_indices hs (n_heads self) (d_kv self)
              (pruned_heads self)) as [[heads' index]|] eqn:Hfind; cbn; [|discriminate].
  apply find_pruneable_ok in Hfind as (-> & Hle & Hlen).
  destruct (index_select (q self) index) as [q'|] eqn:Hq; cbn; [|discriminate].
  destruct (index_select (k self) index) as [k'|] eqn:Hk; cbn; [|discriminate].
  destruct (index_select (v self) index) as [v'|] eqn:Hv; cbn; [|discriminate].
  destruct (mapR _ (o self)) as [o'|] eqn:Ho; cbn; [|discriminate].
  intros [= <-]. unfold consistent.
  cbn [q k v o n_heads d_kv inner_dim pruned_heads].
  apply index_select_length in Hq, Hk, Hv. apply columns_select_length in Ho.
  rewrite Hlen in *.
  split; [repeat split; assumption|]. split; [lia|].
  apply set_eq. intros x. rewrite !elem_of_union, elem_of_difference.
  destruct (decide (x ∈ pruned_heads self)); tauto.
Qed.

(** On a consistent module, asking again for heads that are all recorded
    changes nothing. *)
Lemma prune_heads_noop (self : T5Attention) (heads : list nat) :
  consistent self ->
  list_to_set heads ⊆ pruned_heads self ->
  prune_heads self heads = Ok self.
Proof.
  intros (Hq & Hk & Hv & Ho & Hinner) Hsub. unfold prune_heads.
  destruct (length heads =? 0); [reflexivity|].
  rewrite (find_pruneable_noop _ _ _ _ Hsub). cbn.
  rewrite <- Hq at 1. rewrite index_select_all. cbn.
  rewrite <- Hk at 1. rewrite index_select_all. cbn.
  rewrite <- Hv at 1. rewrite index_select_all. cbn.
  rewrite (columns_select_all _ _ Ho). cbn.
  rewrite size_empty, Nat.sub_0_r, <- Hinner, union_empty_r_L.
  now destruct self.
Qed.

Lemma prune_heads_step (self pruned : T5Attention) (heads : list nat) :
  prune_heads self heads = Ok pruned ->
  n_heads pruned + size (list_to_set heads ∖ pruned_heads self : gset nat)
  = n_heads self
  /\ pruned_heads pruned = pruned_heads self ∪ list_to_set heads
  /\ (consistent self \/ heads <> [] -> consistent pruned).
Proof.
  intros H. destruct heads as [|h heads].
  - injection H as <-. cbn [list_to_set].
    rewrite difference_disjoint_L, size_empty, union_empty_r_L by set_solver.
    split; [lia|]. split; [reflexivity|]. intros [Hc|Hc]; [exact Hc|contradiction].
  - destruct (prune_heads_full self pruned (h :: heads) ltac:(discriminate) H)
      as (Hc & Hn & Hp).
    split; [exact Hn|]. split; [exact Hp|]. intros _. exact Hc.
Qed.

(** *** A sequence of calls *)

Lemma requested_cons (heads : list nat) (calls : list (list nat)) :
  requested (heads :: calls) = list_to_set heads ∪ requested calls.
Proof. reflexivity. Qed.

Lemma prune_calls_spec (calls : list (list nat)) (self pruned : T5Attention) :
  prune_calls self calls = Ok pruned ->
  n_heads pruned + size (requested calls ∖ pruned_heads self) = n_heads self
  /\ pruned_heads pruned = pruned_heads self ∪ requested calls
  /\ (consistent self -> consistent pruned)
  /\ (forall heads, heads ∈ calls -> heads <> [] -> consistent pruned).
Proof.
  revert self. induction calls as [|heads calls IH]; intros self H; cbn in H.
  - injection H as <-. unfold requested. cbn.
    rewrite difference_disjoint_L, size_empty, union_empty_r_L by set_solver.
    split; [lia|]. split; [reflexivity|]. split; [tauto|].
    intros heads Hin. now apply elem_of_nil in Hin.
  - destruct (prune_heads self heads) as [mid|] eqn:Hstep; cbn in H; [|discriminate].
    apply prune_heads_step in Hstep as (Hn1 & Hp1 & Hc1).
    destruct (IH mid H) as (Hn2 & Hp2 & Hc2 & Hall).
    rewrite requested_cons. rewrite Hp1 in Hn2, Hp2.
    split; [|split; [|split]].
    + assert (E : (list_to_set heads ∪ requested calls) ∖ pruned_heads self
                  = (list_to_set heads ∖ pruned_heads self)
                    ∪ (requested calls ∖ (pruned_heads self ∪ list_to_set heads))).
      { apply set_eq. intros x.
        rewrite !elem_of_union, !elem_of_difference, !elem_of_union.
        destruct (decide (x ∈ (list_to_set heads : gset nat))); tauto. }
      rewrite E, size_union; [lia|].
      intros x Hx1 Hx2. apply elem_of_difference in Hx1 as [Hx1 _].
      apply elem_of_difference in Hx2 as [_ Hx2]. apply Hx2, elem_of_union. now right.
    + rewrite Hp2. now rewrite (assoc_L (∪)).
    + intros Hc. apply Hc2, Hc1. now left.
    + intros heads' Hin Hne. apply elem_of_cons in Hin as [->|Hin].
      * apply Hc2, Hc1. now right.
      * now apply (Hall heads').
Qed.

(** C9. After any sequence of pruning calls that completes, asking again for
    the heads of any of those calls leaves the module (projections, head
    count, inner dimension, recorded set) exactly as it is; in particular two
    identical calls in a row end in the state of one.  The head count has
    gone down by the number of distinct heads the calls named that had not
    been pruned before, and the recorded set has grown by the heads named. *)
Theorem prune_heads_idempotent (self pruned : T5Attention) (calls : list (list nat)) :
  prune_calls self calls = Ok pruned ->
  (forall heads, heads ∈ calls -> prune_heads pruned heads = Ok pruned)
  /\ (forall heads, calls = [heads] ->
      prune_calls self [heads; heads] = prune_calls self [heads])
  /\ n_heads pruned + size (requested calls ∖ pruned_heads self) = n_heads self
  /\ pruned_heads pruned = pruned_heads self ∪ requested calls
  /\ (pruned_heads self = ∅ ->
      n_heads pruned + size (requested calls) = n_heads self).
Proof.
  intros H. destruct (prune_calls_spec calls self pruned H) as (Hn & Hp & _ & Hc).
  assert (Hagain : forall heads, heads ∈ calls -> prune_heads pruned heads = Ok pruned).
  { intros heads Hin. destruct heads as [|h heads]; [reflexivity|].
    apply prune_heads_noop; [apply (Hc (h :: heads) Hin); discriminate|].
    rewrite Hp. intros x Hx. apply elem_of_union. right.
    unfold requested. apply elem_of_union_list.
    exists (list_to_set (h :: heads)). split; [|exact Hx].
    apply list_elem_of_fmap. now exists (h :: heads). }
  split; [exact Hagain|]. split; [|split; [exact Hn|split; [exact Hp|]]].
  - intros heads ->. cbn in H |- *.
    destruct (prune_heads self heads) as [mid|] eqn:Hstep; cbn in H |- *; [|reflexivity].
    injection H as ->. rewrite (Hagain heads); [reflexivity|left].
  - intros Hfresh. rewrite Hfresh, difference_empty_L in Hn. exact Hn.
Qed.

Lemma prune_heads_idempotent_witness :
  let self := mkT5Attention true false 32 1 1 2 0 2
                [[1%R]; [2%R]] [[3%R]; [4%R]] [[5%R]; [6%R]] [[7%R; 8%R]] None ∅ in
  exists pruned, prune_calls self [[0]; [0]] = Ok pruned
    /\ prune_heads pruned [0] = Ok pruned
    /\ n_heads pruned + size (requested [[0]; [0]]) = n_heads self.
Proof.
  intros self.
  assert (Hrun : prune_calls self [[0]; [0]]
                 = Ok (mkT5Attention true false 32 1 1 1 0 1
                         [[2%R]] [[4%R]] [[6%R]] [[8%R]] None (∅ ∪ {[0]} ∪ ∅)))
    by (vm_compute; reflexivity).
  eexists. split; [exact Hrun|].
  destruct (prune_heads_idempotent self _ [[0]; [0]] Hrun) as (Hagain & _ & _ & _ & Hcount).
  split; [apply Hagain; left | apply Hcount; reflexivity].
Defined.

End PruneFacts.

(** ** Facts about the forward passes *)

Module ForwardFacts.
Import Py Modules Forward.
Local Open Scope py_scope.

Section WithTorch.
Context {torch : Torch}.

Lemma bind_ok {A B : Type} (m : Result A) (f : A -> Result B) (b : B) :
  bind m f = Ok b -> exists a, m = Ok a /\ f a = Ok b.
Proof. destruct m as [a|e]; cbn; [eauto|discriminate]. Qed.

Lemma assert_ok (cond : bool) (msg : string) (u : unit) :
  assert cond msg = Ok u -> cond = true.
Proof. destruct cond; [reflexivity|discriminate]. Qed.

Lemma item_nth {A : Type} (l : list A) (i : nat) (x d : A) :
  item l i = Ok x -> nth i l d = x.
Proof.
  unfold item. destruct (l !! i) as [y|] eqn:E; cbn; [|discriminate].
  intros [= <-]. revert i E. induction l as [|z l IH]; intros [|i] E;
    try discriminate; cbn in *; [congruence|now apply IH].
Qed.

(** *** The cache in [T5Attention.forward] *)

Lemma attention_cache_needs_decoder (self : T5Attention) input mask kv position_bias
    past head_mask query_length use_cache output_attentions :
  is_decoder self = false ->
  T5Attention_forward self input mask kv position_bias (Some past) head_mask
    query_length use_cache output_attentions
  = Err (AssertionError "Encoder cannot cache past key value states").
Proof. intros Hd. unfold T5Attention_forward. rewrite Hd. reflexivity. Qed.

Lemma attention_cache_arity (self : T5Attention) input mask kv position_bias
    past head_mask query_length use_cache output_attentions outputs :
  T5Attention_forward self input mask kv position_bias (Some past) head_mask
    query_length use_cache output_attentions = Ok outputs ->
  is_decoder self = true /\ exists k_ v_, past = [k_; v_].
Proof.
  unfold T5Attention_forward. intros Hrun.
  apply bind_ok in Hrun as (real_qlen & Hq & _).
  apply bind_ok in Hq as (u & Hdec & Hq). apply assert_ok in Hdec.
  apply bind_ok in Hq as (u' & Hlen & _). apply assert_ok in Hlen.
  split; [exact Hdec|].
  destruct past as [|k_ [|v_ [|? ?]]]; try discriminate. eauto.
Qed.

Lemma self_attention_present (self : T5Attention) input mask position_bias
    k_ v_ head_mask query_length use_cache output_attentions outputs :
  T5Attention_forward self input mask None position_bias (Some [k_; v_]) head_mask
    query_length use_cache output_attentions = Ok outputs ->
  outputs !! 1
  = Some (if use_cache
          then VStates [k_ ++ (linear_in (k self) <$> input);
                        v_ ++ (linear_in (v self) <$> input)]
          else VNone).
Proof.
  intros Hrun.
  destruct (attention_cache_arity _ _ _ _ _ _ _ _ _ _ _ Hrun) as [Hdec _].
  unfold T5Attention_forward in Hrun. rewrite Hdec in Hrun. cbn in Hrun.
  apply bind_ok in Hrun as (real_qlen & _ & Hrun).
  apply bind_ok in Hrun as (bias & _ & Hrun).
  injection Hrun as <-. reflexivity.
Qed.

Lemma cross_attention_present (self : T5Attention) input mask enc position_bias
    k_past v_past head_mask query_length use_cache output_attentions outputs :
  T5Attention_forward self input mask (Some enc) position_bias (Some [k_past; v_past])
    head_mask query_length use_cache output_attentions = Ok outputs ->
  outputs !! 1 = Some (if use_cache then VStates [k_past; v_past] else VNone).
Proof.
  intros Hrun.
  destruct (attention_cache_arity _ _ _ _ _ _ _ _ _ _ _ Hrun) as [Hdec _].
  unfold T5Attention_forward in Hrun. rewrite Hdec in Hrun. cbn in Hrun.
  apply bind_ok in Hrun as (real_qlen & _ & Hrun).
  apply bind_ok in Hrun as (bias & _ & Hrun).
  injection Hrun as <-. reflexivity.
Qed.

Lemma cross_attention_ignores_source (self : T5Attention) input mask enc enc'
    k' v' position_bias past head_mask query_length use_cache output_attentions :
  length enc' = length enc ->
  T5Attention_forward (with_kv_weights self k' v') input mask (Some enc')
    position_bias (Some past) head_mask query_length use_cache output_attentions
  = T5Attention_forward self input mask (Some enc) position_bias (Some past)
      head_mask query_length use_cache output_attentions.
Proof.
  intros Hlen. unfold T5Attention_forward. rewrite Hlen. reflexivity.
Qed.

(** C5. A cache handed to an attention module that is not a decoder is an
    error.  Where the call returns: in self-attention the keys and values
    kept for the next step are the cached ones followed by the projections
    of the new input, so the old cache is a prefix of the new one; in
    cross-attention they are the cached pair itself, and neither the content
    of the source sequence nor the key and value projection weights have any
    influence on the outcome. *)
Theorem attention_cache_use (self : T5Attention) (input : list Hid)
    (mask : option Mask) (position_bias : option Tensor4)
    (past : list (list Proj)) (head_mask : option HeadMask)
    (query_length : option nat) (use_cache output_attentions : bool) :
  (forall kv, is_decoder self = false ->
     T5Attention_forward self input mask kv position_bias (Some past) head_mask
       query_length use_cache output_attentions
     = Err (AssertionError "Encoder cannot cache past key value states"))
  /\ (forall outputs,
        T5Attention_forward self input mask None position_bias (Some past) head_mask
          query_length use_cache output_attentions = Ok outputs ->
        is_decoder self = true
        /\ exists k_ v_, past = [k_; v_]
           /\ outputs !! 1
              = Some (if use_cache
                      then VStates [k_ ++ (linear_in (k self) <$> input);
                                    v_ ++ (linear_in (v self) <$> input)]
                      else VNone))
  /\ (forall enc outputs,
        T5Attention_forward self input mask (Some enc) position_bias (Some past)
          head_mask query_length use_cache output_attentions = Ok outputs ->
        is_decoder self = true
        /\ exists k_past v_past, past = [k_past; v_past]
           /\ outputs !! 1
              = Some (if use_cache then VStates [k_past; v_past] else VNone))
  /\ (forall enc enc' k' v', length enc' = length enc ->
        T5Attention_forward (with_kv_weights self k' v') input mask (Some enc')
          position_bias (Some past) head_mask query_length use_cache
          output_attentions
        = T5Attention_forward self input mask (Some enc) position_bias (Some past)
            head_mask query_length use_cache output_attentions).
Proof.
  split; [|split; [|split]].
  - intros kv Hd. now apply attention_cache_needs_decoder.
  - intros outputs Hrun.
    destruct (attention_cache_arity _ _ _ _ _ _ _ _ _ _ _ Hrun)
      as (Hdec & k_ & v_ & ->).
    split; [exact Hdec|]. exists k_, v_. split; [reflexivity|].
    exact (self_attention_present _ _ _ _ _ _ _ _ _ _ _ Hrun).
  - intros enc outputs Hrun.
    destruct (attention_cache_arity _ _ _ _ _ _ _ _ _ _ _ Hrun)
      as (Hdec & k_ & v_ & ->).
    split; [exact Hdec|]. exists k_, v_. split; [reflexivity|].
    exact (cross_attention_present _ _ _ _ _ _ _ _ _ _ _ _ Hrun).
  - intros enc enc' k' v' Hlen. now apply cross_attention_ignores_source.
Qed.

(** *** The cache in [T5Block.forward] *)

Lemma block_cache_rejected (self : T5Block) hidden_states attention_mask position_bias
    encoder_hidden_states encoder_attention_mask encoder_decoder_position_bias
    head_mask past use_cache output_attentions :
  block_is_decoder self = false
  \/ length past <> expected_past encoder_hidden_states ->
  T5Block_forward self hidden_states attention_mask position_bias
    encoder_hidden_states encoder_attention_mask encoder_decoder_position_bias
    head_mask (Some past) use_cache output_attentions
  = Err (AssertionError
           (if block_is_decoder self
            then "There should be {} past states. 2 (past / key) for self attention.{} Got {} past key / value states"
            else "Only decoder can use `past_key_value_states`")).
Proof.
  intros Hbad. unfold T5Block_forward.
  destruct (block_is_decoder self); cbn; [|reflexivity].
  destruct Hbad as [Hd|Hlen]; [discriminate|].
  destruct (Nat.eqb_spec (length past) (expected_past encoder_hidden_states));
    [contradiction|reflexivity].
Qed.

Lemma block_cache_accepted (self : T5Block) hidden_states attention_mask position_bias
    encoder_hidden_states encoder_attention_mask encoder_decoder_position_bias
    head_mask past use_cache output_attentions outputs :
  T5Block_forward self hidden_states attention_mask position_bias
    encoder_hidden_states encoder_attention_mask encoder_decoder_position_bias
    head_mask (Some past) use_cache output_attentions = Ok outputs ->
  block_is_decoder self = true /\ length past = expected_past encoder_hidden_states.
Proof.
  intros Hrun.
  destruct (block_is_decoder self) eqn:Hd.
  - split; [reflexivity|].
    destruct (Nat.eq_dec (length past) (expected_past encoder_hidden_states))
      as [E|E]; [exact E|].
    rewrite block_cache_rejected in Hrun by (now right). discriminate.
  - rewrite block_cache_rejected in Hrun by (now left). discriminate.
Qed.

(** *** [compute_bias] on a well-formed table *)

Lemma mapR_fmap_ok {A B C : Type} (f : B -> Result C) (g : A -> B) (h : A -> C)
    (l : list A) :
  (forall x, x ∈ l -> f (g x) = Ok (h x)) ->
  mapR f (g <$> l) = Ok (h <$> l).
Proof.
  induction l as [|x l IH]; intros Hall; [reflexivity|].
  cbn. rewrite (Hall x) by left. cbn. rewrite IH; [reflexivity|].
  intros y Hy. apply Hall. now right.
Qed.

Lemma item_in_range {A : Type} (l : list A) (i : nat) (d : A) :
  i < length l -> item l i = Ok (nth i l d).
Proof.
  intros Hi. unfold item.
  destruct (lookup_lt_is_Some_2 l i Hi) as [x Hx]. rewrite Hx. cbn.
  f_equal. symmetry. apply (item_nth l i x d). unfold item. now rewrite Hx.
Qed.

Lemma embedding_lookup_ok (emb : Embedding) (index : Z) :
  length (weight emb) = num_embeddings emb ->
  (0 <= index < Z.of_nat (num_embeddings emb))%Z ->
  embedding_lookup emb index = Ok (nth (Z.to_nat index) (weight emb) []).
Proof.
  intros Hlen Hrange. unfold embedding_lookup.
  destruct (Z.leb_spec 0 index); [|lia].
  destruct (Z.ltb_spec index (Z.of_nat (num_embeddings emb))); [|lia].
  cbn [andb]. apply (item_in_range (weight emb)). lia.
Qed.

Lemma compute_bias_ok (self : T5Attention) (emb : Embedding) (qlen klen : nat) :
  bias_table_ok self emb ->
  compute_bias self qlen klen = Ok (bias_tensor self emb qlen klen).
Proof.
  intros (Htable & Hnum & Hlen & Hrows & Hme & Hmd).
  unfold compute_bias, relative_positions.
  rewrite (BucketFacts.math_log_ratio_ok _ _ Hme) by lia.
  rewrite Htable. cbn [lift bind].
  set (bucket := fun i j : nat =>
         Bucket.bucket_value (Z.of_nat j - Z.of_nat i)
           (negb (is_decoder self)) (relative_attention_num_buckets self) 128).
  assert (Hbucket : forall i j,
             (0 <= bucket i j < Z.of_nat (num_embeddings emb))%Z).
  { intros i j. rewrite Hnum. now apply BucketFacts.bucket_in_range. }
  set (row := fun i j : nat => nth (Z.to_nat (bucket i j)) (weight emb) []).
  assert (Hrow : forall i j, length (row i j) = embedding_dim emb).
  { intros i j. rewrite Forall_forall in Hrows. apply Hrows.
    apply list_elem_of_In, nth_In. specialize (Hbucket i j). lia. }
  rewrite <- list_fmap_compose.
  rewrite (mapR_fmap_ok _ _ (fun i => (fun j => row i j) <$> seq 0 klen)).
  2:{ intros i _. cbn [compose]. rewrite <- list_fmap_compose.
      apply mapR_fmap_ok. intros j _. cbn [compose].
      apply (embedding_lookup_ok emb (bucket i j) Hlen (Hbucket i j)). }
  cbn [bind]. unfold bias_tensor.
  rewrite <- (list_fmap_id (seq 0 (embedding_dim emb))) at 1.
  apply mapR_fmap_ok. intros head Hhead. apply list_elem_of_In, in_seq in Hhead.
  apply mapR_fmap_ok. intros i _. apply mapR_fmap_ok. intros j _.
  apply (item_in_range (row i j) head 0%R). rewrite Hrow. lia.
Qed.

Lemma bias_tensor_shape (self : T5Attention) (emb : Embedding) (qlen klen : nat) :
  has_shape (embedding_dim emb) qlen klen (bias_tensor self emb qlen klen).
Proof.
  unfold has_shape, bias_tensor. split; [now rewrite length_fmap, length_seq|].
  apply Forall_fmap, Forall_forall. intros head _. cbn.
  split; [now rewrite length_fmap, length_seq|].
  apply Forall_fmap, Forall_forall. intros i _. cbn.
  now rewrite length_fmap, length_seq.
Qed.

Lemma bias_tensor_entry (self : T5Attention) (emb : Embedding) (qlen klen : nat)
    (head i j : nat) :
  head < embedding_dim emb -> i < qlen -> j < klen ->
  exists matrix row,
    bias_tensor self emb qlen klen !! head = Some matrix
    /\ matrix !! i = Some row
    /\ row !! j = Some (bias_entry self emb head i j).
Proof.
  intros Hh Hi Hj. unfold bias_tensor.
  exists ((fun i => (fun j => bias_entry self emb head i j) <$> seq 0 klen)
            <$> seq 0 qlen),
         ((fun j => bias_entry self emb head i j) <$> seq 0 klen).
  repeat split; rewrite list_lookup_fmap, lookup_seq_lt by assumption; reflexivity.
Qed.

(** *** Mask addition and block assignment on tensors of the right shape *)

Lemma mapR_zip_snd {A : Type} (f : A -> A -> Result A) (a b : list A) :
  length a = length b ->
  (forall d s, d ∈ a -> s ∈ b -> f d s = Ok s) ->
  mapR (fun ds => f (fst ds) (snd ds)) (zip a b) = Ok b.
Proof.
  revert b. induction a as [|d a IH]; intros [|s b] Hlen Hall; try discriminate;
    [reflexivity|].
  cbn. rewrite (Hall d s) by left. cbn. rewrite IH; [reflexivity|now injection Hlen|].
  intros d' s' Hd Hs. apply Hall; now right.
Qed.

Lemma assign_prefix_all {A : Type} (n : nat) (f : A -> A -> Result A)
    (dst src : list A) :
  length dst = n -> length src = n ->
  (forall d s, d ∈ dst -> s ∈ src -> f d s = Ok s) ->
  assign_prefix n f dst src = Ok src.
Proof.
  intros Hd Hs Hall. unfold assign_prefix.
  rewrite Hd, Hs, Nat.min_id, Nat.eqb_refl.
  rewrite <- Hd at 1. rewrite firstn_all, mapR_zip_snd by (congruence || assumption).
  cbn. rewrite <- Hd, drop_all. now rewrite app_nil_r.
Qed.

(** Writing a tensor over a zero tensor of its own shape gives the tensor:
    no zero is left. *)
Lemma assign_block_all (heads n : nat) (t : Tensor4) :
  has_shape heads n n t ->
  assign_block n (new_zeros heads n n) t = Ok t.
Proof.
  intros [Hlen Hheads]. unfold assign_block, new_zeros.
  rewrite length_replicate, Hlen, Nat.eqb_refl.
  apply mapR_zip_snd; [now rewrite length_replicate|].
  intros zero head Hzero Hhead. apply elem_of_replicate in Hzero as [-> _].
  rewrite Forall_forall in Hheads. destruct (Hheads head Hhead) as [Hrows Hcols].
  apply assign_prefix_all; [now rewrite length_replicate|exact Hrows|].
  intros zrow row Hzrow Hrow. apply elem_of_replicate in Hzrow as [-> _].
  rewrite Forall_forall in Hcols.
  apply assign_prefix_all; [now rewrite length_replicate|now apply Hcols|reflexivity].
Qed.

Lemma add_rows_same_length (a b : list R) :
  length a = length b -> add_rows a b = Ok (zip_with Rplus a b).
Proof.
  intros Hlen. unfold add_rows, broadcast2.
  destruct a as [|x [|x' a]], b as [|y [|y' b]]; try discriminate; try reflexivity.
  rewrite Hlen, Nat.eqb_refl.
  remember (x :: x' :: a) as xs. remember (y :: y' :: b) as ys. clear - Hlen.
  revert ys Hlen. induction xs as [|u xs IH]; intros [|w ys] Hlen; try discriminate;
    [reflexivity|].
  cbn. rewrite IH by (now injection Hlen). reflexivity.
Qed.

(** Adding a one-row mask to a bias of matching width adds the row to
    every query row of every head. *)
Lemma add_mask_row (heads rows cols : nat) (t : Tensor4) (mask_row : list R) :
  has_shape heads rows cols t -> length mask_row = cols ->
  add_mask t [mask_row]
  = Ok ((fun head : list (list R) =>
           (fun row => zip_with Rplus row mask_row) <$> head) <$> t).
Proof.
  intros [_ Hheads] Hmask. unfold add_mask.
  rewrite <- (list_fmap_id t) at 1. apply mapR_fmap_ok.
  intros head Hhead. rewrite Forall_forall in Hheads.
  destruct (Hheads head Hhead) as [_ Hcols]. rewrite Forall_forall in Hcols.
  unfold add_matrix, broadcast2. cbn [id].
  assert (Hall : mapR (fun x => add_rows x mask_row) head
                 = Ok ((fun row => zip_with Rplus row mask_row) <$> head)).
  { rewrite <- (list_fmap_id head) at 1. apply mapR_fmap_ok.
    intros row Hrow. apply add_rows_same_length. rewrite (Hcols row Hrow). now symmetry. }
  destruct head as [|row [|row' head]]; [reflexivity| |exact Hall].
  cbn. rewrite add_rows_same_length; [reflexivity|].
  rewrite (Hcols row) by left. now symmetry.
Qed.

(** *** The position bias in [T5Attention.forward] *)

(** What a call that returns has returned, and which bias it used. *)
Lemma attention_outputs (self : T5Attention) input mask kv position_bias past
    head_mask query_length use_cache output_attentions outputs :
  let cached := match past with Some _ => true | None => false end in
  let real_qlen :=
    match past with
    | None => length input
    | Some past =>
        match query_length with
        | Some query_length => query_length
        | None => length input + length (nth 0 past [])
        end
    end in
  let klen := match kv with None => real_qlen | Some kv => length kv end in
  T5Attention_forward self input mask kv position_bias past head_mask query_length
    use_cache output_attentions = Ok outputs ->
  exists context present weights used,
    outputs = [VHidden context; present]
                ++ (if output_attentions then [VScores weights] else [])
                ++ (if has_relative_attention_bias self then [VScores used] else [])
    /\ match position_bias with
       | Some given => used = given
       | None =>
           has_relative_attention_bias self = true
           /\ fresh_position_bias self real_qlen klen cached mask = Ok used
       end.
Proof.
  intros cached real_qlen klen Hrun. unfold T5Attention_forward in Hrun.
  apply bind_ok in Hrun as (rq & Hrq & Hrun).
  assert (Erq : rq = real_qlen).
  { subst real_qlen. destruct past as [past|].
    - apply bind_ok in Hrq as (? & _ & Hrq). apply bind_ok in Hrq as (? & _ & Hrq).
      destruct query_length as [n|]; [now injection Hrq|].
      apply bind_ok in Hrq as (past_0 & Hitem & Hrq).
      rewrite (item_nth _ _ _ [] Hitem). now injection Hrq.
    - now injection Hrq. }
  subst rq.
  apply bind_ok in Hrun as (states & _ & Hrun).
  apply bind_ok in Hrun as (used & Hbias & Hrun).
  injection Hrun as <-. do 4 eexists. split; [reflexivity|].
  destruct position_bias as [given|].
  - now injection Hbias.
  - destruct (has_relative_attention_bias self); [|discriminate].
    split; [reflexivity|]. exact Hbias.
Qed.


(** With a bias passed in, the mask plays no part. *)
Lemma attention_given_bias_ignores_mask (self : T5Attention) input mask mask' kv
    bias past head_mask query_length use_cache output_attentions :
  T5Attention_forward self input mask kv (Some bias) past head_mask query_length
    use_cache output_attentions
  = T5Attention_forward self input mask' kv (Some bias) past head_mask query_length
      use_cache output_attentions.
Proof. reflexivity. Qed.






(** *** The position bias through the layers and the block *)

Lemma layer_self_attention_outputs (self : T5LayerSelfAttention) hidden_states
    attention_mask position_bias head_mask past use_cache output_attentions outputs :
  T5LayerSelfAttention_forward self hidden_states attention_mask position_bias
    head_mask past use_cache output_attentions = Ok outputs ->
  exists layer_output present weights used,
    outputs = [VHidden layer_output; present]
                ++ (if output_attentions then [VScores weights] else [])
                ++ (if has_relative_attention_bias (SelfAttention self)
                    then [VScores used] else [])
    /\ bias_used (SelfAttention self) position_bias
         (total_length hidden_states past) (total_length hidden_states past)
         (is_cached past) attention_mask used.
Proof.
  unfold T5LayerSelfAttention_forward. intros Hrun.
  apply bind_ok in Hrun as (attention_output & Hatt & Hrun).
  apply attention_outputs in Hatt as (ctx & present & weights & used & -> & Hused).
  rewrite length_fmap in Hused.
  cbn in Hrun. injection Hrun as <-.
  exists (residual hidden_states ctx), present, weights, used.
  split; [reflexivity|]. exact Hused.
Qed.

Lemma layer_cross_attention_outputs (self : T5LayerCrossAttention) hidden_states kv
    attention_mask position_bias head_mask past use_cache query_length
    output_attentions outputs :
  T5LayerCrossAttention_forward self hidden_states kv attention_mask position_bias
    head_mask past use_cache query_length output_attentions = Ok outputs ->
  exists layer_output present weights used,
    outputs = [VHidden layer_output; present]
                ++ (if output_attentions then [VScores weights] else [])
                ++ (if has_relative_attention_bias (EncDecAttention self)
                    then [VScores used] else [])
    /\ match position_bias with
       | Some given => used = given
       | None => has_relative_attention_bias (EncDecAttention self) = true
       end.
Proof.
  unfold T5LayerCrossAttention_forward. intros Hrun.
  apply bind_ok in Hrun as (attention_output & Hatt & Hrun).
  apply attention_outputs in Hatt as (ctx & present & weights & used & -> & Hused).
  cbn in Hrun. injection Hrun as <-.
  exists (residual hidden_states ctx), present, weights, used.
  split; [reflexivity|]. destruct position_bias; [exact Hused|apply Hused].
Qed.

Lemma nth_0_take_2 {A : Type} (l : list A) (d : A) : nth 0 (take 2 l) d = nth 0 l d.
Proof. now destruct l. Qed.

(** What a block that returns has returned: the hidden state, the cache
    entry, the outputs of self-attention and then those of cross-attention. *)
Lemma block_outputs (self : T5Block) hidden_states attention_mask position_bias
    encoder_hidden_states encoder_attention_mask encoder_decoder_position_bias
    head_mask past use_cache output_attentions outputs :
  T5Block_forward self hidden_states attention_mask position_bias
    encoder_hidden_states encoder_attention_mask encoder_decoder_position_bias
    head_mask past use_cache output_attentions = Ok outputs ->
  exists hidden present weights used tail,
    outputs = [VHidden hidden; present]
                ++ ((if output_attentions then [VScores weights] else [])
                    ++ (if has_relative_attention_bias (SelfAttention (layer_0 self))
                        then [VScores used] else []))
                ++ tail
    /\ bias_used (SelfAttention (layer_0 self)) position_bias
         (total_length hidden_states past) (total_length hidden_states past)
         (is_cached past) attention_mask used
    /\ match encoder_hidden_states with
       | Some _ =>
           if block_is_decoder self then
             exists cross cross_weights cross_used,
               layer_1 self = Some cross
               /\ tail = (if output_attentions then [VScores cross_weights] else [])
                         ++ (if has_relative_attention_bias (EncDecAttention cross)
                             then [VScores cross_used] else [])
               /\ match encoder_decoder_position_bias with
                  | Some given => cross_used = given
                  | None => has_relative_attention_bias (EncDecAttention cross) = true
                  end
           else tail = []
       | None => tail = []
       end.
Proof.
  unfold T5Block_forward. intros Hrun.
  apply bind_ok in Hrun as (pasts & Hpasts & Hrun).
  apply bind_ok in Hrun as (self_out & Hself & Hrun).
  apply layer_self_attention_outputs in Hself
    as (lo & present & weights & used & -> & Hused).
  assert (Hused' : bias_used (SelfAttention (layer_0 self)) position_bias
                     (total_length hidden_states past)
                     (total_length hidden_states past) (is_cached past)
                     attention_mask used).
  { destruct past as [past|].
    - apply bind_ok in Hpasts as (? & _ & Hpasts).
      apply bind_ok in Hpasts as (? & _ & Hpasts). injection Hpasts as <-.
      cbn [fst] in Hused. unfold total_length in *.
      rewrite nth_0_take_2 in Hused. exact Hused.
    - injection Hpasts as <-. exact Hused. }
  clear Hused. cbn [item lookup list_lookup lift bind as_hidden app drop] in Hrun.
  apply bind_ok in Hrun as (after & Hafter & Hrun).
  injection Hrun as <-.
  destruct encoder_hidden_states as [enc|].
  - destruct (block_is_decoder self).
    + apply bind_ok in Hafter as (ql & _ & Hafter).
      apply bind_ok in Hafter as (cross & Hcross & Hafter).
      apply bind_ok in Hafter as (cross_out & Hcout & Hafter).
      apply layer_cross_attention_outputs in Hcout
        as (clo & cpresent & cw & cused & -> & Hcused).
      cbn [item lookup list_lookup lift bind as_hidden app drop] in Hafter.
      apply bind_ok in Hafter as (present' & _ & Hafter).
      injection Hafter as <-. cbn [fst snd].
      exists (T5LayerFF_forward (layer_last self) clo), present', weights, used.
      eexists. split; [reflexivity|]. split; [exact Hused'|].
      exists cross, cw, cused. split; [|split; [reflexivity|exact Hcused]].
      destruct (layer_1 self); [now injection Hcross as ->|discriminate].
    + injection Hafter as <-. cbn [fst snd].
      do 4 eexists. exists []. rewrite app_nil_r.
      split; [reflexivity|]. split; [exact Hused'|reflexivity].
  - injection Hafter as <-. cbn [fst snd].
    do 4 eexists. exists []. rewrite app_nil_r.
    split; [reflexivity|]. split; [exact Hused'|reflexivity].
Qed.

(** *** The position bias through the stack *)






(** *** The position bias of the joint encoder *)

Lemma has_shape_add_row (heads rows cols : nat) (t : Tensor4) (mask_row : list R) :
  has_shape heads rows cols t -> length mask_row = cols ->
  has_shape heads rows cols
    ((fun head : list (list R) =>
        (fun row => zip_with Rplus row mask_row) <$> head) <$> t).
Proof.
  intros [Hlen Hheads] Hmask. split; [now rewrite length_fmap|].
  apply Forall_fmap. eapply Forall_impl; [exact Hheads|].
  intros head [Hrows Hcols]. cbn. split; [now rewrite length_fmap|].
  apply Forall_fmap. eapply Forall_impl; [exact Hcols|].
  intros row Hrow. cbn. cbn beta in Hrow. rewrite length_zip_with. lia.
Qed.

Lemma has_shape_rows_unique (heads rows rows' cols cols' : nat) (t : Tensor4) :
  0 < heads -> has_shape heads rows cols t -> has_shape heads rows' cols' t ->
  rows = rows'.
Proof.
  intros Hpos [Hlen Hheads] [_ Hheads'].
  destruct t as [|head t]; [cbn in Hlen; lia|].
  apply Forall_cons in Hheads as [[Hr _] _].
  apply Forall_cons in Hheads' as [[Hr' _] _]. congruence.
Qed.

Lemma joint_encoder_padded_bias_ok (self : T5Stack) (first : T5Block)
    (others : list T5Block) (emb : Embedding) (L : nat) :
  block self = first :: others -> wrapped first = true ->
  has_relative_attention_bias (SelfAttention (layer_0 first)) = true ->
  bias_table_ok (SelfAttention (layer_0 first)) emb ->
  JointEncoder_padded_bias self L
  = Ok (bias_tensor (SelfAttention (layer_0 first)) emb L L).
Proof.
  intros Hblock Hwrapped Hhas Htable. unfold JointEncoder_padded_bias, module.
  rewrite Hblock. cbn [item lookup list_lookup lift bind]. rewrite Hwrapped.
  cbn [bind]. rewrite Hhas.
  cbn [assert bind]. rewrite (compute_bias_ok _ emb L L Htable). cbn [bind].
  pose proof (bias_tensor_shape (SelfAttention (layer_0 first)) emb L L) as Hshape.
  rewrite (proj1 Hshape). now apply assign_block_all.
Qed.

(** The visual inputs take no part in what the encoder prepares. *)
Lemma joint_encoder_ignores_vis_inputs (self : T5Stack) input_ids attention_mask
    vis_inputs vis_attention_mask inputs_embeds head_mask :
  JointEncoder_prepare self input_ids attention_mask vis_inputs vis_attention_mask
    inputs_embeds head_mask
  = JointEncoder_prepare self input_ids attention_mask None None inputs_embeds
      head_mask.
Proof. reflexivity. Qed.

(** A bare first block: the attribute access ends the call, whatever the
    block holds. *)
Lemma joint_encoder_padded_bias_bare (self : T5Stack) (first : T5Block)
    (others : list T5Block) (L : nat) :
  block self = first :: others -> wrapped first = false ->
  JointEncoder_padded_bias self L = Err AttributeError.
Proof.
  intros Hblock Hbare. unfold JointEncoder_padded_bias, module.
  rewrite Hblock. cbn [item lookup list_lookup lift bind]. now rewrite Hbare.
Qed.

Lemma joint_encoder_prepare_bare (self : T5Stack) (first : T5Block)
    (others : list T5Block) input_ids attention_mask vis_inputs vis_attention_mask
    (inputs_embeds : list Hid) head_mask :
  block self = first :: others -> wrapped first = false ->
  0 < num_layers (config self) ->
  JointEncoder_prepare self input_ids (Some attention_mask) vis_inputs
    vis_attention_mask (Some inputs_embeds) head_mask
  = Err AttributeError.
Proof.
  intros Hblock Hbare Hlayers. unfold JointEncoder_prepare.
  cbn [bind]. destruct (Nat.ltb_spec 0 (num_layers (config self))); [|lia].
  now rewrite (joint_encoder_padded_bias_bare self first others _ Hblock Hbare).
Qed.

Lemma joint_encoder_prepare_ok (self : T5Stack) (first : T5Block)
    (others : list T5Block) (emb : Embedding) input_ids attention_mask vis_inputs
    vis_attention_mask (inputs_embeds : list Hid) head_mask (mask_row : list R) :
  block self = first :: others -> wrapped first = true ->
  has_relative_attention_bias (SelfAttention (layer_0 first)) = true ->
  bias_table_ok (SelfAttention (layer_0 first)) emb ->
  0 < num_layers (config self) ->
  get_extended_attention_mask (stack_is_decoder self) attention_mask
    (length inputs_embeds) = [mask_row] ->
  length mask_row = length inputs_embeds ->
  JointEncoder_prepare self input_ids (Some attention_mask) vis_inputs
    vis_attention_mask (Some inputs_embeds) head_mask
  = Ok (dropout_hidden inputs_embeds, attention_mask,
        get_head_mask head_mask (num_layers (config self)),
        Some ((fun head : list (list R) =>
                 (fun row => zip_with Rplus row mask_row) <$> head)
                <$> bias_tensor (SelfAttention (layer_0 first)) emb
                      (length inputs_embeds) (length inputs_embeds))).
Proof.
  intros Hblock Hwrapped Hhas Htable Hlayers Hmask Hrow. unfold JointEncoder_prepare.
  cbn [bind]. destruct (Nat.ltb_spec 0 (num_layers (config self))); [|lia].
  rewrite (joint_encoder_padded_bias_ok self first others emb _ Hblock Hwrapped Hhas
             Htable).
  cbn [bind]. rewrite Hmask.
  rewrite (add_mask_row _ _ _ _ mask_row (bias_tensor_shape _ emb _ _) Hrow).
  reflexivity.
Qed.

(** C4 (amended). The encoder reaches its first self-attention module
    through the [module] attribute of the first block.  When the block has
    it, the position bias is made for the text length [L], the length of the
    sequence the layers work on: the zero tensor it is written into has that
    same size, so every entry is the learned scalar of the bucket of its
    offset and no zero is left; the mask row is then added to every query
    row.  When the block is bare the attribute access ends the call.  Visual
    inputs add no position to the sequence or to the bias in either case. *)
Theorem joint_encoder_text_bias (self : T5Stack) (first : T5Block)
    (others : list T5Block) (emb : Embedding) (L : nat) :
  block self = first :: others ->
  has_relative_attention_bias (SelfAttention (layer_0 first)) = true ->
  bias_table_ok (SelfAttention (layer_0 first)) emb ->
  JointEncoder_padded_bias self L
  = (if wrapped first
     then Ok (bias_tensor (SelfAttention (layer_0 first)) emb L L)
     else Err AttributeError)
  /\ has_shape (embedding_dim emb) L L
       (bias_tensor (SelfAttention (layer_0 first)) emb L L)
  /\ (forall head i j, head < embedding_dim emb -> i < L -> j < L ->
      exists matrix row,
        bias_tensor (SelfAttention (layer_0 first)) emb L L !! head = Some matrix
        /\ matrix !! i = Some row
        /\ row !! j = Some (bias_entry (SelfAttention (layer_0 first)) emb head i j))
  /\ (forall input_ids attention_mask vis_inputs vis_attention_mask inputs_embeds
        head_mask,
      JointEncoder_prepare self input_ids attention_mask vis_inputs
        vis_attention_mask inputs_embeds head_mask
      = JointEncoder_prepare self input_ids attention_mask None None inputs_embeds
          head_mask)
  /\ (forall input_ids attention_mask vis_inputs vis_attention_mask
        (inputs_embeds : list Hid) head_mask mask_row,
      L = length inputs_embeds ->
      0 < num_layers (config self) ->
      get_extended_attention_mask (stack_is_decoder self) attention_mask L
      = [mask_row] ->
      length mask_row = L ->
      JointEncoder_prepare self input_ids (Some attention_mask) vis_inputs
        vis_attention_mask (Some inputs_embeds) head_mask
      = (if wrapped first
         then Ok (dropout_hidden inputs_embeds, attention_mask,
                  get_head_mask head_mask (num_layers (config self)),
                  Some ((fun head : list (list R) =>
                           (fun row => zip_with Rplus row mask_row) <$> head)
                          <$> bias_tensor (SelfAttention (layer_0 first)) emb L L))
         else Err AttributeError)).
Proof.
  intros Hblock Hhas Htable. split; [|split; [|split; [|split]]].
  - destruct (wrapped first) eqn:Hwrapped.
    + now apply (joint_encoder_padded_bias_ok self first others).
    + now apply (joint_encoder_padded_bias_bare self first others).
  - apply bias_tensor_shape.
  - intros head i j. apply bias_tensor_entry.
  - intros. apply joint_encoder_ignores_vis_inputs.
  - intros input_ids attention_mask vis_inputs vis_attention_mask inputs_embeds
      head_mask mask_row -> Hlayers Hmask Hrow.
    destruct (wrapped first) eqn:Hwrapped.
    + now apply (joint_encoder_prepare_ok self first others emb).
    + now apply (joint_encoder_prepare_bare self first others).
Qed.


(** C6. A block given a cache checks it first: the block must belong to a
    decoder and the cache must have 2 entries when no encoder states are
    given and 4 when they are.  Anything else ends the call with the
    assertion's error, whatever the sub-layers, the inputs and the biases
    are; a call that returns had a cache of the right length. *)
Theorem block_cache_arity (self : T5Block) (hidden_states : list Hid)
    (attention_mask : option Mask) (position_bias : option Tensor4)
    (encoder_hidden_states : option (list Hid)) (encoder_attention_mask : option Mask)
    (encoder_decoder_position_bias : option Tensor4) (head_mask : option HeadMask)
    (past : list (list Proj)) (use_cache output_attentions : bool) :
  (block_is_decoder self = false
   \/ length past <> (match encoder_hidden_states with None => 2 | Some _ => 4 end) ->
   T5Block_forward self hidden_states attention_mask position_bias
     encoder_hidden_states encoder_attention_mask encoder_decoder_position_bias
     head_mask (Some past) use_cache output_attentions
   = Err (AssertionError
            (if block_is_decoder self
             then "There should be {} past states. 2 (past / key) for self attention.{} Got {} past key / value states"
             else "Only decoder can use `past_key_value_states`")))
  /\ (forall outputs,
        T5Block_forward self hidden_states attention_mask position_bias
          encoder_hidden_states encoder_attention_mask encoder_decoder_position_bias
          head_mask (Some past) use_cache output_attentions = Ok outputs ->
        block_is_decoder self = true
        /\ ((encoder_hidden_states = None /\ length past = 2)
            \/ (encoder_hidden_states <> None /\ length past = 4))).
Proof.
  split.
  - intros Hbad. now apply block_cache_rejected.
  - intros outputs Hrun. apply block_cache_accepted in Hrun as [Hd Hlen].
    split; [exact Hd|]. destruct encoder_hidden_states; [right|left]; now split.
Qed.

End WithTorch.

(** *** Runs on the demonstration modules *)

Lemma demo_table_ok (is_decoder : bool) :
  bias_table_ok (demo_attention is_decoder true (Some demo_table)) demo_table.
Proof.
  unfold bias_table_ok. cbn.
  split; [reflexivity|]. split; [reflexivity|]. split; [reflexivity|].
  split; [repeat constructor|]. destruct is_decoder; vm_compute; split; congruence.
Qed.



(** A module that owns a table runs when it is given no bias, and returns
    the bias it made. *)
Example owning_attention_runs :
  exists outputs : list (@Value demo_torch),
    T5Attention_forward (torch := demo_torch)
      (demo_attention true true (Some demo_table)) [5] None None None None None None
      false false = Ok outputs
    /\ last outputs
       = Some (@VScores demo_torch
                 (bias_tensor (demo_attention true true (Some demo_table))
                    demo_table 1 1)).
Proof.
  eexists. unfold T5Attention_forward, fresh_position_bias.
  cbn [bind length is_decoder has_relative_attention_bias demo_attention negb].
  rewrite (compute_bias_ok _ demo_table 1 1 (demo_table_ok true)).
  cbn [bind lift]. split; reflexivity.
Qed.

Lemma joint_encoder_text_bias_witness :
  JointEncoder_padded_bias (torch := demo_torch) demo_wrapped_encoder 3
  = Ok (bias_tensor (demo_attention false true (Some demo_table)) demo_table 3 3)
  /\ JointEncoder_padded_bias (torch := demo_torch) demo_encoder 3
     = Err AttributeError.
Proof.
  split.
  - apply (joint_encoder_text_bias (torch := demo_torch) demo_wrapped_encoder
             (demo_block_in true false true (Some demo_table)) [] demo_table 3);
      [reflexivity | reflexivity | apply demo_table_ok].
  - apply (joint_encoder_text_bias (torch := demo_torch) demo_encoder
             (demo_block false true (Some demo_table)) [] demo_table 3);
      [reflexivity | reflexivity | apply demo_table_ok].
Defined.

(** C4, as stated, fails: given three text tokens and two visual regions,
    the encoder whose first block has the [module] attribute works on three
    positions and its position bias (mask included) is 3 x 3, not
    (2+3) x (2+3); the encoder as [__init__] builds it makes no bias at
    all. *)
Lemma joint_encoder_bias_is_text_sized :
  (exists (hidden_states : list (@Hid demo_torch)) position_bias,
     JointEncoder_prepare (torch := demo_torch) demo_wrapped_encoder None
       (Some [1; 1; 1]%R)
       (Some ([[0; 0]; [0; 0]]%R, [[0; 0; 1; 1]; [0; 0; 1; 1]]%R)) None
       (Some [10; 20; 30]) None
     = Ok (hidden_states, [1; 1; 1]%R, [None], Some position_bias)
     /\ length hidden_states = 3
     /\ has_shape 1 3 3 position_bias
     /\ ~ has_shape 1 (2 + 3) (2 + 3) position_bias)
  /\ JointEncoder_prepare (torch := demo_torch) demo_encoder None
       (Some [1; 1; 1]%R)
       (Some ([[0; 0]; [0; 0]]%R, [[0; 0; 1; 1]; [0; 0; 1; 1]]%R)) None
       (Some [10; 20; 30]) None
     = Err AttributeError.
Proof.
  split; [|reflexivity].
  do 2 eexists. split.
  - apply (joint_encoder_prepare_ok (torch := demo_torch) demo_wrapped_encoder
             (demo_block_in true false true (Some demo_table)) [] demo_table None
             [1; 1; 1]%R _ None [10; 20; 30] None
             ((fun m => (1 - m) * -10000)%R <$> [1; 1; 1]%R));
      [reflexivity | reflexivity | reflexivity | apply demo_table_ok | cbn; lia
      | reflexivity | reflexivity].
  - split; [reflexivity|].
    assert (Hshape : has_shape 1 3 3
              ((fun head : list (list R) =>
                  (fun row => zip_with Rplus row
                                ((fun m => (1 - m) * -10000)%R <$> [1; 1; 1]%R))
                    <$> head)
                 <$> bias_tensor (demo_attention false true (Some demo_table))
                       demo_table 3 3)).
    { apply has_shape_add_row; [|reflexivity].
      apply (bias_tensor_shape
               (demo_attention false true (Some demo_table)) demo_table 3 3). }
    split; [exact Hshape|]. intros Hbig.
    pose proof (has_shape_rows_unique 1 3 (2 + 3) 3 (2 + 3) _
                  ltac:(lia) Hshape Hbig). discriminate.
Qed.

Lemma attention_cache_use_witness :
  exists outputs : list (@Value demo_torch),
    T5Attention_forward (torch := demo_torch) (demo_attention true false None) [5]
      None None (Some []) (Some [[1; 2]; [3; 4]]) None None true false = Ok outputs
    /\ outputs !! 1 = Some (@VStates demo_torch [[1; 2; 5]; [3; 4; 5]]).
Proof.
  eexists. split; [reflexivity|].
  destruct (attention_cache_use (torch := demo_torch) (demo_attention true false None)
              [5] None (Some []) [[1; 2]; [3; 4]] None None true false)
    as (_ & Hself & _).
  destruct (Hself _ eq_refl) as (_ & k_ & v_ & [= <- <-] & Hpresent).
  exact Hpresent.
Defined.

(** The run of the witness above does return. *)
Example self_attention_step_runs :
  Py.is_ok (T5Attention_forward (torch := demo_torch) (demo_attention true false None)
              [5] None None (Some []) (Some [[1; 2]; [3; 4]]) None None true false)
  = true.
Proof. reflexivity. Qed.

Lemma block_cache_arity_witness :
  T5Block_forward (torch := demo_torch) (demo_block true false None) [5] None (Some [])
    None None None None (Some [[1]; [2]; [3]]) true false
  = Err (AssertionError
           "There should be {} past states. 2 (past / key) for self attention.{} Got {} past key / value states").
Proof.
  apply (block_cache_arity (torch := demo_torch) (demo_block true false None)).
  right. cbn. discriminate.
Defined.

(** A decoder block with a two-entry cache and no encoder states runs. *)
Example block_step_runs :
  Py.is_ok (T5Block_forward (torch := demo_torch) (demo_block true false None) [5] None
              (Some []) None None None None (Some [[1]; [2]]) true false)
  = true.
Proof. reflexivity. Qed.

End ForwardFacts.

(** ** Shifting labels to the right *)

Module ShiftRightFacts.
Import Py ShiftRight.
Local Open Scope Z_scope.

Lemma all_nonneg_spec (t : LongTensor) :
  all_nonneg t = true <-> forall row x, row ∈ rows t -> x ∈ row -> 0 <= x.
Proof.
  unfold all_nonneg. rewrite forallb_forall. split.
  - intros H row x Hrow Hx. apply list_elem_of_In in Hrow.
    specialize (H row Hrow). rewrite forallb_forall in H.
    apply list_elem_of_In in Hx. specialize (H x Hx). lia.
  - intros H row Hrow. rewrite forallb_forall. intros x Hx.
    apply list_elem_of_In in Hrow, Hx. specialize (H row x Hrow Hx). lia.
Qed.

(** The tensor before the final check, row by row. *)
Lemma shifted_rows (input_ids : LongTensor) (start pad : Z) :
  well_formed input_ids -> (0 < last_dim input_ids)%nat ->
  rows (masked_fill_eq
          (mkLongTensor (last_dim input_ids)
             ((fun row => <[0%nat := start]> row)
                <$> rows (assign_shifted (new_zeros input_ids) input_ids)))
          (-100) pad)
  = shifted_row start pad <$> rows input_ids.
Proof.
  intros Hwf Hpos. unfold masked_fill_eq, assign_shifted, new_zeros. cbn [rows last_dim].
  unfold well_formed in Hwf.
  induction (rows input_ids) as [|row rs IH]; [reflexivity|].
  apply Forall_cons in Hwf as [Hrow Hrs].
  cbn [fmap list_fmap zip_with]. f_equal; [|apply IH; exact Hrs].
  unfold shifted_row. f_equal.
  destruct (last_dim input_ids) as [|n]; [lia|]. reflexivity.
Qed.

(** The outcome once both token ids are configured and the last axis is not
    empty: the final check decides. *)
Lemma shift_right_configured (config : TokenConfig) (input_ids : LongTensor)
    (start pad : Z) :
  decoder_start_token_id config = Some start -> pad_token_id config = Some pad ->
  well_formed input_ids -> (0 < last_dim input_ids)%nat ->
  let shifted :=
    mkLongTensor (last_dim input_ids) (shifted_row start pad <$> rows input_ids) in
  _shift_right config input_ids
  = if all_nonneg shifted then Ok shifted
    else Err (AssertionError "Verify that `labels` has only positive values and -100").
Proof.
  intros Hs Hp Hwf Hpos shifted. unfold _shift_right. rewrite Hs, Hp.
  unfold assign_first. cbn [last_dim assign_shifted new_zeros].
  destruct (Nat.eqb_spec (last_dim input_ids) 0) as [E|_]; [lia|].
  cbn [bind].
  pose proof (shifted_rows input_ids start pad Hwf Hpos) as Hrows.
  set (t := masked_fill_eq _ _ _) in *.
  assert (Ht : t = shifted).
  { subst shifted. destruct t as [d r] eqn:E. cbn [rows] in Hrows. subst r.
    f_equal. subst t. unfold masked_fill_eq in E. now injection E. }
  rewrite Ht. destruct (all_nonneg shifted); reflexivity.
Qed.

Lemma shifted_row_length (start pad : Z) (row : list Z) (n : nat) :
  length row = n -> (0 < n)%nat -> length (shifted_row start pad row) = n.
Proof.
  intros Hlen Hn. unfold shifted_row. rewrite length_fmap. cbn [length].
  rewrite removelast_firstn_len, length_take. lia.
Qed.

(** X1. With both token ids configured and a non-empty last axis,
    [_shift_right] returns, for every row of labels, the start token followed
    by the labels without the last one, every -100 replaced by the pad token,
    provided these values are not negative.  The result has the shape of the
    input and holds no negative entry, in particular no -100. *)
Theorem shift_right_teacher_forcing (config : TokenConfig) (input_ids : LongTensor)
    (start pad : Z) :
  decoder_start_token_id config = Some start -> pad_token_id config = Some pad ->
  well_formed input_ids -> (0 < last_dim input_ids)%nat ->
  (forall row x, row ∈ rows input_ids -> x ∈ start :: removelast row ->
                 0 <= filled pad x) ->
  let shifted :=
    mkLongTensor (last_dim input_ids) (shifted_row start pad <$> rows input_ids) in
  _shift_right config input_ids = Ok shifted
  /\ well_formed shifted
  /\ (forall row x, row ∈ rows shifted -> x ∈ row -> 0 <= x /\ x <> -100).
Proof.
  intros Hs Hp Hwf Hpos Hnonneg shifted.
  assert (Hall : forall row x, row ∈ rows shifted -> x ∈ row -> 0 <= x).
  { intros row x Hrow Hx. subst shifted. cbn [rows] in Hrow.
    apply list_elem_of_fmap in Hrow as (row0 & -> & Hrow0).
    unfold shifted_row in Hx. apply list_elem_of_fmap in Hx as (x0 & -> & Hx0).
    now apply (Hnonneg row0). }
  split; [|split].
  - rewrite (shift_right_configured config input_ids start pad Hs Hp Hwf Hpos).
    fold shifted. now rewrite (proj2 (all_nonneg_spec shifted) Hall).
  - unfold well_formed, shifted. cbn [rows last_dim].
    rewrite Forall_fmap. eapply Forall_impl; [exact Hwf|].
    intros row Hrow. unfold compose.
    apply (shifted_row_length start pad row); assumption.
  - intros row x Hrow Hx. specialize (Hall row x Hrow Hx). lia.
Qed.

Lemma shift_right_teacher_forcing_witness :
  _shift_right (mkTokenConfig (Some 0) (Some 0)) (mkLongTensor 3 [[5; -100; 7]; [8; 9; -100]])
  = Ok (mkLongTensor 3 [[0; 5; 0]; [0; 8; 9]]).
Proof.
  refine (proj1 (shift_right_teacher_forcing (mkTokenConfig (Some 0) (Some 0))
                   (mkLongTensor 3 [[5; -100; 7]; [8; 9; -100]]) 0 0
                   eq_refl eq_refl _ _ _)).
  - repeat constructor.
  - cbn. lia.
  - intros row x Hrow Hx. cbn [rows] in Hrow.
    repeat (apply elem_of_cons in Hrow as [-> | Hrow]);
      [| | now apply elem_of_nil in Hrow];
      cbn in Hx;
      repeat (apply elem_of_cons in Hx as [-> | Hx]); try (now apply elem_of_nil in Hx);
      vm_compute; discriminate.
Defined.

(** X2. The checks of [_shift_right], in the order they fire: a missing
    [decoder_start_token_id] is an assertion error; labels whose last axis is
    empty raise an index error when the start token is written; a missing
    [pad_token_id] is the next assertion error; and a negative value other
    than -100 among the start token and the labels kept (or a negative pad
    token put in the place of a -100) fails the final assertion. *)
Theorem shift_right_checks (config : TokenConfig) (input_ids : LongTensor) :
  (decoder_start_token_id config = None ->
   _shift_right config input_ids
   = Err (AssertionError
            "self.model.config.decoder_start_token_id has to be defined. In T5 it is usually set to the pad_token_id. See T5 docs for more information"))
  /\ (decoder_start_token_id config <> None -> last_dim input_ids = 0%nat ->
      _shift_right config input_ids = Err IndexError)
  /\ (decoder_start_token_id config <> None -> (0 < last_dim input_ids)%nat ->
      pad_token_id config = None ->
      _shift_right config input_ids
      = Err (AssertionError "self.model.config.pad_token_id has to be defined."))
  /\ (forall start pad row x,
        decoder_start_token_id config = Some start -> pad_token_id config = Some pad ->
        well_formed input_ids -> (0 < last_dim input_ids)%nat ->
        row ∈ rows input_ids -> x ∈ start :: removelast row -> filled pad x < 0 ->
        _shift_right config input_ids
        = Err (AssertionError "Verify that `labels` has only positive values and -100")).
Proof.
  repeat split.
  - intros Hs. unfold _shift_right. now rewrite Hs.
  - intros Hs Hd. unfold _shift_right.
    destruct (decoder_start_token_id config) as [start|]; [|contradiction].
    unfold assign_first. cbn [last_dim assign_shifted new_zeros]. now rewrite Hd.
  - intros Hs Hd Hp. unfold _shift_right.
    destruct (decoder_start_token_id config) as [start|]; [|contradiction].
    unfold assign_first. cbn [last_dim assign_shifted new_zeros].
    destruct (Nat.eqb_spec (last_dim input_ids) 0) as [E|_]; [lia|].
    cbn [bind]. now rewrite Hp.
  - intros start pad row x Hs Hp Hwf Hpos Hrow Hx Hneg.
    rewrite (shift_right_configured config input_ids start pad Hs Hp Hwf Hpos).
    set (shifted := mkLongTensor _ _).
    destruct (all_nonneg shifted) eqn:E; [|reflexivity].
    apply all_nonneg_spec with (row := shifted_row start pad row) (x := filled pad x) in E.
    + lia.
    + subst shifted. cbn [rows]. apply list_elem_of_fmap. now exists row.
    + unfold shifted_row. apply list_elem_of_fmap. now exists x.
Qed.

Lemma shift_right_checks_witness :
  _shift_right (mkTokenConfig (Some 0) (Some 0)) (mkLongTensor 2 [[-5; 7]])
  = Err (AssertionError "Verify that `labels` has only positive values and -100").
Proof.
  refine (proj2 (proj2 (proj2 (shift_right_checks (mkTokenConfig (Some 0) (Some 0))
                                 (mkLongTensor 2 [[-5; 7]]))))
            0 0 [-5; 7] (-5) eq_refl eq_refl _ _ _ _ _).
  - repeat constructor.
  - cbn. lia.
  - cbn. apply elem_of_cons. now left.
  - cbn. apply elem_of_cons. right. apply elem_of_cons. now left.
  - vm_compute. reflexivity.
Defined.

(** X3. [_shift_right] never reads the last label of a row: two label
    tensors of the same shape that agree on all positions but the last give
    the same outcome. *)
Theorem shift_right_ignores_last_label (config : TokenConfig)
    (input_ids other : LongTensor) :
  last_dim input_ids = last_dim other ->
  (fun row => removelast row) <$> rows input_ids
  = (fun row => removelast row) <$> rows other ->
  _shift_right config input_ids = _shift_right config other.
Proof.
  intros Hd Hrows. unfold _shift_right.
  assert (E : assign_shifted (new_zeros input_ids) input_ids
              = assign_shifted (new_zeros other) other).
  { unfold assign_shifted, new_zeros. cbn [rows last_dim]. rewrite Hd. f_equal.
    assert (Hlen : length (rows input_ids) = length (rows other)).
    { apply (f_equal length) in Hrows. now rewrite !length_fmap in Hrows. }
    revert Hrows Hlen. generalize (rows other) as r2. generalize (last_dim other) as n.
    induction (rows input_ids) as [|a r1 IH]; intros n [|b r2] Hrows Hlen;
      try discriminate; [reflexivity|].
    cbn in Hrows. injection Hrows as Hab Hrest. cbn. rewrite Hab. f_equal.
    apply IH; [exact Hrest | cbn in Hlen; lia]. }
  now rewrite E.
Qed.

Lemma shift_right_ignores_last_label_witness :
  _shift_right (mkTokenConfig (Some 0) (Some 0)) (mkLongTensor 3 [[5; 6; 7]])
  = _shift_right (mkTokenConfig (Some 0) (Some 0)) (mkLongTensor 3 [[5; 6; 99]]).
Proof.
  exact (shift_right_ignores_last_label (mkTokenConfig (Some 0) (Some 0))
           (mkLongTensor 3 [[5; 6; 7]]) (mkLongTensor 3 [[5; 6; 99]]) eq_refl eq_refl).
Defined.

End ShiftRightFacts.

(** ** Reordering the cache *)

Module ReorderCacheFacts.
Import Py ReorderCache.

Lemma mapR_Forall2 {A B : Type} (f : A -> Result B) (l : list A) (r : list B) :
  mapR f l = Ok r <-> Forall2 (fun x y => f x = Ok y) l r.
Proof.
  revert r. induction l as [|x l IH]; intros r; cbn [mapR].
  - split; [intros [= <-]; constructor | intros H; inversion H; reflexivity].
  - split.
    + intros H. destruct (f x) as [y|e] eqn:Ey; [|discriminate]. cbn [bind] in H.
      destruct (mapR f l) as [ys|e] eqn:Eys; [|discriminate]. cbn [bind] in H.
      injection H as <-. constructor; [exact Ey | now apply IH].
    + intros H. inversion H as [|? y ? ys Hy Hys]; subst.
      rewrite Hy. cbn [bind]. rewrite (proj2 (IH ys) Hys). reflexivity.
Qed.

Section WithStates.
Context {Enc State : Type}.

Lemma index_select_spec (state : list State) (beam_idx : list Z) (state' : list State) :
  index_select state beam_idx = Ok state' <-> Forall2 (picks state) beam_idx state'.
Proof.
  unfold index_select. rewrite mapR_Forall2.
  split; intros H; (eapply Forall2_impl; [exact H|]); intros i x; cbn; unfold picks.
  - destruct (Z.leb_spec 0 i); [|discriminate].
    destruct (state !! Z.to_nat i); cbn; [intros [= ->]; auto | discriminate].
  - intros [Hi ->]. destruct (Z.leb_spec 0 i); [reflexivity | lia].
Qed.

Lemma reorder_layer_spec (beam_idx : list Z) (layer layer' : list (list State)) :
  reorder_layer beam_idx layer = Ok layer'
  <-> Forall2 (fun state state' => Forall2 (picks state) beam_idx state') layer layer'
      /\ exists state_0, layer !! 0 = Some state_0 /\ length state_0 = length beam_idx.
Proof.
  unfold reorder_layer. split.
  - intros H.
    destruct (mapR _ layer) as [reordered|e] eqn:Em; [|discriminate]. cbn [bind] in H.
    apply mapR_Forall2 in Em.
    assert (Hall : Forall2 (fun state state' => Forall2 (picks state) beam_idx state')
                     layer reordered).
    { eapply Forall2_impl; [exact Em|]. intros st st' Hst. now apply index_select_spec. }
    destruct (reordered !! 0) as [r0|] eqn:Er0; [|discriminate]. cbn [lift bind] in H.
    destruct (layer !! 0) as [l0|] eqn:El0; [|discriminate]. cbn [lift bind] in H.
    destruct (Nat.eqb_spec (length r0) (length l0)) as [Elen|]; [|discriminate].
    cbn [assert bind] in H.
    destruct (length reordered =? length layer); [|discriminate].
    cbn [assert bind] in H. injection H as <-.
    split; [exact Hall|]. exists l0. split; [reflexivity|].
    pose proof (Forall2_lookup_lr _ _ _ _ _ _ Hall El0 Er0) as Hp.
    apply Forall2_length in Hp. lia.
  - intros [Hall (l0 & El0 & Hlen)].
    assert (Em : mapR (fun layer_past_state => index_select layer_past_state beam_idx) layer
                 = Ok layer').
    { apply mapR_Forall2. eapply Forall2_impl; [exact Hall|].
      intros st st' Hst. now apply index_select_spec. }
    rewrite Em. cbn [bind].
    destruct (Forall2_lookup_l _ _ _ _ _ Hall El0) as (r0 & Er0 & Hp).
    rewrite Er0, El0. cbn [lift bind].
    apply Forall2_length in Hp.
    replace (length r0 =? length l0) with true by (symmetry; apply Nat.eqb_eq; lia).
    cbn [assert bind].
    apply Forall2_length in Hall.
    replace (length layer' =? length layer) with true by (symmetry; apply Nat.eqb_eq; lia).
    reflexivity.
Qed.


Lemma reorder_cache_spec (enc : Enc) (decoder_past reordered : list (list (list State)))
    (beam_idx : list Z) :
  _reorder_cache (enc, Some decoder_past) beam_idx = Ok (enc, Some reordered)
  <-> Forall2 (layer_reordered beam_idx) decoder_past reordered.
Proof.
  unfold _reorder_cache. cbn [fst snd]. split.
  - intros H. destruct (mapR _ decoder_past) as [r|e] eqn:Em; [|discriminate].
    cbn [bind] in H. injection H as <-. apply mapR_Forall2 in Em.
    eapply Forall2_impl; [exact Em|]. intros l l' Hl. now apply reorder_layer_spec.
  - intros H.
    assert (Em : mapR (reorder_layer beam_idx) decoder_past = Ok reordered).
    { apply mapR_Forall2. eapply Forall2_impl; [exact H|].
      intros l l' Hl. now apply reorder_layer_spec. }
    now rewrite Em.
Qed.

Lemma reorder_cache_some (enc : Enc) (decoder_past : list (list (list State)))
    (beam_idx : list Z) past' :
  _reorder_cache (enc, Some decoder_past) beam_idx = Ok past' ->
  exists reordered, past' = (enc, Some reordered).
Proof.
  unfold _reorder_cache. cbn [fst snd]. intros H.
  destruct (mapR _ decoder_past) as [r|e]; [|discriminate].
  cbn [bind] in H. injection H as <-. now exists r.
Qed.

(** X4. When [_reorder_cache] returns on a cache that holds decoder states,
    the encoder outputs are passed on unchanged, there are as many layers and
    as many states per layer as before, every state has one item per entry of
    [beam_idx], and item [j] of a reordered state is item [beam_idx[j]] of the
    old state, every index lying within the batch axis. *)
Theorem reorder_cache_entries (enc : Enc) (decoder_past : list (list (list State)))
    (beam_idx : list Z) (past' : Enc * option (list (list (list State)))) :
  _reorder_cache (enc, Some decoder_past) beam_idx = Ok past' ->
  exists reordered,
    past' = (enc, Some reordered)
    /\ length reordered = length decoder_past
    /\ forall l layer, decoder_past !! l = Some layer ->
         exists layer',
           reordered !! l = Some layer'
           /\ length layer' = length layer
           /\ (exists state_0, layer !! 0 = Some state_0
                               /\ length state_0 = length beam_idx)
           /\ forall s state, layer !! s = Some state ->
                exists state',
                  layer' !! s = Some state'
                  /\ length state' = length beam_idx
                  /\ forall j i, beam_idx !! j = Some i ->
                       (0 <= i)%Z /\ is_Some (state !! Z.to_nat i)
                       /\ state' !! j = state !! Z.to_nat i.
Proof.
  intros H. destruct (reorder_cache_some _ _ _ _ H) as [reordered ->].
  exists reordered. split; [reflexivity|].
  apply reorder_cache_spec in H.
  split; [symmetry; exact (Forall2_length _ _ _ H)|].
  intros l layer Hl.
  destruct (Forall2_lookup_l _ _ _ _ _ H Hl) as (layer' & Hl' & Hlayer & Hfirst).
  exists layer'. split; [exact Hl'|].
  split; [symmetry; exact (Forall2_length _ _ _ Hlayer)|].
  split; [exact Hfirst|].
  intros s state Hs.
  destruct (Forall2_lookup_l _ _ _ _ _ Hlayer Hs) as (state' & Hs' & Hstate).
  exists state'. split; [exact Hs'|].
  split; [symmetry; exact (Forall2_length _ _ _ Hstate)|].
  intros j i Hj.
  destruct (Forall2_lookup_l _ _ _ _ _ Hstate Hj) as (x & Hx & Hi & Hpick).
  split; [exact Hi|]. rewrite Hpick. split; [now exists x | exact Hx].
Qed.

Lemma picks_arange (state : list State) :
  Forall2 (picks state) (arange (length state)) state.
Proof.
  unfold arange. apply Forall2_fmap_l. apply Forall2_lookup. intros i.
  destruct (state !! i) as [x|] eqn:Ex.
  - rewrite (lookup_seq_lt 0 (length state) i) by (now apply lookup_lt_Some in Ex).
    constructor. unfold picks. cbn. split; [lia|]. now rewrite Nat2Z.id.
  - rewrite lookup_seq_ge by (now apply lookup_ge_None in Ex). constructor.
Qed.

(** X5. Reordering with [torch.arange(batch_size)] returns the cache
    unchanged, when every layer holds at least one state and every state has
    [batch_size] items. *)
Theorem reorder_cache_identity (enc : Enc) (decoder_past : list (list (list State)))
    (batch_size : nat) :
  Forall (fun layer => layer <> []
                       /\ Forall (fun state => length state = batch_size) layer)
         decoder_past ->
  _reorder_cache (enc, Some decoder_past) (arange batch_size)
  = Ok (enc, Some decoder_past).
Proof.
  intros Hwf. apply reorder_cache_spec. apply Forall2_same_length_lookup.
  split; [reflexivity|]. intros l layer layer' Hl Hl'. rewrite Hl in Hl'.
  injection Hl' as <-.
  rewrite Forall_lookup in Hwf. destruct (Hwf l layer Hl) as [Hne Hstates].
  split.
  - apply Forall2_same_length_lookup. split; [reflexivity|].
    intros s state state' Hs Hs'. rewrite Hs in Hs'. injection Hs' as <-.
    rewrite Forall_lookup in Hstates. rewrite <- (Hstates s state Hs).
    apply picks_arange.
  - destruct layer as [|state_0 rest]; [contradiction|].
    exists state_0. split; [reflexivity|].
    apply Forall_cons in Hstates as [-> _].
    unfold arange. now rewrite length_fmap, length_seq.
Qed.

Lemma picks_compose (state state1 state2 : list State) (first second : list Z) :
  Forall2 (picks state) first state1 -> Forall2 (picks state1) second state2 ->
  Forall2 (picks state) (compose_beams first second) state2.
Proof.
  intros H1 H2. unfold compose_beams. apply Forall2_fmap_l.
  eapply Forall2_impl; [exact H2|]. intros i2 x [Hi2 Hx]. cbn.
  destruct (Forall2_lookup_r _ _ _ _ _ H1 Hx) as (i1 & Hi1 & Hpick).
  now rewrite (nth_lookup_Some _ _ 0%Z _ Hi1).
Qed.

Lemma layer_reordered_compose (layer layer1 layer2 : list (list State))
    (first second : list Z) :
  layer_reordered first layer layer1 -> layer_reordered second layer1 layer2 ->
  layer_reordered (compose_beams first second) layer layer2.
Proof.
  intros [H1 (s0 & Hs0 & Hlen0)] [H2 (s1 & Hs1 & Hlen1)]. split.
  - apply Forall2_same_length_lookup. split.
    + apply Forall2_length in H1, H2. lia.
    + intros s state state2 Hs Hs2.
      destruct (Forall2_lookup_l _ _ _ _ _ H1 Hs) as (state1 & Hst1 & Hp1).
      destruct (Forall2_lookup_l _ _ _ _ _ H2 Hst1) as (state2' & Hst2 & Hp2).
      rewrite Hs2 in Hst2. injection Hst2 as <-.
      now apply (picks_compose state state1).
  - exists s0. split; [exact Hs0|].
    unfold compose_beams. rewrite length_fmap, <- Hlen1.
    destruct (Forall2_lookup_l _ _ _ _ _ H1 Hs0) as (s1' & Hs1' & Hp).
    rewrite Hs1 in Hs1'. injection Hs1' as <-.
    apply Forall2_length in Hp. lia.
Qed.

(** X6. Two successive reorderings amount to one: reordering by [first] and
    then by [second] gives what a single reordering by the indices
    [first[second[j]]] gives. *)
Theorem reorder_cache_compose (past past1 past2 : Enc * option (list (list (list State))))
    (first second : list Z) :
  _reorder_cache past first = Ok past1 ->
  _reorder_cache past1 second = Ok past2 ->
  _reorder_cache past (compose_beams first second) = Ok past2.
Proof.
  destruct past as [enc [decoder_past|]].
  - intros H1 H2.
    destruct (reorder_cache_some _ _ _ _ H1) as [r1 ->].
    destruct (reorder_cache_some _ _ _ _ H2) as [r2 ->].
    apply reorder_cache_spec in H1, H2. apply reorder_cache_spec.
    apply Forall2_same_length_lookup. split.
    + apply Forall2_length in H1, H2. lia.
    + intros l layer layer2 Hl Hl2.
      destruct (Forall2_lookup_l _ _ _ _ _ H1 Hl) as (layer1 & Hl1 & Hr1).
      destruct (Forall2_lookup_l _ _ _ _ _ H2 Hl1) as (layer2' & Hl2' & Hr2).
      rewrite Hl2 in Hl2'. injection Hl2' as <-.
      now apply (layer_reordered_compose layer layer1).
  - cbn. intros [= <-]. cbn. intros [= <-]. reflexivity.
Qed.

Lemma index_select_out_of_range (state : list State) (beam_idx : list Z) (i : Z) :
  i ∈ beam_idx -> (i < 0 \/ Z.of_nat (length state) <= i)%Z ->
  index_select state beam_idx = Err IndexError.
Proof.
  intros Hin Hbad. unfold index_select.
  induction beam_idx as [|j idx IH]; [now apply elem_of_nil in Hin|].
  cbn [mapR].
  destruct (Z.leb_spec 0 j) as [Hj|Hj]; [|reflexivity].
  destruct (state !! Z.to_nat j) as [x|] eqn:Ex; [|reflexivity].
  cbn [lift bind].
  apply elem_of_cons in Hin as [-> | Hin].
  - apply lookup_lt_Some in Ex. lia.
  - now rewrite (IH Hin).
Qed.

Lemma index_select_in_range (state : list State) (beam_idx : list Z) :
  Forall (fun i => (0 <= i < Z.of_nat (length state))%Z) beam_idx ->
  exists state', index_select state beam_idx = Ok state'
                 /\ length state' = length beam_idx.
Proof.
  unfold index_select. induction beam_idx as [|j idx IH]; intros Hr; [now exists []|].
  apply Forall_cons in Hr as [Hj Hr]. destruct (IH Hr) as (r & Er & Hlen).
  destruct (lookup_lt_is_Some_2 state (Z.to_nat j) ltac:(lia)) as [x Ex].
  exists (x :: r). cbn [mapR].
  destruct (Z.leb_spec 0 j); [|lia]. rewrite Ex. cbn [lift bind]. rewrite Er.
  cbn [bind length]. split; [reflexivity | lia].
Qed.

(** X7. Edge cases of [_reorder_cache]: a cache without decoder states is
    returned as it is; a layer that holds no state raises an index error; a
    beam index outside the batch axis of the first state raises an index
    error; and with all indices in range, a [beam_idx] whose length is not the
    batch size of the first state fails the shape assertion. *)
Theorem reorder_cache_checks (enc : Enc) (beam_idx : list Z) :
  _reorder_cache (State := State) (enc, None) beam_idx = Ok (enc, None)
  /\ (forall rest,
        _reorder_cache (State := State) (enc, Some ([] :: rest)) beam_idx
        = Err IndexError)
  /\ (forall (state_0 : list State) states rest i,
        i ∈ beam_idx -> (i < 0 \/ Z.of_nat (length state_0) <= i)%Z ->
        _reorder_cache (enc, Some ((state_0 :: states) :: rest)) beam_idx
        = Err IndexError)
  /\ (forall (state_0 : list State) states rest,
        Forall (fun state =>
                  Forall (fun i => (0 <= i < Z.of_nat (length state))%Z) beam_idx)
               (state_0 :: states) ->
        length beam_idx <> length state_0 ->
        _reorder_cache (enc, Some ((state_0 :: states) :: rest)) beam_idx
        = Err (AssertionError "")).
Proof.
  split; [reflexivity|]. split; [reflexivity|]. split.
  - intros state_0 states rest i Hin Hbad.
    unfold _reorder_cache. cbn [fst snd mapR]. unfold reorder_layer at 1. cbn [mapR].
    now rewrite (index_select_out_of_range state_0 beam_idx i Hin Hbad).
  - intros state_0 states rest Hrange Hlen.
    unfold _reorder_cache. cbn [fst snd mapR]. unfold reorder_layer at 1.
    apply Forall_cons in Hrange as [H0 Hrest].
    destruct (index_select_in_range state_0 beam_idx H0) as (r0 & Er0 & Hr0).
    assert (Hstates : exists rs,
              mapR (fun layer_past_state => index_select layer_past_state beam_idx) states
              = Ok rs).
    { clear -Hrest. induction states as [|st states IH]; [now exists []|].
      apply Forall_cons in Hrest as [Hst Hrest].
      destruct (index_select_in_range st beam_idx Hst) as (r & Er & _).
      destruct (IH Hrest) as [rs Ers]. exists (r :: rs). cbn [mapR].
      now rewrite Er, Ers. }
    destruct Hstates as [rs Ers].
    cbn [mapR]. rewrite Er0. cbn [bind]. rewrite Ers. cbn [bind lookup list_lookup lift].
    destruct (Nat.eqb_spec (length r0) (length state_0)) as [E|_]; [lia|].
    reflexivity.
Qed.

End WithStates.

Lemma reorder_cache_entries_witness :
  exists reordered : list (list (list nat)),
    _reorder_cache (tt, Some [[[10; 20]; [30; 40]]]) [1; 0]%Z = Ok (tt, Some reordered)
    /\ length reordered = 1.
Proof.
  destruct (reorder_cache_entries tt [[[10; 20]; [30; 40]]] [1; 0]%Z _ eq_refl)
    as (reordered & E & Hlen & _).
  exists reordered. split; [now rewrite <- E | exact Hlen].
Defined.

Lemma reorder_cache_identity_witness :
  _reorder_cache (tt, Some [[[10; 20]; [30; 40]]]) (arange 2)
  = Ok (tt, Some [[[10; 20]; [30; 40]]]).
Proof.
  apply (reorder_cache_identity tt [[[10; 20]; [30; 40]]] 2).
  repeat constructor. discriminate.
Defined.

Lemma reorder_cache_compose_witness :
  _reorder_cache (tt, Some [[[10; 20; 30]]]) (compose_beams [2; 0; 1]%Z [1; 1; 0]%Z)
  = Ok (tt, Some [[[10; 10; 30]]]).
Proof.
  exact (reorder_cache_compose (tt, Some [[[10; 20; 30]]]) (tt, Some [[[30; 10; 20]]])
           (tt, Some [[[10; 10; 30]]]) [2; 0; 1]%Z [1; 1; 0]%Z eq_refl eq_refl).
Defined.

Lemma reorder_cache_checks_witness :
  _reorder_cache (tt, Some [[[10; 20; 30]]]) [1; 0]%Z = Err (AssertionError "").
Proof.
  apply (proj2 (proj2 (proj2 (reorder_cache_checks (State := nat) tt [1; 0]%Z)))).
  - repeat constructor; cbn; lia.
  - cbn. lia.
Defined.

End ReorderCacheFacts.

(** ** Region embeddings *)

Module VisualFacts.
Import Py Visual.
Local Open Scope py_scope.

Lemma nn_Linear_init_forward (i o : nat) w b (x : Matrix) :
  last_dim x = i ->
  exists y, nn_Linear_forward (nn_Linear_init i o w b) x = Ok y
            /\ last_dim y = o /\ well_formed y /\ length (rows y) = length (rows x).
Proof.
  intros Hx. unfold nn_Linear_forward, nn_Linear_init. cbn [in_features out_features weight bias].
  rewrite Hx, Nat.eqb_refl. eexists. split; [reflexivity|]. cbn [last_dim rows].
  split; [reflexivity|]. split; [|now rewrite length_fmap].
  unfold well_formed. cbn [rows last_dim]. rewrite Forall_fmap. apply Forall_forall.
  intros row _. unfold compose. rewrite length_zip_with, !length_fmap, length_seq. lia.
Qed.

Lemma norm_data_length (self : LayerNorm.T5LayerNorm) (row : list R) :
  length (LayerNorm.data (LayerNorm.weight self)) = length row ->
  length (LayerNorm.data (LayerNorm.forward self (LayerNorm.mkTensor LayerNorm.float32 row)))
  = length row.
Proof.
  intros Hlen. rewrite LayerNormFacts.forward_data by exact Hlen.
  cbn [LayerNorm.data]. rewrite length_zip_with, length_map. lia.
Qed.

Lemma T5LayerNorm_init_forward (n : nat) (eps : R) (x : Matrix) :
  last_dim x = n -> well_formed x ->
  exists y, T5LayerNorm_forward (T5LayerNorm_init n eps) x = Ok y
            /\ last_dim y = n /\ well_formed y /\ length (rows y) = length (rows x).
Proof.
  intros Hx Hwf. unfold T5LayerNorm_forward, T5LayerNorm_init.
  cbn [LayerNorm.weight LayerNorm.data]. rewrite length_replicate, Hx, Nat.eqb_refl.
  cbn [orb]. replace (if n =? 1 then n else n) with n by (now destruct (n =? 1)).
  eexists. split; [reflexivity|]. cbn [last_dim rows].
  split; [reflexivity|]. split; [|now rewrite length_fmap].
  unfold well_formed in *. cbn [rows last_dim]. rewrite Forall_fmap.
  eapply Forall_impl; [exact Hwf|]. intros row Hrow. cbn beta in Hrow. unfold compose.
  rewrite norm_data_length; cbn [LayerNorm.weight LayerNorm.data];
    rewrite ?length_replicate; lia.
Qed.

(** A linear layer followed, or not, by a norm, as [__init__] builds them. *)
Lemma init_sequential_forward (i o : nat) w b (eps : R) (with_norm : bool) (x : Matrix) :
  last_dim x = i ->
  exists y,
    Sequential_forward
      (if with_norm
       then [LinearLayer (nn_Linear_init i o w b)] ++ [NormLayer (T5LayerNorm_init o eps)]
       else [LinearLayer (nn_Linear_init i o w b)]) x = Ok y
    /\ last_dim y = o /\ well_formed y /\ length (rows y) = length (rows x).
Proof.
  intros Hx.
  destruct (nn_Linear_init_forward i o w b x Hx) as (y & Ey & Hd & Hwf & Hlen).
  destruct with_norm; cbn [app Sequential_forward Layer_forward]; rewrite Ey; cbn [bind].
  - destruct (T5LayerNorm_init_forward o eps y Hd Hwf) as (z & Ez & Hd' & Hwf' & Hlen').
    rewrite Ez. cbn [bind]. exists z. repeat split; try assumption. lia.
  - exists y. repeat split; assumption.
Qed.

Lemma append_area_shape (pos : Matrix) :
  well_formed pos ->
  let pos' := append_area pos (box_area <$> rows pos) in
  last_dim pos' = last_dim pos + 1 /\ well_formed pos'
  /\ length (rows pos') = length (rows pos).
Proof.
  intros Hwf pos'. subst pos'. unfold append_area, well_formed in *. cbn [last_dim rows].
  split; [reflexivity|]. split.
  - induction (rows pos) as [|box boxes IH]; [constructor|].
    apply Forall_cons in Hwf as [Hbox Hboxes]. cbn. constructor.
    + rewrite length_app. cbn. lia.
    + now apply IH.
  - rewrite length_zip_with, length_fmap. lia.
Qed.

(** The two embeddings a module built by [__init__] computes. *)
Lemma init_embeddings (config : VisConfig) (use_pos use_norm individual : bool)
    (draw : Draw) (feats pos : Matrix) :
  let self := VisualEmbedding_init config use_pos use_norm individual draw in
  (individual = true -> use_pos = true) ->
  well_formed pos ->
  last_dim feats = (if individual then feat_dim config else 256) ->
  last_dim pos = pos_dim config ->
  exists layers feat_embedding pos_embedding,
    absolute_vis_pos_embedding self = Some layers
    /\ Sequential_forward (Visual.feat_embedding self) feats = Ok feat_embedding
    /\ Sequential_forward layers (append_area pos (box_area <$> rows pos))
       = Ok pos_embedding
    /\ last_dim feat_embedding = d_model config /\ well_formed feat_embedding
    /\ length (rows feat_embedding) = length (rows feats)
    /\ last_dim pos_embedding = d_model config /\ well_formed pos_embedding
    /\ length (rows pos_embedding) = length (rows pos).
Proof.
  intros self Hflags Hwfp Hf Hp.
  destruct (append_area_shape pos Hwfp) as (Hd & Hwf' & Hlen). rewrite Hp in Hd.
  subst self. unfold VisualEmbedding_init. destruct individual.
  - rewrite (Hflags eq_refl).
    cbn [absolute_vis_pos_embedding Visual.feat_embedding].
    destruct (init_sequential_forward (feat_dim config) (d_model config)
                (feat_w draw) (feat_b draw) (layer_norm_epsilon config) use_norm feats Hf)
      as (fe & Efe & Hfe).
    destruct (init_sequential_forward (pos_dim config + 1) (d_model config)
                (pos_w draw) (pos_b draw) (layer_norm_epsilon config) use_norm _ Hd)
      as (pe & Epe & Hpe1 & Hpe2 & Hpe3).
    eexists _, fe, pe. split; [reflexivity|]. split; [exact Efe|]. split; [exact Epe|].
    destruct Hfe as (? & ? & ?). repeat split; try assumption. lia.
  - cbn [absolute_vis_pos_embedding Visual.feat_embedding].
    destruct (init_sequential_forward 256 (d_model config)
                (feat_w draw) (feat_b draw) (layer_norm_epsilon config) false feats Hf)
      as (fe & Efe & Hfe).
    destruct (init_sequential_forward (pos_dim config + 1) (d_model config)
                (pos_w draw) (pos_b draw) (layer_norm_epsilon config) false _ Hd)
      as (pe & Epe & Hpe1 & Hpe2 & Hpe3).
    eexists _, fe, pe. split; [reflexivity|]. split; [exact Efe|]. split; [exact Epe|].
    destruct Hfe as (? & ? & ?). repeat split; try assumption. lia.
Qed.

(** X8. On a module built by [__init__] (with position embeddings when the
    norms are individual), for features of width [feat_dim] (256 when the norm
    is shared) and boxes of width [pos_dim], at least 4, [forward] returns a
    tensor of width [d_model] with as many rows as the features and the boxes
    have together.  Without the shared norm these rows are the embeddings of
    the features followed by the embeddings of the boxes extended by their
    areas. *)
Theorem visual_embedding_concatenates (config : VisConfig)
    (use_pos use_norm individual : bool) (draw : Draw) (feats pos : Matrix)
    (img_order_ids obj_order_ids : option (list Z)) :
  let self := VisualEmbedding_init config use_pos use_norm individual draw in
  (individual = true -> use_pos = true) ->
  well_formed feats -> well_formed pos ->
  last_dim feats = (if individual then feat_dim config else 256) ->
  last_dim pos = pos_dim config -> 4 <= pos_dim config ->
  exists layers feat_embedding pos_embedding vis_embedding,
    absolute_vis_pos_embedding self = Some layers
    /\ Sequential_forward (Visual.feat_embedding self) feats = Ok feat_embedding
    /\ Sequential_forward layers (append_area pos (box_area <$> rows pos))
       = Ok pos_embedding
    /\ VisualEmbedding_forward self feats pos img_order_ids obj_order_ids
       = Ok vis_embedding
    /\ last_dim vis_embedding = d_model config
    /\ well_formed vis_embedding
    /\ length (rows vis_embedding) = length (rows feats) + length (rows pos)
    /\ (individual = true \/ use_norm = false ->
        rows vis_embedding = rows feat_embedding ++ rows pos_embedding).
Proof.
  intros self Hflags Hwff Hwfp Hf Hp H4.
  destruct (init_embeddings config use_pos use_norm individual draw feats pos
              Hflags Hwfp Hf Hp)
    as (layers & fe & pe & El & Efe & Epe & Hfd & Hfwf & Hfl & Hpd & Hpwf & Hpl).
  fold self in El, Efe.
  set (cat := mkMatrix (last_dim fe) (rows fe ++ rows pe)).
  assert (Hcat : well_formed cat /\ last_dim cat = d_model config
                 /\ length (rows cat) = length (rows feats) + length (rows pos)).
  { subst cat. unfold well_formed in *. cbn [rows last_dim]. split; [|split].
    - apply Forall_app. split; [exact Hfwf|]. now rewrite Hfd, <- Hpd.
    - exact Hfd.
    - rewrite length_app. lia. }
  destruct Hcat as (Hcwf & Hcd & Hcl).
  assert (Hrun : VisualEmbedding_forward self feats pos img_order_ids obj_order_ids
                 = if negb (individual_vis_layer_norm self) then
                     if use_vis_layer_norm self then
                       layer_norm <- lift AttributeError (layer_norm self) ;;
                       T5LayerNorm_forward layer_norm cat
                     else Ok cat
                   else Ok cat).
  { unfold VisualEmbedding_forward. rewrite Efe. cbn [bind].
    unfold get_area. rewrite Hp.
    destruct (Nat.leb_spec 4 (pos_dim config)) as [_|?]; [|lia]. cbn [bind].
    rewrite El. cbn [lift bind]. rewrite Epe. cbn [bind].
    unfold cat_rows. rewrite Hfd, Hpd, Nat.eqb_refl. cbn [bind].
    subst cat. rewrite Hfd. reflexivity. }
  assert (Hi : individual_vis_layer_norm self = individual
               /\ use_vis_layer_norm self = use_norm).
  { subst self. unfold VisualEmbedding_init. destruct individual; split; reflexivity. }
  destruct Hi as [Hi Hn]. rewrite Hi, Hn in Hrun.
  destruct individual; cbn [negb] in Hrun.
  - exists layers, fe, pe, cat. repeat split; try assumption.
  - destruct use_norm.
    + assert (Eln : layer_norm self
                    = Some (T5LayerNorm_init (d_model config) (layer_norm_epsilon config)))
        by reflexivity.
      rewrite Eln in Hrun. cbn [lift bind] in Hrun.
      destruct (T5LayerNorm_init_forward (d_model config) (layer_norm_epsilon config)
                  cat Hcd Hcwf) as (out & Eout & Hod & Howf & Hol).
      rewrite Eout in Hrun.
      exists layers, fe, pe, out. repeat split; try assumption.
      * lia.
      * intros [?|?]; discriminate.
    + exists layers, fe, pe, cat. repeat split; try assumption.
Qed.

Lemma visual_embedding_concatenates_witness :
  exists vis_embedding,
    VisualEmbedding_forward (VisualEmbedding_init demo_config true false true demo_draw)
      (mkMatrix 2 [[1; 2]; [3; 4]]%R) (mkMatrix 4 [[0; 2; 0; 3]; [1; 2; 1; 2]]%R)
      None None = Ok vis_embedding
    /\ last_dim vis_embedding = 3
    /\ length (rows vis_embedding) = 4.
Proof.
  destruct (visual_embedding_concatenates demo_config true false true demo_draw
              (mkMatrix 2 [[1; 2]; [3; 4]]%R)
              (mkMatrix 4 [[0; 2; 0; 3]; [1; 2; 1; 2]]%R) None None
              (fun _ => eq_refl)
              ltac:(repeat constructor) ltac:(repeat constructor)
              eq_refl eq_refl ltac:(cbn; lia))
    as (_ & _ & _ & out & _ & _ & _ & Hrun & Hd & _ & Hlen & _).
  exists out. split; [exact Hrun|]. split; [exact Hd | exact Hlen].
Defined.

(** X9. A module built with [use_vis_pos=False] and individual norms has no
    [absolute_vis_pos_embedding]: its [forward] never returns, and raises an
    attribute error once the features and the boxes have passed the earlier
    steps. *)
Theorem visual_embedding_without_vis_pos (config : VisConfig) (use_norm : bool)
    (draw : Draw) (feats pos : Matrix) (img_order_ids obj_order_ids : option (list Z)) :
  let self := VisualEmbedding_init config false use_norm true draw in
  (forall vis_embedding,
     VisualEmbedding_forward self feats pos img_order_ids obj_order_ids
     <> Ok vis_embedding)
  /\ (last_dim feats = feat_dim config -> 4 <= last_dim pos ->
      VisualEmbedding_forward self feats pos img_order_ids obj_order_ids
      = Err AttributeError).
Proof.
  intros self.
  assert (Hnone : absolute_vis_pos_embedding self = None) by reflexivity.
  split.
  - intros out. unfold VisualEmbedding_forward. rewrite Hnone.
    destruct (Sequential_forward _ feats); [|discriminate]. cbn [bind].
    destruct (get_area pos); discriminate.
  - intros Hf Hp. unfold VisualEmbedding_forward. rewrite Hnone.
    destruct (init_sequential_forward (feat_dim config) (d_model config)
                (feat_w draw) (feat_b draw) (layer_norm_epsilon config) use_norm feats Hf)
      as (fe & Efe & _).
    assert (Efeat : Sequential_forward (Visual.feat_embedding self) feats = Ok fe)
      by exact Efe.
    rewrite Efeat. cbn [bind]. unfold get_area.
    destruct (Nat.leb_spec 4 (last_dim pos)); [reflexivity | lia].
Qed.

Lemma visual_embedding_without_vis_pos_witness :
  VisualEmbedding_forward (VisualEmbedding_init demo_config false true true demo_draw)
    (mkMatrix 2 [[1; 2]]%R) (mkMatrix 4 [[0; 2; 0; 3]]%R) None None
  = Err AttributeError.
Proof.
  apply (visual_embedding_without_vis_pos demo_config true demo_draw
           (mkMatrix 2 [[1; 2]]%R) (mkMatrix 4 [[0; 2; 0; 3]]%R) None None);
    [reflexivity | cbn; lia].
Defined.

(** X10. With [individual_vis_layer_norm=False] the feature layer is built
    for inputs of width 256, whatever [config.feat_dim] is: features of any
    other width make [forward] raise a runtime error. *)
Theorem visual_embedding_shared_norm_width (config : VisConfig)
    (use_pos use_norm : bool) (draw : Draw) (feats pos : Matrix)
    (img_order_ids obj_order_ids : option (list Z)) :
  last_dim feats <> 256 ->
  VisualEmbedding_forward (VisualEmbedding_init config use_pos use_norm false draw)
    feats pos img_order_ids obj_order_ids
  = Err RuntimeError.
Proof.
  intros Hw. unfold VisualEmbedding_forward, VisualEmbedding_init.
  cbn [Visual.feat_embedding Sequential_forward Layer_forward].
  unfold nn_Linear_forward, nn_Linear_init. cbn [in_features].
  destruct (Nat.eqb_spec (last_dim feats) 256); [contradiction | reflexivity].
Qed.

Lemma visual_embedding_shared_norm_width_witness :
  VisualEmbedding_forward (VisualEmbedding_init demo_config true true false demo_draw)
    (mkMatrix (feat_dim demo_config) [[1; 2]]%R) (mkMatrix 4 [[0; 2; 0; 3]]%R) None None
  = Err RuntimeError.
Proof.
  apply (visual_embedding_shared_norm_width demo_config true true demo_draw
           (mkMatrix (feat_dim demo_config) [[1; 2]]%R)).
  cbn. lia.
Defined.

End VisualFacts.

(** ** Outputs and input checks of the stacks and blocks *)

Module StackFacts.
Import Py Modules Forward ForwardViews ForwardFacts.
Local Open Scope py_scope.

Section WithTorch.
Context {torch : Torch}.

(** *** What the layer loop accumulates *)

Lemma stack_layer_counts (is_decoder : bool) mask encoder_hidden_states encoder_mask
    head_mask use_cache output_attentions output_hidden_states (i : nat)
    (layer_module : T5Block) past (st st' : LoopState) :
  stack_layer is_decoder mask encoder_hidden_states encoder_mask head_mask use_cache
    output_attentions output_hidden_states i layer_module past st = Ok st' ->
  length (loop_present_key_value_states st')
  = length (loop_present_key_value_states st) + 1
  /\ length (loop_all_hidden_states st')
     = length (loop_all_hidden_states st) + (if output_hidden_states then 1 else 0)
  /\ length (loop_all_attentions st')
     = length (loop_all_attentions st) + (if output_attentions then 1 else 0).
Proof.
  unfold stack_layer. intros Hrun.
  do 8 (apply bind_ok in Hrun as (? & _ & Hrun)).
  apply bind_ok in Hrun as (all_attentions & Hatt & Hrun).
  injection Hrun as <-. cbn.
  split; [rewrite length_app; reflexivity|]. split.
  - destruct output_hidden_states; [rewrite length_app; reflexivity | lia].
  - destruct output_attentions.
    + apply bind_ok in Hatt as (? & _ & Hatt). injection Hatt as <-.
      rewrite length_app. reflexivity.
    + injection Hatt as <-. lia.
Qed.

Lemma stack_layers_counts (is_decoder : bool) mask encoder_hidden_states encoder_mask
    head_mask use_cache output_attentions output_hidden_states
    (layers : list (T5Block * option (list (list Proj)))) (i : nat)
    (st st' : LoopState) :
  stack_layers is_decoder mask encoder_hidden_states encoder_mask head_mask use_cache
    output_attentions output_hidden_states i layers st = Ok st' ->
  length (loop_present_key_value_states st')
  = length (loop_present_key_value_states st) + length layers
  /\ length (loop_all_hidden_states st')
     = length (loop_all_hidden_states st)
       + (if output_hidden_states then length layers else 0)
  /\ length (loop_all_attentions st')
     = length (loop_all_attentions st)
       + (if output_attentions then length layers else 0).
Proof.
  revert i st. induction layers as [|[layer_module past] layers IH]; intros i st Hrun.
  - injection Hrun as <-. cbn. destruct output_hidden_states, output_attentions; lia.
  - cbn [stack_layers] in Hrun. apply bind_ok in Hrun as (st1 & H1 & Hrun).
    apply stack_layer_counts in H1 as (Hp & Hh & Ha).
    apply IH in Hrun as (Hp' & Hh' & Ha'). cbn [length].
    destruct output_hidden_states, output_attentions; lia.
Qed.

Lemma stack_outputs_layout (self : T5Stack) (use_cache output_attentions
    output_hidden_states : bool) (st : LoopState) outputs :
  stack_outputs self use_cache output_attentions output_hidden_states st = Ok outputs ->
  let hidden_states :=
    dropout_hidden (t5_layer_norm (final_layer_norm self) <$> loop_hidden_states st) in
  outputs
  = [SHidden hidden_states]
      ++ (if use_cache then [SPresents (loop_present_key_value_states st)] else [])
      ++ (if output_hidden_states
          then [SAllHidden (loop_all_hidden_states st ++ [hidden_states])] else [])
      ++ (if output_attentions then [SAllAttentions (loop_all_attentions st)] else [])
  /\ (use_cache = true -> stack_is_decoder self = true).
Proof.
  intros Hrun hidden_states. unfold stack_outputs in Hrun.
  apply bind_ok in Hrun as (presents & Hp & Hrun). injection Hrun as <-.
  destruct use_cache.
  - apply bind_ok in Hp as (u & Ha & Hp). injection Hp as <-.
    apply assert_ok in Ha. split; [|auto].
    destruct output_hidden_states; reflexivity.
  - injection Hp as <-. split; [|discriminate].
    destruct output_hidden_states; reflexivity.
Qed.

Lemma zip_pasts_length (self : T5Stack)
    (past_key_value_states : option (list (list (list Proj)))) :
  length (zip (block self)
            match past_key_value_states with
            | Some past => Some <$> past
            | None => replicate (length (block self)) None
            end)
  = layers_run self past_key_value_states.
Proof.
  unfold layers_run. rewrite length_zip_with.
  destruct past_key_value_states; [now rewrite length_fmap|].
  rewrite length_replicate. lia.
Qed.

(** What a stack that returns has returned. *)
Lemma stack_forward_outputs (self : T5Stack) (input_ids : option (list Z))
    (attention_mask : option (list R)) (encoder_hidden_states : option (list Hid))
    (encoder_attention_mask : option (list R)) (inputs_embeds : option (list Hid))
    (head_mask : option HeadMask)
    (past_key_value_states : option (list (list (list Proj))))
    (use_cache output_attentions output_hidden_states : option bool)
    (outputs : list StackValue) :
  let use_cache' := default (config_use_cache (config self)) use_cache in
  let output_attentions' :=
    default (config_output_attentions (config self)) output_attentions in
  let output_hidden_states' :=
    default (config_output_hidden_states (config self)) output_hidden_states in
  let n := layers_run self past_key_value_states in
  T5Stack_forward self input_ids attention_mask encoder_hidden_states
    encoder_attention_mask inputs_embeds head_mask past_key_value_states use_cache
    output_attentions output_hidden_states = Ok outputs ->
  exists hidden_states presents all_hidden_states all_attentions,
    outputs
    = [SHidden hidden_states]
        ++ (if use_cache' then [SPresents presents] else [])
        ++ (if output_hidden_states' then [SAllHidden all_hidden_states] else [])
        ++ (if output_attentions' then [SAllAttentions all_attentions] else [])
    /\ length presents = n
    /\ (output_hidden_states' = true ->
        length all_hidden_states = n + 1
        /\ last all_hidden_states = Some hidden_states)
    /\ (output_attentions' = true -> length all_attentions = n)
    /\ (use_cache' = true -> stack_is_decoder self = true).
Proof.
  intros use_cache' output_attentions' output_hidden_states' n Hrun.
  unfold T5Stack_forward in Hrun.
  fold use_cache' output_attentions' output_hidden_states' in Hrun.
  apply bind_ok in Hrun as (seq_length & _ & Hrun).
  apply bind_ok in Hrun as (embeds & _ & Hrun).
  apply bind_ok in Hrun as (mask_seq_length & _ & Hrun).
  apply bind_ok in Hrun as (st & Hloop & Hrun).
  apply stack_layers_counts in Hloop as (Hp & Hh & Ha).
  rewrite zip_pasts_length in Hp, Hh, Ha. fold n in Hp, Hh, Ha.
  cbn [initial_state loop_present_key_value_states loop_all_hidden_states
       loop_all_attentions length] in Hp, Hh, Ha.
  apply stack_outputs_layout in Hrun as [-> Hdec].
  eexists _, (loop_present_key_value_states st), _, (loop_all_attentions st).
  split; [reflexivity|]. split; [lia|]. split; [|split; [|exact Hdec]].
  - intros E. rewrite E in Hh. rewrite length_app, last_snoc. cbn [length].
    split; [lia | reflexivity].
  - intros E. rewrite E in Ha. lia.
Qed.

(** X11. The tuple [T5Stack.forward] returns: the last hidden states, then
    the present key/value states if [use_cache], then all hidden states if
    [output_hidden_states], then all attentions if [output_attentions], each
    flag defaulting to the configuration.  There is one entry of the presents
    and of the attentions per layer run and one more hidden state than layers
    run, the last of them being the hidden states returned first; and only a
    decoder can return with [use_cache]. *)
Theorem stack_output_layout (self : T5Stack) (input_ids : option (list Z))
    (attention_mask : option (list R)) (encoder_hidden_states : option (list Hid))
    (encoder_attention_mask : option (list R)) (inputs_embeds : option (list Hid))
    (head_mask : option HeadMask)
    (past_key_value_states : option (list (list (list Proj))))
    (use_cache output_attentions output_hidden_states : option bool)
    (outputs : list StackValue) :
  let use_cache' := default (config_use_cache (config self)) use_cache in
  let output_attentions' :=
    default (config_output_attentions (config self)) output_attentions in
  let output_hidden_states' :=
    default (config_output_hidden_states (config self)) output_hidden_states in
  let n := layers_run self past_key_value_states in
  T5Stack_forward self input_ids attention_mask encoder_hidden_states
    encoder_attention_mask inputs_embeds head_mask past_key_value_states use_cache
    output_attentions output_hidden_states = Ok outputs ->
  exists hidden_states presents all_hidden_states all_attentions,
    outputs
    = [SHidden hidden_states]
        ++ (if use_cache' then [SPresents presents] else [])
        ++ (if output_hidden_states' then [SAllHidden all_hidden_states] else [])
        ++ (if output_attentions' then [SAllAttentions all_attentions] else [])
    /\ length presents = n
    /\ (output_hidden_states' = true ->
        length all_hidden_states = n + 1
        /\ last all_hidden_states = Some hidden_states)
    /\ (output_attentions' = true -> length all_attentions = n)
    /\ (use_cache' = true -> stack_is_decoder self = true).
Proof. exact (stack_forward_outputs self _ _ _ _ _ _ _ _ _ _ outputs). Qed.

(** X12. A stack that is not a decoder fails whenever [use_cache] is in
    effect: [T5Stack.forward] when the argument or, in its absence, the
    configured default is true, [JointEncoder.forward] when it is passed
    [use_cache=True]. *)
Theorem encoder_rejects_use_cache (self : T5Stack) (input_ids : option (list Z))
    (attention_mask : option (list R)) (encoder_hidden_states : option (list Hid))
    (encoder_attention_mask : option (list R)) (vis_inputs : option VisInputs)
    (vis_attention_mask : option (list R)) (inputs_embeds : option (list Hid))
    (head_mask : option HeadMask)
    (past_key_value_states : option (list (list (list Proj))))
    (use_cache output_attentions output_hidden_states : option bool) :
  stack_is_decoder self = false ->
  (default (config_use_cache (config self)) use_cache = true ->
   exists e,
     T5Stack_forward self input_ids attention_mask encoder_hidden_states
       encoder_attention_mask inputs_embeds head_mask past_key_value_states use_cache
       output_attentions output_hidden_states = Err e)
  /\ (exists e,
        JointEncoder_forward self input_ids attention_mask vis_inputs
          vis_attention_mask inputs_embeds head_mask past_key_value_states (Some true)
          output_attentions output_hidden_states = Err e).
Proof.
  intros Hdec. split.
  - intros Hcache.
    destruct (T5Stack_forward self input_ids attention_mask encoder_hidden_states
                encoder_attention_mask inputs_embeds head_mask past_key_value_states
                use_cache output_attentions output_hidden_states) as [outputs|e] eqn:E;
      [|now exists e].
    apply stack_forward_outputs in E as (? & ? & ? & ? & _ & _ & _ & _ & H).
    specialize (H Hcache). congruence.
  - destruct (JointEncoder_forward self input_ids attention_mask vis_inputs
                vis_attention_mask inputs_embeds head_mask past_key_value_states
                (Some true) output_attentions output_hidden_states)
      as [outputs|e] eqn:E; [|now exists e].
    unfold JointEncoder_forward in E.
    apply bind_ok in E as (prepared & _ & E).
    apply bind_ok in E as (st & _ & E).
    apply stack_outputs_layout in E as [_ H]. specialize (H eq_refl). congruence.
Qed.

(** A call of [JointEncoder.forward] that returns on a configuration with
    layers found the [module] attribute on its first block. *)
Lemma joint_encoder_returns_wrapped (self : T5Stack) (input_ids : option (list Z))
    (attention_mask : option (list R)) (vis_inputs : option VisInputs)
    (vis_attention_mask : option (list R)) (inputs_embeds : option (list Hid))
    (head_mask : option HeadMask) prepared :
  JointEncoder_prepare self input_ids attention_mask vis_inputs vis_attention_mask
    inputs_embeds head_mask = Ok prepared ->
  0 < num_layers (config self) ->
  exists first others, block self = first :: others /\ wrapped first = true.
Proof.
  intros Hprep Hlayers. unfold JointEncoder_prepare in Hprep.
  apply bind_ok in Hprep as (? & _ & Hprep).
  apply bind_ok in Hprep as (? & _ & Hprep).
  destruct (Nat.ltb_spec 0 (num_layers (config self))); [|lia].
  apply bind_ok in Hprep as (bias & Hbias & _).
  unfold JointEncoder_padded_bias in Hbias.
  apply bind_ok in Hbias as (first & Hitem & Hbias).
  apply bind_ok in Hbias as (inner & Hmodule & _).
  destruct (block self) as [|first' others]; [discriminate|].
  injection Hitem as ->. exists first, others. split; [reflexivity|].
  unfold module in Hmodule. now destruct (wrapped first).
Qed.

Lemma joint_encoder_forward_wrapped (self : T5Stack) (input_ids : option (list Z))
    (attention_mask : option (list R)) (vis_inputs : option VisInputs)
    (vis_attention_mask : option (list R)) (inputs_embeds : option (list Hid))
    (head_mask : option HeadMask)
    (past_key_value_states : option (list (list (list Proj))))
    (use_cache output_attentions output_hidden_states : option bool)
    (outputs : list StackValue) :
  JointEncoder_forward self input_ids attention_mask vis_inputs vis_attention_mask
    inputs_embeds head_mask past_key_value_states use_cache output_attentions
    output_hidden_states = Ok outputs ->
  0 < num_layers (config self) ->
  exists first others, block self = first :: others /\ wrapped first = true.
Proof.
  intros Hrun. unfold JointEncoder_forward in Hrun.
  apply bind_ok in Hrun as (prepared & Hprep & _).
  exact (joint_encoder_returns_wrapped _ _ _ _ _ _ _ _ Hprep).
Qed.

(** X13. The tuple [JointEncoder.forward] returns on an encoder: the last
    hidden states, then, if [output_hidden_states], a tuple that holds these
    final hidden states only (the hidden states of the layers are not
    collected), then, if [output_attentions], one attention tensor per layer
    run.  The flags default to false, not to the configuration, and a call
    that returns was not given [use_cache=True]; on a configuration with
    layers it found the [module] attribute on the first block, which a block
    put in the list by [__init__] does not have. *)
Theorem joint_encoder_output_layout (self : T5Stack) (input_ids : option (list Z))
    (attention_mask : option (list R)) (vis_inputs : option VisInputs)
    (vis_attention_mask : option (list R)) (inputs_embeds : option (list Hid))
    (head_mask : option HeadMask)
    (past_key_value_states : option (list (list (list Proj))))
    (use_cache output_attentions output_hidden_states : option bool)
    (outputs : list StackValue) :
  let n := if 0 <? num_layers (config self)
           then layers_run self past_key_value_states else 0 in
  stack_is_decoder self = false ->
  JointEncoder_forward self input_ids attention_mask vis_inputs vis_attention_mask
    inputs_embeds head_mask past_key_value_states use_cache output_attentions
    output_hidden_states = Ok outputs ->
  exists hidden_states all_attentions,
    outputs
    = [SHidden hidden_states]
        ++ (if default false output_hidden_states
            then [SAllHidden [hidden_states]] else [])
        ++ (if default false output_attentions
            then [SAllAttentions all_attentions] else [])
    /\ (default false output_attentions = true -> length all_attentions = n)
    /\ use_cache <> Some true
    /\ (0 < num_layers (config self) ->
        exists first others, block self = first :: others /\ wrapped first = true).
Proof.
  intros n Hdec Hrun. unfold JointEncoder_forward in Hrun.
  apply bind_ok in Hrun as (prepared & Hprep & Hrun).
  pose proof (joint_encoder_returns_wrapped _ _ _ _ _ _ _ _ Hprep) as Hwrapped.
  apply bind_ok in Hrun as (st & Hloop & Hrun).
  apply stack_outputs_layout in Hrun as [-> Hcache].
  assert (Hbias : (0 <? num_layers (config self)) = is_Some_bool (snd prepared)).
  { unfold JointEncoder_prepare in Hprep.
    apply bind_ok in Hprep as (? & _ & Hprep).
    apply bind_ok in Hprep as (? & _ & Hprep).
    destruct (0 <? num_layers (config self)).
    - apply bind_ok in Hprep as (? & _ & Hprep).
      apply bind_ok in Hprep as (? & _ & Hprep). now injection Hprep as <-.
    - now injection Hprep as <-. }
  assert (Hst : loop_all_hidden_states st = []
                /\ length (loop_all_attentions st)
                   = if default false output_attentions then n else 0).
  { subst n. rewrite Hbias. destruct (snd prepared) as [bias|]; cbn [is_Some_bool].
    - apply stack_layers_counts in Hloop as (_ & Hh & Ha). cbn in Hh, Ha.
      rewrite zip_pasts_length in Ha. split; [|exact Ha].
      now apply length_zero_iff_nil.
    - injection Hloop as <-. cbn. split; [reflexivity|].
      now destruct (default false output_attentions). }
  destruct Hst as [Hh Ha]. rewrite Hh. cbn [app].
  assert (Hno : default false use_cache = false).
  { destruct (default false use_cache); [|reflexivity].
    specialize (Hcache eq_refl). congruence. }
  rewrite Hno. cbn [app].
  eexists _, (loop_all_attentions st). split; [reflexivity|].
  split; [|split; [|exact Hwrapped]].
  - intros E. now rewrite E in Ha.
  - intros ->. discriminate.
Qed.

(** X14. Input checks of [JointEncoder.forward]: without [inputs_embeds], an
    encoder that has no token embeddings fails its assertion whatever the
    other arguments are; with [inputs_embeds] but neither [input_ids] nor
    [attention_mask], making the mask from [input_ids] raises an attribute
    error. *)
Theorem joint_encoder_input_checks (self : T5Stack) (vis_inputs : option VisInputs)
    (vis_attention_mask : option (list R)) (head_mask : option HeadMask)
    (past_key_value_states : option (list (list (list Proj))))
    (use_cache output_attentions output_hidden_states : option bool) :
  (forall input_ids attention_mask,
     embed_tokens self = None ->
     JointEncoder_forward self input_ids attention_mask vis_inputs vis_attention_mask
       None head_mask past_key_value_states use_cache output_attentions
       output_hidden_states
     = Err (AssertionError
              "You have to initialize the model with valid token embeddings"))
  /\ (forall inputs_embeds,
        JointEncoder_forward self None None vis_inputs vis_attention_mask
          (Some inputs_embeds) head_mask past_key_value_states use_cache
          output_attentions output_hidden_states
        = Err AttributeError).
Proof.
  split.
  - intros input_ids attention_mask He.
    unfold JointEncoder_forward, JointEncoder_prepare. now rewrite He.
  - intros inputs_embeds. reflexivity.
Qed.


(** X16. A block that is not a decoder ignores its three encoder arguments:
    [T5Block.forward] gives the outcome it gives with [encoder_hidden_states],
    [encoder_attention_mask] and [encoder_decoder_position_bias] left
    [None]. *)
Theorem encoder_block_ignores_encoder_inputs (self : T5Block)
    (hidden_states : list Hid) (attention_mask : option Mask)
    (position_bias : option Tensor4) (encoder_hidden_states : option (list Hid))
    (encoder_attention_mask : option Mask)
    (encoder_decoder_position_bias : option Tensor4) (head_mask : option HeadMask)
    (past_key_value_state : option (list (list Proj)))
    (use_cache output_attentions : bool) :
  block_is_decoder self = false ->
  T5Block_forward self hidden_states attention_mask position_bias
    encoder_hidden_states encoder_attention_mask encoder_decoder_position_bias
    head_mask past_key_value_state use_cache output_attentions
  = T5Block_forward self hidden_states attention_mask position_bias None None None
      head_mask past_key_value_state use_cache output_attentions.
Proof.
  intros Hdec. unfold T5Block_forward. rewrite Hdec.
  destruct past_key_value_state as [past|]; [reflexivity|]. cbn [bind fst snd].
  destruct (T5LayerSelfAttention_forward _ _ _ _ _ _ _ _) as [outs|e]; [|reflexivity].
  cbn [bind].
  destruct (item outs 0) as [h|e]; [|reflexivity]. cbn [bind].
  destruct (as_hidden h) as [h'|e]; [|reflexivity]. cbn [bind].
  destruct (item outs 1) as [p|e]; [|reflexivity]. cbn [bind].
  destruct encoder_hidden_states; reflexivity.
Qed.

(** X17. Where [T5Block.forward] puts its results, on which the stack relies
    when it reads positions [3 if output_attentions else 2] and
    [5 if output_attentions else 3]: position 0 holds the hidden states;
    position 2 holds the self-attention weights when [output_attentions]; if
    the self-attention owns a bias table, the position bias it used is at
    position 3 with [output_attentions] and at 2 without.  Without
    cross-attention the tuple has two entries, plus one for the weights and
    one for the bias where present; with cross-attention it has those of both
    attentions, and the cross-attention bias at position 5 or 3 is the one
    passed in, if one was. *)
Theorem block_output_positions (self : T5Block) (hidden_states : list Hid)
    (attention_mask : option Mask) (position_bias : option Tensor4)
    (encoder_hidden_states : option (list Hid)) (encoder_attention_mask : option Mask)
    (encoder_decoder_position_bias : option Tensor4) (head_mask : option HeadMask)
    (past_key_value_state : option (list (list Proj)))
    (use_cache output_attentions : bool) (outputs : list Value) :
  let self_attention := SelfAttention (layer_0 self) in
  T5Block_forward self hidden_states attention_mask position_bias
    encoder_hidden_states encoder_attention_mask encoder_decoder_position_bias
    head_mask past_key_value_state use_cache output_attentions = Ok outputs ->
  (exists hidden, outputs !! 0 = Some (VHidden hidden))
  /\ (output_attentions = true -> exists weights, outputs !! 2 = Some (VScores weights))
  /\ (has_relative_attention_bias self_attention = true ->
      exists used,
        outputs !! (if output_attentions then 3 else 2) = Some (VScores used)
        /\ bias_used self_attention position_bias
             (total_length hidden_states past_key_value_state)
             (total_length hidden_states past_key_value_state)
             (is_cached past_key_value_state) attention_mask used)
  /\ (block_is_decoder self = false \/ encoder_hidden_states = None ->
      length outputs
      = 2 + (if output_attentions then 1 else 0)
        + (if has_relative_attention_bias self_attention then 1 else 0))
  /\ (block_is_decoder self = true -> encoder_hidden_states <> None ->
      exists cross,
        layer_1 self = Some cross
        /\ length outputs
           = 2 + (if output_attentions then 2 else 0)
             + (if has_relative_attention_bias self_attention then 1 else 0)
             + (if has_relative_attention_bias (EncDecAttention cross) then 1 else 0)
        /\ (has_relative_attention_bias self_attention = true ->
            has_relative_attention_bias (EncDecAttention cross) = true ->
            exists cross_used,
              outputs !! (if output_attentions then 5 else 3)
              = Some (VScores cross_used)
              /\ match encoder_decoder_position_bias with
                 | Some given => cross_used = given
                 | None => True
                 end)).
Proof.
  intros self_attention Hrun.
  apply block_outputs in Hrun
    as (hidden & present & weights & used & tail & -> & Hused & Htail).
  fold self_attention in Hused |- *.
  split; [now exists hidden|].
  split; [intros ->; now exists weights|].
  split.
  { intros Hb. rewrite Hb. exists used. split; [|exact Hused].
    destruct output_attentions; reflexivity. }
  split.
  { intros Hcase.
    assert (tail = []) as ->.
    { destruct encoder_hidden_states as [enc|]; [|exact Htail].
      destruct Hcase as [Hd|?]; [|discriminate]. now rewrite Hd in Htail. }
    destruct output_attentions, (has_relative_attention_bias self_attention);
      reflexivity. }
  intros Hd Henc. destruct encoder_hidden_states as [enc|]; [|contradiction].
  rewrite Hd in Htail. destruct Htail as (cross & cw & cused & Hc & -> & Hgiven).
  exists cross. split; [exact Hc|]. split.
  - destruct output_attentions, (has_relative_attention_bias self_attention),
      (has_relative_attention_bias (EncDecAttention cross)); reflexivity.
  - intros Hb Hcb. rewrite Hb, Hcb. exists cused. split.
    + destruct output_attentions; reflexivity.
    + destruct encoder_decoder_position_bias; [exact Hgiven | exact I].
Qed.

End WithTorch.

Lemma stack_output_layout_witness :
  exists outputs hidden_states (presents : list (@Value demo_torch)),
    T5Stack_forward (torch := demo_torch) demo_decoder (Some [0; 5]%Z) None (Some [7; 8])
      (Some [1; 1]%R) None None None (Some true) None None = Ok outputs
    /\ outputs = [SHidden hidden_states; SPresents presents]
    /\ length presents = 1.
Proof.
  eexists.
  assert (Hrun : T5Stack_forward (torch := demo_torch) demo_decoder (Some [0; 5]%Z) None
                   (Some [7; 8]) (Some [1; 1]%R) None None None (Some true) None None
                 = Ok _) by (vm_compute; reflexivity).
  destruct (stack_output_layout (torch := demo_torch) demo_decoder (Some [0; 5]%Z) None
              (Some [7; 8]) (Some [1; 1]%R) None None None (Some true) None None _ Hrun)
    as (hidden_states & presents & all_hidden & all_attentions & Hout & Hlen & _).
  exists hidden_states, presents. split; [exact Hrun|]. split; [exact Hout | exact Hlen].
Defined.

Lemma encoder_rejects_use_cache_witness :
  exists e,
    T5Stack_forward (torch := demo_torch) demo_encoder (Some [7; 8]%Z) None None None
      None None None (Some true) None None = Err e.
Proof.
  exact (proj1 (encoder_rejects_use_cache (torch := demo_torch) demo_encoder
                  (Some [7; 8]%Z) None None None None None None None None (Some true)
                  None None eq_refl) eq_refl).
Defined.

Lemma joint_encoder_output_layout_witness :
  (exists outputs hidden_states,
     JointEncoder_forward (torch := demo_torch) demo_encoder_without_layers
       (Some [7; 8]%Z) (Some [1; 1]%R) None None None None None None None (Some true)
     = Ok outputs
     /\ outputs = [SHidden hidden_states; SAllHidden [hidden_states]])
  /\ (exists outputs hidden_states,
        JointEncoder_forward (torch := demo_torch) demo_wrapped_encoder
          (Some [7; 8]%Z) (Some [1; 1]%R) None None None None None None None
          (Some true)
        = Ok outputs
        /\ outputs = [SHidden hidden_states; SAllHidden [hidden_states]]).
Proof.
  split.
  - eexists.
    assert (Hrun : JointEncoder_forward (torch := demo_torch)
                     demo_encoder_without_layers (Some [7; 8]%Z) (Some [1; 1]%R) None
                     None None None None None None (Some true)
                   = Ok _) by (vm_compute; reflexivity).
    destruct (joint_encoder_output_layout (torch := demo_torch)
                demo_encoder_without_layers (Some [7; 8]%Z) (Some [1; 1]%R) None None
                None None None None None (Some true) _ eq_refl Hrun)
      as (hidden_states & all_attentions & Hout & _).
    exists hidden_states. split; [exact Hrun | exact Hout].
  - eexists.
    assert (Hrun : JointEncoder_forward (torch := demo_torch) demo_wrapped_encoder
                     (Some [7; 8]%Z) (Some [1; 1]%R) None None None None None None None
                     (Some true)
                   = Ok _) by (vm_compute; reflexivity).
    destruct (joint_encoder_output_layout (torch := demo_torch) demo_wrapped_encoder
                (Some [7; 8]%Z) (Some [1; 1]%R) None None None None None None None
                (Some true) _ eq_refl Hrun)
      as (hidden_states & all_attentions & Hout & _).
    exists hidden_states. split; [exact Hrun | exact Hout].
Defined.

(** The encoder as [__init__] builds it, with its one layer: the call ends at
    the attribute access. *)
Example joint_encoder_as_built_raises :
  JointEncoder_forward (torch := demo_torch) demo_encoder (Some [7; 8]%Z)
    (Some [1; 1]%R) None None None None None None None (Some true)
  = Err AttributeError.
Proof. vm_compute; reflexivity. Qed.

Lemma joint_encoder_input_checks_witness :
  JointEncoder_forward (torch := demo_torch) demo_encoder_without_embeddings
    (Some [7; 8]%Z) None None None None None None None None None
  = Err (AssertionError "You have to initialize the model with valid token embeddings").
Proof.
  exact (proj1 (joint_encoder_input_checks (torch := demo_torch)
                  demo_encoder_without_embeddings None None None None None None None)
           (Some [7; 8]%Z) None eq_refl).
Defined.


Lemma encoder_block_ignores_encoder_inputs_witness :
  T5Block_forward (torch := demo_torch) (demo_block false true (Some demo_table)) [5; 6]
    None None (Some [7; 8; 9]) (Some [[1; 1; 1]]%R) None None None false false
  = T5Block_forward (torch := demo_torch) (demo_block false true (Some demo_table))
      [5; 6] None None None None None None None false false.
Proof.
  exact (encoder_block_ignores_encoder_inputs (torch := demo_torch)
           (demo_block false true (Some demo_table)) [5; 6] None None (Some [7; 8; 9])
           (Some [[1; 1; 1]]%R) None None None false false eq_refl).
Defined.

Lemma block_output_positions_witness :
  exists outputs used cross_used,
    T5Block_forward (torch := demo_torch) (demo_block true true (Some demo_table)) [5; 6]
      None None (Some [7; 8; 9]) None None None None true false = Ok outputs
    /\ length outputs = 4
    /\ outputs !! 2 = Some (@VScores demo_torch used)
    /\ outputs !! 3 = Some (@VScores demo_torch cross_used).
Proof.
  eexists.
  assert (Hrun : T5Block_forward (torch := demo_torch)
                   (demo_block true true (Some demo_table)) [5; 6] None None
                   (Some [7; 8; 9]) None None None None true false = Ok _)
    by (vm_compute; reflexivity).
  destruct (block_output_positions (torch := demo_torch)
              (demo_block true true (Some demo_table)) [5; 6] None None
              (Some [7; 8; 9]) None None None None true false _ Hrun)
    as (_ & _ & Hself & _ & Hcross).
  destruct (Hself eq_refl) as (used & Hused & _).
  destruct (Hcross eq_refl ltac:(discriminate)) as (cross & Hc & Hlen & Hcb).
  injection Hc as <-.
  destruct (Hcb eq_refl eq_refl) as (cross_used & Hcu & _).
  exists used, cross_used. split; [exact Hrun|]. split; [exact Hlen|].
  split; [exact Hused | exact Hcu].
Defined.

End StackFacts.

(** ** The relative position bias *)

Module BiasFacts.
Import Py Modules Forward ForwardViews ForwardFacts.
Local Open Scope py_scope.

Lemma bias_entry_offset (self : T5Attention) (emb : Embedding) (head i j i' j' : nat) :
  (Z.of_nat j - Z.of_nat i = Z.of_nat j' - Z.of_nat i')%Z
  \/ (is_decoder self = true /\ i <= j /\ i' <= j') ->
  bias_entry self emb head i j = bias_entry self emb head i' j'.
Proof.
  unfold bias_entry. intros [E | (Hd & Hij & Hij')].
  - now rewrite E.
  - rewrite Hd. cbn [negb]. rewrite !BucketFacts.bucket_unfold.
    unfold Bucket.half_base, Bucket.distance_of. cbn [andb].
    replace (Z.max (- (Z.of_nat j - Z.of_nat i)) 0) with 0%Z by lia.
    replace (Z.max (- (Z.of_nat j' - Z.of_nat i')) 0) with 0%Z by lia.
    reflexivity.
Qed.

Lemma entry_bias_tensor (self : T5Attention) (emb : Embedding) (qlen klen : nat)
    (head i j : nat) :
  head < embedding_dim emb -> i < qlen -> j < klen ->
  entry (bias_tensor self emb qlen klen) head i j = Some (bias_entry self emb head i j).
Proof.
  intros Hh Hi Hj.
  destruct (bias_tensor_entry self emb qlen klen head i j Hh Hi Hj)
    as (matrix & row & Em & Er & Ee).
  unfold entry. rewrite Em. cbn. rewrite Er. cbn. exact Ee.
Qed.

(** X18. The bias [compute_bias] returns has one [(qlen, klen)] matrix per
    head, and its entry at query [i] and key [j] depends on the offset [j - i]
    only; in a decoder, all entries at keys that do not precede the query are
    equal. *)
Theorem compute_bias_shift_invariant (self : T5Attention) (emb : Embedding)
    (qlen klen : nat) :
  bias_table_ok self emb ->
  exists t,
    compute_bias self qlen klen = Ok t
    /\ has_shape (embedding_dim emb) qlen klen t
    /\ (forall head i j i' j',
          head < embedding_dim emb -> i < qlen -> j < klen -> i' < qlen -> j' < klen ->
          (Z.of_nat j - Z.of_nat i = Z.of_nat j' - Z.of_nat i')%Z
          \/ (is_decoder self = true /\ i <= j /\ i' <= j') ->
          is_Some (entry t head i j) /\ entry t head i j = entry t head i' j').
Proof.
  intros Hok. exists (bias_tensor self emb qlen klen).
  split; [now apply compute_bias_ok|]. split; [apply bias_tensor_shape|].
  intros head i j i' j' Hh Hi Hj Hi' Hj' Hoff.
  rewrite !entry_bias_tensor by assumption. split; [eauto|].
  f_equal. now apply bias_entry_offset.
Qed.

Lemma last_query_row_bias_tensor (self : T5Attention) (emb : Embedding)
    (qlen klen : nat) :
  0 < qlen ->
  last_query_row (bias_tensor self emb qlen klen)
  = (fun head => [(fun j => bias_entry self emb head (qlen - 1) j) <$> seq 0 klen])
      <$> seq 0 (embedding_dim emb).
Proof.
  intros Hq. unfold last_query_row, bias_tensor. rewrite <- list_fmap_compose.
  apply list_fmap_ext. intros _ head _. unfold compose.
  rewrite length_fmap, length_seq, <- fmap_drop, drop_seq.
  replace (qlen - (qlen - 1)) with 1 by lia. reflexivity.
Qed.

(** X19. With a cache in use, the position bias an attention computes for
    itself is one row per head, the row of the last query position
    [real_qlen - 1] of the bias over the full lengths, to which the mask is
    added if one is given; it is the last query row of what the same call
    computes without cache and mask. *)
Theorem cached_bias_is_last_row (self : T5Attention) (emb : Embedding)
    (real_qlen klen : nat) (mask : option Mask) :
  bias_table_ok self emb -> 0 < real_qlen ->
  let last_row :=
    (fun head => [(fun j => bias_entry self emb head (real_qlen - 1) j) <$> seq 0 klen])
      <$> seq 0 (embedding_dim emb) in
  fresh_position_bias self real_qlen klen true mask
  = match mask with
    | Some mask => add_mask last_row mask
    | None => Ok last_row
    end
  /\ exists full,
       fresh_position_bias self real_qlen klen false None = Ok full
       /\ has_shape (embedding_dim emb) real_qlen klen full
       /\ last_row = last_query_row full.
Proof.
  intros Hok Hq last_row. unfold fresh_position_bias.
  rewrite (compute_bias_ok self emb real_qlen klen Hok). cbn [bind].
  rewrite (last_query_row_bias_tensor self emb real_qlen klen Hq). fold last_row.
  split; [reflexivity|].
  exists (bias_tensor self emb real_qlen klen). split; [reflexivity|].
  split; [apply bias_tensor_shape|].
  symmetry. now apply last_query_row_bias_tensor.
Qed.

Lemma compute_bias_shift_invariant_witness :
  exists t,
    compute_bias (demo_attention true true (Some demo_table)) 3 3 = Ok t
    /\ entry t 0 0 1 = entry t 0 1 2
    /\ entry t 0 0 1 = entry t 0 0 2.
Proof.
  destruct (compute_bias_shift_invariant (demo_attention true true (Some demo_table))
              demo_table 3 3 (demo_table_ok true)) as (t & Hrun & _ & Hinv).
  exists t. split; [exact Hrun|]. split.
  - refine (proj2 (Hinv 0 0 1 1 2 _ _ _ _ _ (or_introl eq_refl))); cbn; lia.
  - refine (proj2 (Hinv 0 0 1 0 2 _ _ _ _ _ (or_intror (conj eq_refl _)))); cbn; lia.
Defined.

Lemma cached_bias_is_last_row_witness :
  fresh_position_bias (demo_attention true true (Some demo_table)) 3 3 true None
  = Ok [[(fun j => bias_entry (demo_attention true true (Some demo_table)) demo_table
                     0 2 j) <$> seq 0 3]].
Proof.
  exact (proj1 (cached_bias_is_last_row (demo_attention true true (Some demo_table))
                  demo_table 3 3 None (demo_table_ok true) ltac:(lia))).
Defined.

End BiasFacts.

(** ** Buckets by direction *)

Module BucketDirectionFacts.
Import Py Bucket BucketFacts.
Local Open Scope Z_scope.

Lemma max_exact_small (bidirectional : bool) (num_buckets : Z) :
  num_buckets <= 2 ^ 16 -> max_exact_of bidirectional num_buckets <= 2 ^ 16.
Proof.
  intros Hn. unfold max_exact_of, effective_buckets.
  assert (H2 : num_buckets / 2 <= 2 ^ 16) by (apply Z.div_le_upper_bound; lia).
  destruct bidirectional; apply Z.div_le_upper_bound; lia.
Qed.

(** X20. Directions of [_relative_position_bucket], for parameters with
    which it returns and on relative positions: in bidirectional mode the
    bucket of a positive offset is the bucket of the opposite offset plus
    [num_buckets / 2]; in unidirectional mode every offset that is not
    negative falls in bucket 0; and offset 0 is in bucket 0 in both modes. *)
Theorem bucket_directions (rel num_buckets max_distance : Z) :
  offset_in_range rel ->
  (parameters_ok true num_buckets max_distance -> 0 < rel ->
   exists mirrored,
     _relative_position_bucket (- rel) true num_buckets max_distance = Ok mirrored
     /\ _relative_position_bucket rel true num_buckets max_distance
        = Ok (num_buckets / 2 + mirrored))
  /\ (parameters_ok false num_buckets max_distance -> 0 <= rel ->
      _relative_position_bucket rel false num_buckets max_distance = Ok 0)
  /\ (forall bidirectional,
        parameters_ok bidirectional num_buckets max_distance ->
        _relative_position_bucket 0 bidirectional num_buckets max_distance = Ok 0).
Proof.
  intros Hrel. split; [|split].
  - intros Hok Hr. eexists.
    split; [apply (parameters_return _ _ _ _ Hok); unfold offset_in_range in *; lia|].
    rewrite (parameters_return _ _ _ _ Hok Hrel). f_equal.
    rewrite !bucket_unfold.
    unfold half_base, distance_of, effective_buckets. cbn [andb].
    destruct (Z.ltb_spec 0 rel), (Z.ltb_spec 0 (- rel)); try lia.
    rewrite Z.abs_opp. lia.
  - intros Hok Hr. rewrite (parameters_return _ _ _ _ Hok Hrel). f_equal.
    destruct Hok as (Hme & _). rewrite bucket_unfold.
    unfold half_base, distance_of. cbn [andb].
    replace (Z.max (- rel) 0) with 0 by lia.
    destruct (Z.ltb_spec 0 (max_exact_of false num_buckets)); [reflexivity | lia].
  - intros bidirectional Hok.
    rewrite (parameters_return _ _ _ _ Hok) by (unfold offset_in_range; lia). f_equal.
    destruct Hok as (Hme & _). rewrite bucket_unfold.
    assert (Hb : half_base bidirectional num_buckets 0 = 0).
    { unfold half_base. change (0 <? 0) with false. now rewrite andb_false_r. }
    assert (Hd : distance_of bidirectional 0 = 0)
      by (unfold distance_of; now destruct bidirectional).
    rewrite Hb, Hd.
    destruct (Z.ltb_spec 0 (max_exact_of bidirectional num_buckets)); [reflexivity | lia].
Qed.

(** X21. In the exact window (distance below [max_exact]; offsets not
    positive in unidirectional mode), for parameters with which the function
    returns, the bucket is the distance itself, plus [num_buckets / 2] for a
    positive offset in bidirectional mode; hence distinct offsets of the
    window get distinct buckets. *)
Theorem bucket_exact_injective (bidirectional : bool) (num_buckets max_distance r1 r2 : Z) :
  parameters_ok bidirectional num_buckets max_distance ->
  Z.abs r1 < max_exact_of bidirectional num_buckets ->
  Z.abs r2 < max_exact_of bidirectional num_buckets ->
  (bidirectional = false -> r1 <= 0 /\ r2 <= 0) ->
  exists bucket1 bucket2,
    _relative_position_bucket r1 bidirectional num_buckets max_distance = Ok bucket1
    /\ _relative_position_bucket r2 bidirectional num_buckets max_distance = Ok bucket2
    /\ bucket1 = Z.abs r1 + (if bidirectional && (0 <? r1) then num_buckets / 2 else 0)
    /\ (bucket1 = bucket2 -> r1 = r2).
Proof.
  intros Hok H1 H2 Huni. pose proof Hok as (Hme1 & _ & Hnb & _).
  pose proof (max_exact_small bidirectional num_buckets Hnb) as Hsmall.
  assert (Hr1 : offset_in_range r1) by (unfold offset_in_range; lia).
  assert (Hr2 : offset_in_range r2) by (unfold offset_in_range; lia).
  do 2 eexists.
  split; [exact (parameters_return _ _ _ _ Hok Hr1)|].
  split; [exact (parameters_return _ _ _ _ Hok Hr2)|].
  assert (Hb : forall r, Z.abs r < max_exact_of bidirectional num_buckets ->
                 (bidirectional = false -> r <= 0) ->
                 bucket_value r bidirectional num_buckets max_distance
                 = Z.abs r + (if bidirectional && (0 <? r) then num_buckets / 2 else 0)).
  { intros r Hr Hu. rewrite bucket_unfold.
    assert (Hd : distance_of bidirectional r = Z.abs r).
    { unfold distance_of. destruct bidirectional; [reflexivity|].
      specialize (Hu eq_refl). lia. }
    rewrite Hd. destruct (Z.ltb_spec (Z.abs r) (max_exact_of bidirectional num_buckets));
      [|lia].
    unfold half_base, effective_buckets.
    destruct bidirectional; cbn [andb]; [|lia]. destruct (0 <? r); lia. }
  assert (Hme : max_exact_of bidirectional num_buckets <= num_buckets / 2
                \/ bidirectional = false).
  { destruct bidirectional; [left | now right].
    unfold max_exact_of, effective_buckets.
    assert (0 <= num_buckets / 2).
    { unfold max_exact_of, effective_buckets in H1.
      destruct (Z.le_gt_cases 0 (num_buckets / 2)); [assumption|].
      assert (num_buckets / 2 / 2 <= 0) by (apply Z.div_le_upper_bound; lia). lia. }
    apply Z.div_le_upper_bound; lia. }
  rewrite (Hb r1 H1 (fun E => proj1 (Huni E))), (Hb r2 H2 (fun E => proj2 (Huni E))).
  split; [reflexivity|].
  destruct Hme as [Hme | ->].
  - destruct bidirectional; cbn [andb].
    + destruct (Z.ltb_spec 0 r1), (Z.ltb_spec 0 r2); lia.
    + specialize (Huni eq_refl). lia.
  - cbn [andb]. specialize (Huni eq_refl). lia.
Qed.

Lemma bucket_directions_witness :
  exists mirrored,
    _relative_position_bucket (- 5) true 32 128 = Ok mirrored
    /\ _relative_position_bucket 5 true 32 128 = Ok (32 / 2 + mirrored).
Proof.
  apply (proj1 (bucket_directions 5 32 128 ltac:(unfold offset_in_range; lia)));
    [apply default_parameters_ok | lia].
Defined.

Lemma bucket_exact_injective_witness :
  exists bucket1 bucket2,
    _relative_position_bucket 3 true 32 128 = Ok bucket1
    /\ _relative_position_bucket (-3) true 32 128 = Ok bucket2
    /\ bucket1 = Z.abs 3 + 32 / 2
    /\ (bucket1 = bucket2 -> 3 = -3).
Proof.
  exact (bucket_exact_injective true 32 128 3 (-3) (default_parameters_ok true)
           ltac:(vm_compute; reflexivity) ltac:(vm_compute; reflexivity)
           ltac:(discriminate)).
Defined.

End BucketDirectionFacts.

(** ** The full model *)

Module ModelFacts.
Import Py Modules Forward ForwardViews ShiftRight Model ForwardFacts StackFacts.
Local Open Scope py_scope.

Section WithTorch.
Context {torch : Torch} {torch_lm : TorchLM}.

Lemma last_token_idem {A : Type} (t : list A) : last_token (last_token t) = last_token t.
Proof.
  unfold last_token. rewrite length_drop.
  destruct (length t) as [|n] eqn:E; [reflexivity|].
  replace (S n - (S n - 1) - 1) with 0 by lia. reflexivity.
Qed.

Lemma no_kwargs :
  (∅ : Kwargs) !! "lm_labels" = None
  /\ bool_decide (delete "lm_labels" (∅ : Kwargs) = ∅) = true.
Proof.
  split; [apply lookup_empty|]. apply bool_decide_eq_true. apply delete_empty.
Qed.

(** X24. Keyword arguments of [VLT5.forward]: any keyword other than
    [lm_labels] fails the assertion on unexpected arguments, before anything
    is computed; [lm_labels] alone takes the place of [labels], also of a
    [labels] argument passed beside it. *)
Theorem vlt5_keyword_arguments (self : VLT5) (input_ids : option (list Z))
    (vis_inputs : option VisInputs) (attention_mask : option (list R))
    (encoder_outputs : option (list Hid * list StackValue))
    (vis_attention_mask : option (list R)) (decoder_input_ids : option (list Z))
    (decoder_attention_mask : option (list R))
    (decoder_past_key_value_states : option (list (list (list Proj))))
    (use_cache : option bool) (labels : option (list Z))
    (inputs_embeds decoder_inputs_embeds : option (list Hid))
    (head_mask : option HeadMask) (output_attentions output_hidden_states : option bool) :
  (forall (kwargs : Kwargs) key,
     key <> "lm_labels" -> is_Some (kwargs !! key) ->
     VLT5_forward self input_ids vis_inputs attention_mask encoder_outputs
       vis_attention_mask decoder_input_ids decoder_attention_mask
       decoder_past_key_value_states use_cache labels inputs_embeds
       decoder_inputs_embeds head_mask output_attentions output_hidden_states kwargs
     = Err (AssertionError "Unexpected keyword arguments: {list(kwargs.keys())}."))
  /\ (forall lm_labels,
        VLT5_forward self input_ids vis_inputs attention_mask encoder_outputs
          vis_attention_mask decoder_input_ids decoder_attention_mask
          decoder_past_key_value_states use_cache labels inputs_embeds
          decoder_inputs_embeds head_mask output_attentions output_hidden_states
          {["lm_labels" := lm_labels]}
        = VLT5_forward self input_ids vis_inputs attention_mask encoder_outputs
            vis_attention_mask decoder_input_ids decoder_attention_mask
            decoder_past_key_value_states use_cache lm_labels inputs_embeds
            decoder_inputs_embeds head_mask output_attentions output_hidden_states ∅).
Proof.
  split.
  - intros kwargs key Hkey [value Hvalue]. unfold VLT5_forward.
    rewrite bool_decide_eq_false_2; [reflexivity|].
    intros E. apply (f_equal (fun m : Kwargs => m !! key)) in E.
    rewrite lookup_delete_ne, lookup_empty, Hvalue in E by congruence. discriminate.
  - intros lm_labels. unfold VLT5_forward.
    rewrite lookup_singleton, delete_singleton.
    destruct no_kwargs as [-> ->]. reflexivity.
Qed.

(** With a cache only the last decoder position is used. *)
Lemma forward_cached_last_token (self : VLT5) input_ids vis_inputs attention_mask
    encoder_outputs vis_attention_mask decoder_input_ids decoder_attention_mask past
    use_cache labels inputs_embeds decoder_inputs_embeds head_mask output_attentions
    output_hidden_states kwargs :
  VLT5_forward self input_ids vis_inputs attention_mask encoder_outputs
    vis_attention_mask decoder_input_ids decoder_attention_mask (Some past)
    use_cache labels inputs_embeds decoder_inputs_embeds head_mask
    output_attentions output_hidden_states kwargs
  = VLT5_forward self input_ids vis_inputs attention_mask encoder_outputs
      vis_attention_mask (last_token <$> decoder_input_ids)
      decoder_attention_mask (Some past) use_cache labels inputs_embeds
      (last_token <$> decoder_inputs_embeds) head_mask output_attentions
      output_hidden_states kwargs.
Proof.
  unfold VLT5_forward.
  destruct (assert _ _) as [u|e]; [|reflexivity]. cbn [bind].
  match goal with
  | |- bind ?m _ = _ => destruct m as [eo|e]; [|reflexivity]
  end.
  cbn [bind].
  destruct (match kwargs !! "lm_labels" with Some lm => lm | None => labels end)
    as [l|], decoder_input_ids as [ids|], decoder_inputs_embeds as [emb|];
    cbn [fmap option_fmap option_map bind is_Some_bool negb assert];
    rewrite ?last_token_idem; reflexivity.
Qed.

(** X25. Decoder inputs of [VLT5.forward]: when labels are given and no
    decoder input, the decoder input ids are the labels shifted right; with
    cached key/value states only the last position of the decoder inputs is
    used; and labels together with cached states are an error. *)
Theorem vlt5_decoder_inputs (self : VLT5) (input_ids : option (list Z))
    (vis_inputs : option VisInputs) (attention_mask : option (list R))
    (encoder_outputs : option (list Hid * list StackValue))
    (vis_attention_mask : option (list R)) (decoder_attention_mask : option (list R))
    (use_cache : option bool) (inputs_embeds : option (list Hid))
    (head_mask : option HeadMask) (output_attentions output_hidden_states : option bool) :
  (forall labels shifted,
     shift_right_row (vlt5_tokens self) labels = Ok shifted ->
     VLT5_forward self input_ids vis_inputs attention_mask encoder_outputs
       vis_attention_mask None decoder_attention_mask None use_cache (Some labels)
       inputs_embeds None head_mask output_attentions output_hidden_states ∅
     = VLT5_forward self input_ids vis_inputs attention_mask encoder_outputs
         vis_attention_mask (Some shifted) decoder_attention_mask None use_cache
         (Some labels) inputs_embeds None head_mask output_attentions
         output_hidden_states ∅)
  /\ (forall labels decoder_input_ids decoder_inputs_embeds past kwargs,
        VLT5_forward self input_ids vis_inputs attention_mask encoder_outputs
          vis_attention_mask decoder_input_ids decoder_attention_mask (Some past)
          use_cache labels inputs_embeds decoder_inputs_embeds head_mask
          output_attentions output_hidden_states kwargs
        = VLT5_forward self input_ids vis_inputs attention_mask encoder_outputs
            vis_attention_mask (last_token <$> decoder_input_ids)
            decoder_attention_mask (Some past) use_cache labels inputs_embeds
            (last_token <$> decoder_inputs_embeds) head_mask output_attentions
            output_hidden_states kwargs)
  /\ (forall labels decoder_input_ids decoder_inputs_embeds past,
        exists e,
          VLT5_forward self input_ids vis_inputs attention_mask encoder_outputs
            vis_attention_mask decoder_input_ids decoder_attention_mask (Some past)
            use_cache (Some labels) inputs_embeds decoder_inputs_embeds head_mask
            output_attentions output_hidden_states ∅
          = Err e).
Proof.
  split; [|split].
  - intros labels shifted Hshift. unfold VLT5_forward.
    destruct no_kwargs as [-> ->]. cbn [assert bind].
    match goal with
    | |- bind ?m _ = _ => destruct m as [eo|e]; [|reflexivity]
    end.
    cbn [bind]. rewrite Hshift. reflexivity.
  - intros labels decoder_input_ids decoder_inputs_embeds past kwargs.
    apply forward_cached_last_token.
  - intros labels decoder_input_ids decoder_inputs_embeds past.
    match goal with
    | |- exists e, ?run = Err e => destruct run as [outputs|e] eqn:E; [|now exists e]
    end.
    unfold VLT5_forward in E. destruct no_kwargs as [Hk1 Hk2]. rewrite Hk1, Hk2 in E.
    apply bind_ok in E as (? & _ & E).
    apply bind_ok in E as (? & _ & E).
    apply bind_ok in E as (? & _ & E).
    apply bind_ok in E as (? & E & _). discriminate.
Qed.

(** What a call that returns has returned. *)
Lemma vlt5_forward_outputs (self : VLT5) (input_ids : option (list Z))
    (vis_inputs : option VisInputs) (attention_mask : option (list R))
    (encoder_outputs : option (list Hid * list StackValue))
    (vis_attention_mask : option (list R)) (decoder_input_ids : option (list Z))
    (decoder_attention_mask : option (list R))
    (decoder_past_key_value_states : option (list (list (list Proj))))
    (use_cache : option bool) (labels : option (list Z))
    (inputs_embeds decoder_inputs_embeds : option (list Hid))
    (head_mask : option HeadMask) (output_attentions output_hidden_states : option bool)
    (outputs : list ModelValue) :
  let use_cache' := default (vlt5_use_cache self) use_cache in
  let output_attentions' :=
    default (config_output_attentions (config (decoder self))) output_attentions in
  let output_hidden_states' :=
    default (config_output_hidden_states (config (decoder self))) output_hidden_states in
  VLT5_forward self input_ids vis_inputs attention_mask encoder_outputs
    vis_attention_mask decoder_input_ids decoder_attention_mask
    decoder_past_key_value_states use_cache labels inputs_embeds
    decoder_inputs_embeds head_mask output_attentions output_hidden_states ∅
  = Ok outputs ->
  exists loss lm_logits encoder_outputs' presents all_hidden_states all_attentions,
    outputs
    = (if is_Some_bool labels then [MLoss loss] else [])
        ++ [MLogits lm_logits]
        ++ (if use_cache'
            then [MPast (encoder_tuple encoder_outputs') (SPresents presents)] else [])
        ++ (if output_hidden_states'
            then [MStack (SAllHidden all_hidden_states)] else [])
        ++ (if output_attentions'
            then [MStack (SAllAttentions all_attentions)] else [])
        ++ (MStack <$> encoder_tuple encoder_outputs')
    /\ (forall given, encoder_outputs = Some given -> encoder_outputs' = given)
    /\ length presents = layers_run (decoder self) decoder_past_key_value_states
    /\ (use_cache' = true -> stack_is_decoder (decoder self) = true).
Proof.
  intros use_cache' output_attentions' output_hidden_states' Hrun.
  unfold VLT5_forward in Hrun. destruct no_kwargs as [Hk1 Hk2]. rewrite Hk1, Hk2 in Hrun.
  fold use_cache' in Hrun.
  apply bind_ok in Hrun as (? & _ & Hrun).
  apply bind_ok in Hrun as (eo & Heo & Hrun).
  apply bind_ok in Hrun as (? & _ & Hrun).
  apply bind_ok in Hrun as (? & _ & Hrun).
  apply bind_ok in Hrun as (? & _ & Hrun).
  apply bind_ok in Hrun as (? & _ & Hrun).
  apply bind_ok in Hrun as (decoder_outputs & Hdec & Hrun).
  apply stack_forward_outputs in Hdec
    as (hidden & presents & all_hidden & all_att & -> & Hp & _ & _ & Hd).
  cbn [default] in Hd. fold output_attentions' output_hidden_states' in Hrun.
  cbn [default] in Hrun.
  apply bind_ok in Hrun as (decoder_outputs' & Hpast & Hrun).
  assert (Hpast' :
            decoder_outputs'
            = [MStack (SHidden hidden)]
                ++ (if use_cache'
                    then [MPast (encoder_tuple eo) (SPresents presents)] else [])
                ++ (if output_hidden_states'
                    then [MStack (SAllHidden all_hidden)] else [])
                ++ (if output_attentions'
                    then [MStack (SAllAttentions all_att)] else [])).
  { destruct use_cache'.
    - cbn in Hpast. injection Hpast as <-.
      destruct output_hidden_states', output_attentions'; reflexivity.
    - injection Hpast as <-.
      destruct output_hidden_states', output_attentions'; reflexivity. }
  subst decoder_outputs'. cbn [app item lookup list_lookup lift bind drop] in Hrun.
  apply bind_ok in Hrun as (decoder_outputs'' & Hloss & Hrun). injection Hrun as <-.
  assert (Heo' : forall given, encoder_outputs = Some given -> eo = given).
  { intros given ->. now injection Heo as ->. }
  destruct labels as [l|]; cbn [is_Some_bool].
  - apply bind_ok in Hloss as (loss & _ & Hloss). injection Hloss as <-.
    exists loss. do 5 eexists. split; [|split; [exact Heo'|split; [exact Hp|exact Hd]]].
    cbn [app]. rewrite drop_0, <- !app_assoc. reflexivity.
  - injection Hloss as <-.
    exists 0%R. do 5 eexists. split; [|split; [exact Heo'|split; [exact Hp|exact Hd]]].
    cbn [app]. rewrite drop_0, <- !app_assoc. reflexivity.
Qed.

(** X26. The tuple [VLT5.forward] returns: the loss if labels were given, the
    logits, then, if [use_cache], the pair of the encoder outputs and the
    present key/value states of the decoder, then the hidden states and the
    attentions of the decoder where asked for, and last the encoder outputs.
    Encoder outputs passed by the caller are returned as they are, there is
    one present state per decoder layer run, and [use_cache] requires the
    decoder stack to be a decoder. *)
Theorem vlt5_output_layout (self : VLT5) (input_ids : option (list Z))
    (vis_inputs : option VisInputs) (attention_mask : option (list R))
    (encoder_outputs : option (list Hid * list StackValue))
    (vis_attention_mask : option (list R)) (decoder_input_ids : option (list Z))
    (decoder_attention_mask : option (list R))
    (decoder_past_key_value_states : option (list (list (list Proj))))
    (use_cache : option bool) (labels : option (list Z))
    (inputs_embeds decoder_inputs_embeds : option (list Hid))
    (head_mask : option HeadMask) (output_attentions output_hidden_states : option bool)
    (outputs : list ModelValue) :
  let use_cache' := default (vlt5_use_cache self) use_cache in
  let output_attentions' :=
    default (config_output_attentions (config (decoder self))) output_attentions in
  let output_hidden_states' :=
    default (config_output_hidden_states (config (decoder self))) output_hidden_states in
  VLT5_forward self input_ids vis_inputs attention_mask encoder_outputs
    vis_attention_mask decoder_input_ids decoder_attention_mask
    decoder_past_key_value_states use_cache labels inputs_embeds
    decoder_inputs_embeds head_mask output_attentions output_hidden_states ∅
  = Ok outputs ->
  exists loss lm_logits encoder_outputs' presents all_hidden_states all_attentions,
    outputs
    = (if is_Some_bool labels then [MLoss loss] else [])
        ++ [MLogits lm_logits]
        ++ (if use_cache'
            then [MPast (encoder_tuple encoder_outputs') (SPresents presents)] else [])
        ++ (if output_hidden_states'
            then [MStack (SAllHidden all_hidden_states)] else [])
        ++ (if output_attentions'
            then [MStack (SAllAttentions all_attentions)] else [])
        ++ (MStack <$> encoder_tuple encoder_outputs')
    /\ (forall given, encoder_outputs = Some given -> encoder_outputs' = given)
    /\ length presents = layers_run (decoder self) decoder_past_key_value_states
    /\ (use_cache' = true -> stack_is_decoder (decoder self) = true).
Proof.
  exact (vlt5_forward_outputs self input_ids vis_inputs attention_mask encoder_outputs
           vis_attention_mask decoder_input_ids decoder_attention_mask
           decoder_past_key_value_states use_cache labels inputs_embeds
           decoder_inputs_embeds head_mask output_attentions output_hidden_states
           outputs).
Qed.

(** X27. One step of generation.  [prepare_inputs_for_generation] fails its
    assertion without [past]; otherwise the call of the model on the arguments
    it returns does not run the encoder (the outcome is the same with any
    encoder), depends, when there is a decoder cache, on the last token of
    [input_ids] only, raises an attribute error if no attention mask was
    passed, and ends the tuple it returns with the encoder outputs it was
    given. *)
Theorem generation_step (self : VLT5) (input_ids : list Z)
    (encoder_outputs : list Hid * list StackValue)
    (decoder_past : option (list (list (list Proj))))
    (attention_mask : option (list R)) (use_cache : option bool) :
  prepare_inputs_for_generation input_ids None attention_mask use_cache
  = Err (AssertionError "past has to be defined for encoder_outputs")
  /\ exists model_inputs,
       prepare_inputs_for_generation input_ids (Some (encoder_outputs, decoder_past))
         attention_mask use_cache = Ok model_inputs
       /\ (forall encoder',
             VLT5_call (with_encoder self encoder') model_inputs
             = VLT5_call self model_inputs)
       /\ (decoder_past <> None ->
           forall input_ids' model_inputs',
             last_token input_ids' = last_token input_ids ->
             prepare_inputs_for_generation input_ids'
               (Some (encoder_outputs, decoder_past)) attention_mask use_cache
             = Ok model_inputs' ->
             VLT5_call self model_inputs' = VLT5_call self model_inputs)
       /\ (attention_mask = None -> VLT5_call self model_inputs = Err AttributeError)
       /\ (forall outputs,
             VLT5_call self model_inputs = Ok outputs ->
             exists front,
               outputs = front ++ (MStack <$> encoder_tuple encoder_outputs)).
Proof.
  split; [reflexivity|]. eexists. split; [reflexivity|].
  split; [reflexivity|]. split; [|split].
  - intros Hpast input_ids' model_inputs' Hlast [= <-].
    destruct decoder_past as [past|]; [|contradiction].
    unfold VLT5_call.
    cbn [gen_attention_mask gen_encoder_outputs gen_decoder_input_ids
         gen_decoder_past_key_value_states gen_use_cache].
    rewrite (forward_cached_last_token self None None attention_mask
               (Some encoder_outputs) None (Some input_ids')).
    rewrite (forward_cached_last_token self None None attention_mask
               (Some encoder_outputs) None (Some input_ids)).
    cbn [fmap option_fmap option_map]. now rewrite Hlast.
  - intros ->. unfold VLT5_call, VLT5_forward.
    destruct no_kwargs as [-> ->].
    cbn [gen_attention_mask gen_encoder_outputs gen_decoder_input_ids
         gen_decoder_past_key_value_states gen_use_cache assert bind is_Some_bool negb].
    destruct decoder_past; reflexivity.
  - intros outputs Hrun. unfold VLT5_call in Hrun.
    apply vlt5_forward_outputs in Hrun
      as (loss & lm_logits & eo & presents & ah & aa & -> & Heo & _).
    cbn [gen_encoder_outputs] in Heo. rewrite (Heo encoder_outputs eq_refl).
    eexists. rewrite !app_assoc. reflexivity.
Qed.

End WithTorch.

Lemma vlt5_keyword_arguments_witness :
  VLT5_forward (torch_lm := demo_torch_lm) demo_vlt5 (Some [7; 8]%Z) None
    (Some [1; 1]%R) None None None None None None None None None None None None
    {["labels_" := Some [5; 6]%Z]}
  = Err (AssertionError "Unexpected keyword arguments: {list(kwargs.keys())}.").
Proof.
  apply (proj1 (vlt5_keyword_arguments (torch_lm := demo_torch_lm) demo_vlt5
                  (Some [7; 8]%Z) None (Some [1; 1]%R) None None None None None None
                  None None None None None None)
           {["labels_" := Some [5; 6]%Z]} "labels_").
  - discriminate.
  - rewrite lookup_singleton. eauto.
Defined.

Lemma vlt5_decoder_inputs_witness :
  VLT5_forward (torch_lm := demo_torch_lm) demo_vlt5 (Some [7; 8]%Z) None
    (Some [1; 1]%R) None None None None None None (Some [5; -100; 7]%Z) None None None
    None None ∅
  = VLT5_forward (torch_lm := demo_torch_lm) demo_vlt5 (Some [7; 8]%Z) None
      (Some [1; 1]%R) None None (Some [0; 5; 0]%Z) None None None
      (Some [5; -100; 7]%Z) None None None None None ∅.
Proof.
  exact (proj1 (vlt5_decoder_inputs (torch_lm := demo_torch_lm) demo_vlt5
                  (Some [7; 8]%Z) None (Some [1; 1]%R) None None None None None None
                  None None)
           [5; -100; 7]%Z [0; 5; 0]%Z eq_refl).
Defined.

Lemma vlt5_output_layout_witness :
  exists outputs lm_logits (presents : list (@Value demo_torch)),
    VLT5_forward (torch_lm := demo_torch_lm) demo_vlt5 (Some [7; 8]%Z) None
      (Some [1; 1]%R) (Some demo_encoder_outputs) None (Some [0; 5]%Z) None None None None
      None None None None None ∅ = Ok outputs
    /\ outputs
       = [MLogits lm_logits; MPast (encoder_tuple demo_encoder_outputs) (SPresents presents)]
           ++ (MStack <$> encoder_tuple demo_encoder_outputs)
    /\ length presents = 1.
Proof.
  eexists.
  assert (Hrun : VLT5_forward (torch_lm := demo_torch_lm) demo_vlt5 (Some [7; 8]%Z) None
                   (Some [1; 1]%R) (Some demo_encoder_outputs) None (Some [0; 5]%Z) None None
                   None None None None None None None ∅ = Ok _)
    by (vm_compute; reflexivity).
  destruct (vlt5_output_layout (torch_lm := demo_torch_lm) demo_vlt5 (Some [7; 8]%Z)
              None (Some [1; 1]%R) (Some demo_encoder_outputs) None (Some [0; 5]%Z) None None
              None None None None None None None _ Hrun)
    as (loss & lm_logits & eo & presents & ah & aa & Hout & Hgiven & Hlen & _).
  rewrite (Hgiven _ eq_refl) in Hout.
  exists lm_logits, presents. split; [exact Hrun|].
  split; [exact Hout | exact Hlen].
Defined.

(** Without encoder outputs the model runs its encoder: as [__init__] builds
    it, with a layer, the call ends at the attribute access; with the first
    block of the encoder wrapped it returns. *)
Example vlt5_runs_encoder :
  VLT5_forward (torch_lm := demo_torch_lm) demo_vlt5 (Some [7; 8]%Z) None
    (Some [1; 1]%R) None None (Some [0; 5]%Z) None None None None None None None
    None None ∅ = Err AttributeError
  /\ Py.is_ok
       (VLT5_forward (torch_lm := demo_torch_lm) demo_wrapped_vlt5 (Some [7; 8]%Z) None
          (Some [1; 1]%R) None None (Some [0; 5]%Z) None None None None None None None
          None None ∅) = true.
Proof. split; vm_compute; reflexivity. Qed.

Lemma generation_step_witness :
  exists model_inputs,
    prepare_inputs_for_generation (torch := demo_torch) [0; 5]%Z
      (Some (([7; 8], []), Some [[[1]; [2]; [3]; [4]]])) None None = Ok model_inputs
    /\ VLT5_call (torch_lm := demo_torch_lm) demo_vlt5 model_inputs = Err AttributeError.
Proof.
  destruct (generation_step (torch_lm := demo_torch_lm) demo_vlt5 [0; 5]%Z ([7; 8], [])
              (Some [[[1]; [2]; [3]; [4]]]) None None)
    as (_ & model_inputs & Hprep & _ & _ & Hmask & _).
  exists model_inputs. split; [exact Hprep | exact (Hmask eq_refl)].
Defined.

End ModelFacts.

(** ** Preparing generation *)

Module GenerateFacts.
Import Py Modules Forward ForwardViews ShiftRight Model Generate ForwardFacts.
Local Open Scope py_scope.
Local Open Scope Z_scope.

Lemma Rltb_true (x y : R) : (x < y)%R -> Rltb x y = true.
Proof. intros H. unfold Rltb. destruct (Rlt_dec x y); [reflexivity | contradiction]. Qed.

Lemma Rleb_true (x y : R) : (x <= y)%R -> Rleb x y = true.
Proof. intros H. unfold Rleb. destruct (Rle_dec x y); [reflexivity | contradiction]. Qed.

(** Arguments that pass every assertion. *)
Lemma check_arguments_ok (r : Resolved) (input_ids : option LongTensor) :
  0 < max_length r -> 0 <= min_length r -> 0 < num_beams r ->
  (0 < temperature r)%R -> 0 <= top_k r -> (0 <= top_p r <= 1)%R ->
  (1 <= repetition_penalty r)%R ->
  is_Some_bool input_ids || int_nonneg (bos_token_id r) = true ->
  none_or_nonneg (pad_token_id r) = true -> none_or_nonneg (eos_token_id r) = true ->
  (0 < length_penalty r)%R -> 0 <= no_repeat_ngram_size r ->
  0 < num_return_sequences r ->
  bad_words_ids r <> Some [] ->
  check_arguments r input_ids = Ok tt.
Proof.
  intros H1 H2 H3 H4 H5 [H6 H6'] H7 H8 H9 H10 H11 H12 H13 H14. unfold check_arguments.
  rewrite (proj2 (Z.ltb_lt _ _) H1), (proj2 (Z.leb_le _ _) H2), (proj2 (Z.ltb_lt _ _) H3),
    (Rltb_true _ _ H4), (proj2 (Z.leb_le _ _) H5), (Rleb_true _ _ H6),
    (Rleb_true _ _ H6'), (Rleb_true _ _ H7), H8, H9, H10, (Rltb_true _ _ H11),
    (proj2 (Z.leb_le _ _) H12), (proj2 (Z.ltb_lt _ _) H13).
  cbn [assert bind andb].
  destruct (bad_words_ids r) as [[|w ws]|]; [contradiction | reflexivity | reflexivity].
Qed.

Lemma check_arguments_positive (r : Resolved) (input_ids : option LongTensor) :
  check_arguments r input_ids = Ok tt ->
  0 < num_beams r /\ 0 < num_return_sequences r.
Proof.
  unfold check_arguments. intros H.
  apply bind_ok in H as (? & _ & H). apply bind_ok in H as (? & _ & H).
  apply bind_ok in H as (? & Hb & H). apply assert_ok in Hb.
  do 9 (apply bind_ok in H as (? & _ & H)).
  apply bind_ok in H as (? & Hn & H). apply assert_ok in Hn. lia.
Qed.

Lemma expand_batch_1 {A : Type} (t : list A) : expand_batch 1 t = t.
Proof.
  unfold expand_batch. induction t as [|x t IH]; [reflexivity|].
  cbn. now rewrite IH.
Qed.

Lemma expand_batch_length {A : Type} (k : Z) (t : list A) :
  length (expand_batch k t) = (length t * Z.to_nat k)%nat.
Proof.
  unfold expand_batch. induction t as [|x t IH]; [reflexivity|].
  cbn [flat_map length]. rewrite length_app, length_replicate, IH. lia.
Qed.

Lemma mapR_length {A B : Type} (f : A -> Result B) (l : list A) (r : list B) :
  mapR f l = Ok r -> length r = length l.
Proof.
  revert r. induction l as [|x l IH]; intros r H; cbn [mapR] in H.
  - now injection H as <-.
  - apply bind_ok in H as (y & _ & H). apply bind_ok in H as (ys & Hys & H).
    injection H as <-. cbn. now rewrite (IH ys Hys).
Qed.

Section WithTorch.
Context {torch : Torch}.
Context {Sequences ModelKwargs : Type}.
Context (no_beam : VLT5 -> SearchArgs -> ModelKwargs -> Result Sequences).
Context (beam : VLT5 -> SearchArgs -> BeamArgs -> ModelKwargs -> Result Sequences).

Lemma default_attention_mask_rows (pad : option Z) (input_ids : LongTensor) :
  length (rows (default_attention_mask pad input_ids)) = length (rows input_ids)
  /\ last_dim (default_attention_mask pad input_ids) = last_dim input_ids.
Proof.
  unfold default_attention_mask.
  destruct pad as [p|]; [destruct (existsb _ _)|]; cbn [rows last_dim];
    now rewrite length_fmap.
Qed.

Lemma encode_batch_length (self : VLT5) (input_ids : LongTensor) (pad : option Z)
    vis_inputs hidden :
  encode_batch self input_ids (default_attention_mask pad input_ids) vis_inputs
  = Ok hidden ->
  length hidden = length (rows input_ids).
Proof.
  unfold encode_batch. intros H. apply mapR_length in H. rewrite H, length_zip_with.
  destruct (default_attention_mask_rows pad input_ids) as [-> _]. lia.
Qed.

(** X28. Argument checks of [generate]: a [max_length] that is not positive
    fails the first assertion; greedy decoding with one beam and a
    [num_return_sequences] other than 1, or with several beams and fewer beams
    than sequences to return, fails its assertion; and an encoder-decoder
    configuration with neither [decoder_start_token_id] nor [bos_token_id]
    fails its assertion. *)
Theorem generate_argument_checks (self : VLT5) (config : GenerationConfig)
    (input_ids : option LongTensor) (vis_inputs : option VisInputs)
    (args : GenerateArgs) (model_specific_kwargs : ModelKwargs) :
  let r := resolve config args in
  (max_length r <= 0 ->
   generate no_beam beam self config input_ids vis_inputs args model_specific_kwargs
   = Err (AssertionError "`max_length` should be a strictly positive integer."))
  /\ (check_arguments r input_ids = Ok tt -> input_ids <> None ->
      do_sample r = false -> num_beams r = 1 -> num_return_sequences r <> 1 ->
      generate no_beam beam self config input_ids vis_inputs args model_specific_kwargs
      = Err (AssertionError
               "Greedy decoding will always produce the same output for num_beams == 1 and num_return_sequences > 1. Please set num_return_sequences = 1"))
  /\ (check_arguments r input_ids = Ok tt -> input_ids <> None ->
      do_sample r = false -> num_beams r <> 1 ->
      num_beams r < num_return_sequences r ->
      generate no_beam beam self config input_ids vis_inputs args model_specific_kwargs
      = Err (AssertionError
               "Greedy beam search decoding cannot return more sequences than it has beams. Please set num_beams >= num_return_sequences"))
  /\ (check_arguments r input_ids = Ok tt -> input_ids <> None ->
      check_greedy r = Ok tt -> config_is_encoder_decoder config = true ->
      decoder_start_token_id r = None -> bos_token_id r = None ->
      generate no_beam beam self config input_ids vis_inputs args model_specific_kwargs
      = Err (AssertionError
               "decoder_start_token_id or bos_token_id has to be defined for encoder-decoder generation")).
Proof.
  intros r. repeat split.
  - intros H. unfold generate, check_arguments. fold r.
    destruct (Z.ltb_spec 0 (max_length r)); [lia | reflexivity].
  - intros Hc Hin Hs Hb Hn. unfold generate. fold r. rewrite Hc.
    destruct input_ids as [ids|]; [|contradiction]. cbn [bind].
    unfold check_greedy. rewrite Hs, Hb. cbn [negb].
    destruct (Z.eqb_spec (num_return_sequences r) 1); [contradiction | reflexivity].
  - intros Hc Hin Hs Hb Hn. unfold generate. fold r. rewrite Hc.
    destruct input_ids as [ids|]; [|contradiction]. cbn [bind].
    unfold check_greedy. rewrite Hs. cbn [negb].
    destruct (Z.eqb_spec (num_beams r) 1); [contradiction|].
    destruct (Z.leb_spec (num_return_sequences r) (num_beams r)); [lia | reflexivity].
  - intros Hc Hin Hg He Hd Hb. unfold generate. fold r. rewrite Hc.
    destruct input_ids as [ids|]; [|contradiction]. cbn [bind].
    rewrite Hg, He, Hd, Hb. reflexivity.
Qed.

(** The encoder has returned on a batch that is not empty: if its
    configuration has layers, its first block has the [module] attribute. *)
Lemma encode_batch_wrapped (self : VLT5) (input_ids attention_mask : LongTensor)
    vis_inputs hidden :
  rows input_ids <> [] -> rows attention_mask <> [] ->
  encode_batch self input_ids attention_mask vis_inputs = Ok hidden ->
  (0 < num_layers (config (encoder self)))%nat ->
  exists first others,
    block (encoder self) = first :: others /\ wrapped first = true.
Proof.
  unfold encode_batch. intros Hrows Hmask Henc.
  destruct (rows input_ids) as [|row rest]; [contradiction|].
  destruct (rows attention_mask) as [|mask_row mask_rest]; [contradiction|].
  cbn [zip zip_with mapR fst snd] in Henc.
  apply bind_ok in Henc as (first_hidden & Hfirst & _).
  apply bind_ok in Hfirst as (outputs & Hrun & _).
  exact (StackFacts.joint_encoder_forward_wrapped _ _ _ _ _ _ _ _ _ _ _ _ Hrun).
Qed.

(** X29. What [generate] hands to the search in an encoder-decoder
    configuration, for a batch that is not empty: once the checks have passed
    and the encoder has run on the prompt, the call is the beam search if
    [num_beams > 1] and the plain search otherwise, on a prompt of one start
    token per batch item and beam (and per sequence to return, when
    sampling), of length 1, with the encoder outputs and the attention mask
    repeated as many times per batch item, so that the three have the same
    number of rows.  The encoder has run only if, its configuration having
    layers, its first block has the [module] attribute, which a block put in
    the list by [__init__] does not have. *)
Theorem generate_search_call (self : VLT5) (config : GenerationConfig)
    (input_ids : LongTensor) (vis_inputs : option VisInputs) (args : GenerateArgs)
    (model_specific_kwargs : ModelKwargs) (start : Z) (hidden : list (list Hid)) :
  let r := resolve config args in
  let k := (if do_sample r then num_return_sequences r else 1) * num_beams r in
  let batch_size := Z.of_nat (length (rows input_ids)) in
  let attention_mask := default_attention_mask (pad_token_id r) input_ids in
  let search_args :=
    {| search_input_ids := full (batch_size * k) 1 start;
       search_cur_len := 1;
       search_max_length := max_length r;
       search_min_length := min_length r;
       search_do_sample := do_sample r;
       search_temperature := temperature r;
       search_top_k := top_k r;
       search_top_p := top_p r;
       search_repetition_penalty := repetition_penalty r;
       search_no_repeat_ngram_size := no_repeat_ngram_size r;
       search_bad_words_ids := bad_words_ids r;
       search_pad_token_id := or_else (pad_token_id r) (eos_token_id r);
       search_eos_token_id := eos_token_id r;
       search_batch_size :=
         if do_sample r then batch_size * num_return_sequences r else batch_size;
       search_encoder_outputs := Some (expand_batch k hidden);
       search_attention_mask := expand_rows k attention_mask;
       search_use_cache := use_cache r |} in
  rows input_ids <> [] ->
  check_arguments r (Some input_ids) = Ok tt ->
  check_greedy r = Ok tt ->
  config_is_encoder_decoder config = true ->
  or_else (decoder_start_token_id r) (bos_token_id r) = Some start ->
  encode_batch self input_ids attention_mask vis_inputs = Ok hidden ->
  generate no_beam beam self config (Some input_ids) vis_inputs args
    model_specific_kwargs
  = (if 1 <? num_beams r then
       beam self search_args
         {| beam_early_stopping := early_stopping r;
            beam_num_return_sequences := num_return_sequences r;
            beam_length_penalty := length_penalty r;
            beam_num_beams := num_beams r;
            beam_vocab_size := config_vocab_size config |}
         model_specific_kwargs
     else no_beam self search_args model_specific_kwargs)
  /\ length (rows (search_input_ids search_args))
     = length (expand_batch k hidden)
  /\ length (rows (search_attention_mask search_args))
     = length (expand_batch k hidden)
  /\ ((0 < num_layers (Forward.config (encoder self)))%nat ->
      exists first others,
        block (encoder self) = first :: others /\ wrapped first = true).
Proof.
  intros r k batch_size attention_mask search_args Hrows Hc Hg He Hstart Henc.
  destruct (check_arguments_positive r _ Hc) as [Hb Hn].
  pose proof (encode_batch_length self input_ids _ vis_inputs hidden Henc) as Hlen.
  assert (Hk : 0 < k).
  { subst k. destruct (do_sample r); lia. }
  split; [|split; [|split]]; cycle 3.
  { apply (encode_batch_wrapped self input_ids attention_mask vis_inputs hidden);
      [exact Hrows | | exact Henc].
    subst attention_mask.
    destruct (default_attention_mask_rows (pad_token_id r) input_ids) as [Hl _].
    intros E. rewrite E in Hl. destruct (rows input_ids); [contradiction|discriminate]. }
  - unfold generate. fold r. rewrite Hc. cbn [bind]. rewrite Hg. cbn [bind].
    rewrite He, Hstart. fold attention_mask. rewrite Henc. cbn [bind].
    rewrite Hlen. fold batch_size. rewrite Z.eqb_refl. cbn [assert bind fst snd].
    assert (Hmask : (if (1 <? num_return_sequences r) || (1 <? num_beams r)
                     then expand_rows
                            ((if do_sample r then num_return_sequences r else 1)
                             * num_beams r) attention_mask
                     else attention_mask)
                    = expand_rows k attention_mask).
    { fold k. destruct ((1 <? num_return_sequences r) || (1 <? num_beams r)) eqn:E;
        [reflexivity|].
      apply orb_false_elim in E as [E1 E2].
      apply Z.ltb_ge in E1, E2.
      assert (Hn1 : num_return_sequences r = 1) by lia.
      assert (Hb1 : num_beams r = 1) by lia.
      assert (k = 1) as -> by (subst k; rewrite Hn1, Hb1; now destruct (do_sample r)).
      unfold expand_rows. rewrite expand_batch_1. now destruct attention_mask. }
    rewrite Hmask.
    assert (Hfull : (if do_sample r then batch_size * num_return_sequences r
                     else batch_size) * num_beams r = batch_size * k).
    { subst k. destruct (do_sample r); lia. }
    rewrite Hfull.
    replace (num_beams r * (if do_sample r then num_return_sequences r else 1))
      with k by (subst k; lia).
    reflexivity.
  - cbn [search_input_ids search_args full rows].
    rewrite length_replicate, expand_batch_length, Hlen. subst batch_size.
    rewrite Z2Nat.inj_mul, Nat2Z.id by lia. reflexivity.
  - cbn [search_attention_mask search_args expand_rows rows].
    rewrite !expand_batch_length, Hlen. subst attention_mask.
    now destruct (default_attention_mask_rows (pad_token_id r) input_ids) as [-> _].
Qed.

End WithTorch.

Lemma demo_arguments_ok (num_beams num_return_sequences : Z) (input_ids : LongTensor) :
  0 < num_beams -> 0 < num_return_sequences ->
  check_arguments
    (resolve demo_generation_config (beam_args num_beams num_return_sequences))
    (Some input_ids) = Ok tt.
Proof.
  intros Hb Hn. apply check_arguments_ok; cbn; try lia; try lra; try reflexivity.
  discriminate.
Qed.

Lemma generate_argument_checks_witness :
  generate demo_no_beam_search demo_beam_search demo_vlt5
    demo_generation_config (Some (mkLongTensor 2 [[7; 8]])) None (beam_args 1 3) tt
  = Err (AssertionError
           "Greedy decoding will always produce the same output for num_beams == 1 and num_return_sequences > 1. Please set num_return_sequences = 1").
Proof.
  apply (proj1 (proj2 (generate_argument_checks
                         demo_no_beam_search demo_beam_search demo_vlt5
                         demo_generation_config (Some (mkLongTensor 2 [[7; 8]])) None
                         (beam_args 1 3) tt))).
  - apply demo_arguments_ok; lia.
  - discriminate.
  - reflexivity.
  - reflexivity.
  - cbn. lia.
Defined.

Lemma generate_search_call_witness :
  exists search_args,
    generate demo_no_beam_search demo_beam_search demo_wrapped_vlt5
      demo_generation_config (Some (mkLongTensor 2 [[7; 8]])) None (beam_args 2 1) tt
    = Ok search_args
    /\ search_input_ids search_args = mkLongTensor 1 [[0]; [0]]
    /\ search_attention_mask search_args = mkLongTensor 2 [[1; 1]; [1; 1]]
    /\ length <$> search_encoder_outputs search_args = Some 2%nat.
Proof.
  assert (Henc : encode_batch (torch := demo_torch) demo_wrapped_vlt5 (mkLongTensor 2 [[7; 8]])
                   (default_attention_mask (Some 0) (mkLongTensor 2 [[7; 8]])) None
                 = Ok _) by (vm_compute; reflexivity).
  destruct (generate_search_call demo_no_beam_search
              demo_beam_search demo_wrapped_vlt5 demo_generation_config
              (mkLongTensor 2 [[7; 8]]) None (beam_args 2 1) tt 0 _
              ltac:(discriminate) (demo_arguments_ok 2 1 _ ltac:(lia) ltac:(lia)) eq_refl eq_refl eq_refl
              Henc) as (Hrun & _).
  eexists. split; [exact Hrun|]. split; [reflexivity|]. split; reflexivity.
Defined.

(** On the model as [__init__] builds it the encoder does not return, and
    neither does [generate]. *)
Example generate_as_built_raises :
  generate demo_no_beam_search demo_beam_search demo_vlt5
    demo_generation_config (Some (mkLongTensor 2 [[7; 8]])) None (beam_args 2 1) tt
  = Err AttributeError.
Proof.
  unfold generate. rewrite (demo_arguments_ok 2 1) by lia. reflexivity.
Qed.


End GenerateFacts.
